(** * Certificate registry: validation, grouping, rendering and routes

    A shallow embedding of the registry's backend router
    (backend/server.js: certificates, settings and accounts), of the
    certificate page (CertificatePage), of the batch documents and ID
    cards, and of the entry form and batch listing of the admin page,
    with the properties of the specification and further properties of
    the code stated over it. *)

From Stdlib Require Import ZArith NArith Ascii String List Bool Lia.
From Stdlib Require Import Numbers.DecimalString Sorting.Sorted Sorting.Permutation.
From Stdlib Require Numbers.DecimalZ Numbers.DecimalPos.
From stdpp Require Import base gmap strings list fin_maps.

Local Open Scope string_scope.
Local Open Scope list_scope.

(** ** JavaScript values and strings *)

Module Js.

(** A string is a sequence of code units. The development works with the
    code units below 256. *)

Definition code (c : ascii) : N := N_of_ascii c.

(** WhiteSpace and LineTerminator code units below 256: TAB, LF, VT, FF, CR,
    SPACE and NO-BREAK SPACE. It is the set removed by [trim] and matched by
    the regular expression class [\s]. *)
Definition isWhiteSpace (c : ascii) : bool :=
  let n := code c in
  ((9 <=? n) && (n <=? 13) || (n =? 32) || (n =? 160))%N.

Definition isDigit (c : ascii) : bool :=
  let n := code c in ((48 <=? n) && (n <=? 57))%N.

Definition isLower (c : ascii) : bool :=
  let n := code c in ((97 <=? n) && (n <=? 122))%N.

Definition isUpper (c : ascii) : bool :=
  let n := code c in ((65 <=? n) && (n <=? 90))%N.

(** The capital letters of Latin-1 above ASCII: U+00C0 to U+00DE without
    the multiplication sign U+00D7. *)
Definition isLatinUpper (c : ascii) : bool :=
  let n := code c in ((192 <=? n) && (n <=? 222) && negb (n =? 215))%N.

(** The small letters of Latin-1 above ASCII that have a capital below
    256: U+00E0 to U+00FE without the division sign U+00F7. *)
Definition isLatinLower (c : ascii) : bool :=
  let n := code c in ((224 <=? n) && (n <=? 254) && negb (n =? 247))%N.

(** The upper case of a code unit below 256. It is the one of
    String.prototype.toUpperCase but for three code units, which are left
    as they are here: U+00B5 (the micro sign, whose upper case is U+039C),
    U+00DF (sharp s, whose upper case is the two units "SS") and U+00FF
    (whose upper case is U+0178). *)
Definition upperChar (c : ascii) : ascii :=
  if isLower c || isLatinLower c then ascii_of_N (code c - 32) else c.

(** The lower case of a code unit below 256, as
    String.prototype.toLowerCase gives it. *)
Definition lowerChar (c : ascii) : ascii :=
  if isUpper c || isLatinUpper c then ascii_of_N (code c + 32) else c.

(** None of the three code units whose upper case is not one code unit
    below 256. *)
Definition upperInRange (c : ascii) : bool :=
  let n := code c in (negb (n =? 181) && negb (n =? 223) && negb (n =? 255))%N.

(** String.prototype.toUpperCase, on a text for which [upperExact] below
    holds. *)
Fixpoint toUpperCase (s : string) : string :=
  match s with
  | EmptyString => EmptyString
  | String c r => String (upperChar c) (toUpperCase r)
  end.

(** String.prototype.toLowerCase *)
Fixpoint toLowerCase (s : string) : string :=
  match s with
  | EmptyString => EmptyString
  | String c r => String (lowerChar c) (toLowerCase r)
  end.

(** The text holds none of the three code units on which [upperChar]
    departs from the code: on such a text [toUpperCase] is
    String.prototype.toUpperCase. *)
Fixpoint upperExact (s : string) : bool :=
  match s with
  | EmptyString => true
  | String c r => upperInRange c && upperExact r
  end.

Fixpoint trimStart (s : string) : string :=
  match s with
  | EmptyString => EmptyString
  | String c r => if isWhiteSpace c then trimStart r else s
  end.

Fixpoint trimEnd (s : string) : string :=
  match s with
  | EmptyString => EmptyString
  | String c r =>
      match trimEnd r with
      | EmptyString => if isWhiteSpace c then EmptyString else String c EmptyString
      | r' => String c r'
      end
  end.

(** String.prototype.trim *)
Definition trim (s : string) : string := trimEnd (trimStart s).

Definition startsWithSpace (s : string) : bool :=
  match s with
  | EmptyString => false
  | String c _ => isWhiteSpace c
  end.

Fixpoint endsWithSpace (s : string) : bool :=
  match s with
  | EmptyString => false
  | String c EmptyString => isWhiteSpace c
  | String _ r => endsWithSpace r
  end.

(** No leading and no trailing white space. *)
Definition trimmed (s : string) : Prop :=
  startsWithSpace s = false /\ endsWithSpace s = false.

(** replace(/\s+/g, "") : every white-space code unit is removed. *)
Fixpoint stripSpaces (s : string) : string :=
  match s with
  | EmptyString => EmptyString
  | String c r => if isWhiteSpace c then stripSpaces r else String c (stripSpaces r)
  end.

(** replace(/\s+/g, " ") : every maximal run of white space becomes one
    space. *)
Fixpoint collapseSpaces (s : string) : string :=
  match s with
  | EmptyString => EmptyString
  | String c r =>
      if isWhiteSpace c
      then (if startsWithSpace r then collapseSpaces r
            else String " " (collapseSpaces r))
      else String c (collapseSpaces r)
  end.

(** The values a parsed request body or a fetched row can hold. Numbers are
    the integers of magnitude below 2^53 (a number with a fraction, or one
    so large that ToString writes it with an exponent, is outside the
    model) and NaN; an array or a nested object is kept as [VObj],
    carrying the text ToString gives for it. *)
Inductive value : Type :=
  | VUndefined
  | VNull
  | VBool (b : bool)
  | VNum (n : Z)
  | VNaN
  | VStr (s : string)
  | VObj (repr : string).

Definition value_eqb (a b : value) : bool :=
  match a, b with
  | VUndefined, VUndefined => true
  | VNull, VNull => true
  | VBool x, VBool y => Bool.eqb x y
  | VNum x, VNum y => Z.eqb x y
  | VStr x, VStr y => String.eqb x y
  | _, _ => false
  end.

(** ToBoolean *)
Definition truthy (v : value) : bool :=
  match v with
  | VUndefined | VNull | VNaN => false
  | VBool b => b
  | VNum n => negb (Z.eqb n 0)
  | VStr s => negb (String.eqb s "")
  | VObj _ => true
  end.

(** a || b *)
Definition orElse (a b : value) : value := if truthy a then a else b.

Definition Z_to_string (n : Z) : string := NilZero.string_of_int (Z.to_int n).

(** ToString *)
Definition toString (v : value) : string :=
  match v with
  | VUndefined => "undefined"
  | VNull => "null"
  | VBool true => "true"
  | VBool false => "false"
  | VNum n => Z_to_string n
  | VNaN => "NaN"
  | VStr s => s
  | VObj r => r
  end.

(** An object literal or a parsed JSON object: its own properties in
    insertion order. A property that is not there reads as undefined. *)
Definition object : Type := list (string * value).

Fixpoint get (o : object) (k : string) : value :=
  match o with
  | [] => VUndefined
  | (k', v) :: r => if String.eqb k' k then v else get r k
  end.

Definition keys (o : object) : list string := map fst o.

(** Completion of a call: a value, or a thrown exception. *)
Inductive completion (A : Type) : Type :=
  | Normal (a : A)
  | Throw (message : string).
Arguments Normal {A} a.
Arguments Throw {A} message.

Definition bind {A B} (c : completion A) (k : A -> completion B) : completion B :=
  match c with
  | Normal a => k a
  | Throw m => Throw m
  end.

(** v.trim() : only a string has the method. *)
Definition callTrim (v : value) : completion value :=
  match v with
  | VStr s => Normal (VStr (trim s))
  | VUndefined | VNull => Throw "TypeError: Cannot read properties of undefined (reading 'trim')"
  | _ => Throw "TypeError: trim is not a function"
  end.

(** v?.trim() : undefined for undefined and null, the call otherwise. *)
Definition optTrim (v : value) : completion value :=
  match v with
  | VUndefined | VNull => Normal VUndefined
  | _ => callTrim v
  end.

(** *** parseInt with no radix argument *)

Definition hexDigit (c : ascii) : option Z :=
  let n := code c in
  if isDigit c then Some (Z.of_N n - 48)%Z
  else if ((97 <=? n) && (n <=? 102))%N then Some (Z.of_N n - 87)%Z
  else if ((65 <=? n) && (n <=? 70))%N then Some (Z.of_N n - 55)%Z
  else None.

Definition digitIn (radix : Z) (c : ascii) : option Z :=
  match hexDigit c with
  | Some d => if (d <? radix)%Z then Some d else None
  | None => None
  end.

(** The longest prefix of digits of the radix, read as a number; [None]
    when the prefix is empty. *)
Fixpoint digitsPrefix (radix : Z) (acc : option Z) (s : string) : option Z :=
  match s with
  | EmptyString => acc
  | String c r =>
      match digitIn radix c with
      | Some d =>
          digitsPrefix radix
            (Some (match acc with Some a => a * radix + d | None => d end)%Z) r
      | None => acc
      end
  end.

Definition parseIntString (s : string) : option Z :=
  let s1 := trimStart s in
  let '(sign, s2) :=
    match s1 with
    | String "-" r => ((-1)%Z, r)
    | String "+" r => (1%Z, r)
    | _ => (1%Z, s1)
    end in
  let '(radix, s3) :=
    match s2 with
    | String "0" (String "x" r) => (16%Z, r)
    | String "0" (String "X" r) => (16%Z, r)
    | _ => (10%Z, s2)
    end in
  match digitsPrefix radix None s3 with
  | Some n => Some (sign * n)%Z
  | None => None
  end.

(** parseInt(v): [None] is NaN. The result is the exact integer; it is the
    number the runtime gives below 2^53, which covers every value the age
    validator lets through. *)
Definition parseInt (v : value) : option Z := parseIntString (toString v).

Definition numValue (p : option Z) : value :=
  match p with
  | Some n => VNum n
  | None => VNaN
  end.

End Js.


Declare Scope completion_scope.
Delimit Scope completion_scope with completion.
Notation "x <- c ;; k" := (Js.bind c (fun x => k))
  (at level 100, c at next level, k at level 200, right associativity)
  : completion_scope.

(** ** Certificate validation and sanitization (backend/server.js) *)

Module Validation.
Import Js.
Local Open Scope completion_scope.

Definition VALID_TRAINING_TYPES : list string :=
  [ "Basic Life Support Training";
    "Basic Life Support and Standard First Aid Training";
    "Basic Life Support Training of trainers";
    "Standard First Aid Training of trainers" ].

Definition VALID_PARTICIPANT_TYPES : list string :=
  [ "Lay Rescuer"; "Healthcare Provider" ].

(** Array.prototype.includes on an array of strings: only an equal string
    is found. *)
Definition includes (l : list string) (v : value) : bool :=
  match v with
  | VStr s => existsb (String.eqb s) l
  | _ => false
  end.

(** Array.prototype.join *)
Fixpoint join (sep : string) (l : list string) : string :=
  match l with
  | [] => ""
  | [x] => x
  | x :: r => x ++ sep ++ join sep r
  end.

Record validation : Type := { valid : bool; errors : list string }.

(** errors.push(msg) under a condition *)
Definition pushIf (c : bool) (msg : string) (errors : list string) : list string :=
  if c then errors ++ [msg] else errors.

(** !data.participant_name || !data.participant_name.trim() *)
Definition nameMissing (data : object) : completion bool :=
  let name := get data "participant_name" in
  if negb (truthy name) then Normal true
  else t <- callTrim name ;; Normal (negb (truthy t)).

Definition badTrainingType (data : object) : bool :=
  truthy (get data "training_type")
  && negb (includes VALID_TRAINING_TYPES (get data "training_type")).

Definition badParticipantType (data : object) : bool :=
  truthy (get data "participant_type")
  && negb (includes VALID_PARTICIPANT_TYPES (get data "participant_type")).

(** data.age !== undefined && data.age !== null && data.age !== "" *)
Definition agePresent (age : value) : bool :=
  match age with
  | VUndefined | VNull => false
  | VStr s => negb (String.eqb s "")
  | _ => true
  end.

(** isNaN(ageNum) || ageNum < 0 || ageNum > 120 *)
Definition ageOutOfRange (ageNum : option Z) : bool :=
  match ageNum with
  | None => true
  | Some n => (n <? 0)%Z || (120 <? n)%Z
  end.

Definition badAge (data : object) : bool :=
  agePresent (get data "age") && ageOutOfRange (parseInt (get data "age")).

Definition validateCertificateData (data : object) : completion validation :=
  missing <- nameMissing data ;;
  let errors := [] in
  let errors := pushIf missing "participant_name is required" errors in
  let errors :=
    pushIf (badTrainingType data)
      ("training_type must be one of: " ++ join ", " VALID_TRAINING_TYPES) errors in
  let errors :=
    pushIf (badParticipantType data)
      ("participant_type must be one of: " ++ join ", " VALID_PARTICIPANT_TYPES)
      errors in
  let errors :=
    pushIf (badAge data) "age must be a valid number between 0 and 120" errors in
  Normal {| valid := Nat.eqb (length errors) 0; errors := errors |}.

(** data.field?.trim() || null *)
Definition trimOrNull (v : value) : completion value :=
  t <- optTrim v ;; Normal (orElse t VNull).

(** data.age ? parseInt(data.age) : null *)
Definition ageOrNull (age : value) : value :=
  if truthy age then numValue (parseInt age) else VNull.

Definition sanitizeCertificateData (data : object) : completion object :=
  participant_name <- trimOrNull (get data "participant_name") ;;
  training_type <- trimOrNull (get data "training_type") ;;
  training_date <- trimOrNull (get data "training_date") ;;
  venue <- trimOrNull (get data "venue") ;;
  facility <- trimOrNull (get data "facility") ;;
  participant_type <- trimOrNull (get data "participant_type") ;;
  let age := ageOrNull (get data "age") in
  position <- trimOrNull (get data "position") ;;
  Normal
    [ ("participant_name", participant_name);
      ("training_type", training_type);
      ("training_date", training_date);
      ("venue", venue);
      ("facility", facility);
      ("participant_type", participant_type);
      ("age", age);
      ("position", position) ].

(** The data passes validation: the validator returns, with no error. *)
Definition passes (data : object) : Prop :=
  exists v, validateCertificateData data = Normal v /\ valid v = true.

(** The fields of a sanitized record and, among them, the string fields. *)
Definition ALLOWED_FIELDS : list string :=
  [ "participant_name"; "training_type"; "training_date"; "venue";
    "facility"; "participant_type"; "age"; "position" ].

Definition STRING_FIELDS : list string :=
  [ "participant_name"; "training_type"; "training_date"; "venue";
    "facility"; "participant_type"; "position" ].

(** An absent, empty or white-space-only input. *)
Definition blank (v : value) : Prop :=
  v = VUndefined \/ v = VNull \/ exists s, v = VStr s /\ trim s = "".

(** The invariant of a stored record: a non-empty name, and enumerated
    fields that hold a listed value or null. *)
Definition recordInvariant (r : object) : Prop :=
  (exists s, get r "participant_name" = VStr s /\ s <> "")
  /\ (get r "training_type" = VNull
      \/ exists s, In s VALID_TRAINING_TYPES /\ get r "training_type" = VStr s)
  /\ (get r "participant_type" = VNull
      \/ exists s, In s VALID_PARTICIPANT_TYPES /\ get r "participant_type" = VStr s).

(** A request body as the entry form sends it, with a property that is
    no column, and the record made of it. *)
Definition sampleInput : object :=
  [ ("participant_name", VStr "  Ana Cruz ");
    ("training_type", VStr "Basic Life Support Training");
    ("training_date", VStr " January 21-23, 2026");
    ("venue", VStr "");
    ("participant_type", VStr "Lay Rescuer");
    ("age", VStr "34");
    ("remarks", VStr " not a column ") ].

Definition sampleRecord : object :=
  [ ("participant_name", VStr "Ana Cruz");
    ("training_type", VStr "Basic Life Support Training");
    ("training_date", VStr "January 21-23, 2026");
    ("venue", VNull);
    ("facility", VNull);
    ("participant_type", VStr "Lay Rescuer");
    ("age", VNum 34);
    ("position", VNull) ].

(** A sanitized field: null, or a non-empty string with no white space at
    either end. *)
Definition nullOrTrimmedText (v : value) : Prop :=
  v = VNull \/ exists s, v = VStr s /\ s <> "" /\ trimmed s.

(** The record has the eight fields of the allow-list and nothing else,
    and every string in it is trimmed. *)
Definition allowListedAndTrimmed (r : object) : Prop :=
  keys r = ALLOWED_FIELDS
  /\ (forall k, In k (keys r) -> In k ALLOWED_FIELDS)
  /\ (forall k, ~ In k ALLOWED_FIELDS -> get r k = VUndefined)
  /\ (forall k s, get r k = VStr s -> trimmed s).

(** What the sanitizer makes of blank fields and of a falsy age. *)
Definition blanksBecomeNull (data r : object) : Prop :=
  (forall f, In f STRING_FIELDS ->
     nullOrTrimmedText (get r f) /\ (blank (get data f) -> get r f = VNull))
  /\ (truthy (get data "age") = false -> get r "age" = VNull).

(** A body whose age is the number 0. *)
Definition ageZeroInput : object :=
  [ ("participant_name", VStr "Ana Cruz"); ("age", VNum 0) ].

End Validation.

(** ** Certificate records as the pages hold them *)

Module Records.
Import Js.

(** A row of the certificates table as the client receives it, with the
    two further properties the pages look for ([_id] and
    [training_date_range]). A text column is a string or null. *)
Record CertificateRecord : Type := {
  id : Z;
  _id : option string;
  participant_name : option string;
  training_type : option string;
  training_date : option string;
  training_date_range : option string;
  venue : option string;
  facility : option string;
  participant_type : option string;
  age : option Z;
  position : option string
}.

(** x || d for a string or null x: null and the empty string are falsy. *)
Definition orDefault (x : option string) (d : string) : string :=
  match x with
  | Some s => if String.eqb s "" then d else s
  | None => d
  end.

(** Missing, as [||] sees it. *)
Definition missing (x : option string) : Prop := x = None \/ x = Some "".

Fixpoint startsWith (p s : string) : bool :=
  match p, s with
  | EmptyString, _ => true
  | String a p', String b s' => Ascii.eqb a b && startsWith p' s'
  | String _ _, EmptyString => false
  end.

(** String.prototype.includes *)
Fixpoint includes (s sub : string) : bool :=
  startsWith sub s
  || match s with
     | EmptyString => false
     | String _ r => includes r sub
     end.

End Records.

(** ** Batch grouping and listing (admin page) *)

Module Registry.
Import Js Records.

(** cert.field?.toLowerCase().includes(search) *)
Definition fieldIncludes (x : option string) (search : string) : bool :=
  match x with
  | Some s => includes (toLowerCase s) search
  | None => false
  end.

Definition matchesSearch (search : string) (cert : CertificateRecord) : bool :=
  fieldIncludes (participant_name cert) search
  || fieldIncludes (training_date cert) search
  || fieldIncludes (venue cert) search
  || fieldIncludes (facility cert) search.

(** (x || d).toUpperCase().replace(/\s+/g, "") *)
Definition normalize (s : string) : string := stripSpaces (toUpperCase s).

Definition dateKey (cert : CertificateRecord) : string :=
  normalize (orDefault (training_date cert) "NODATE").

Definition typeKey (cert : CertificateRecord) : string :=
  normalize (orDefault (training_type cert) "UNSPECIFIED").

Definition batchId (cert : CertificateRecord) : string :=
  dateKey cert ++ "_" ++ typeKey cert.

(** (x || d).trim().replace(/\s+/g, " ").toUpperCase() *)
Definition display (s : string) : string := toUpperCase (collapseSpaces (trim s)).

Record Batch : Type := {
  displayDate : string;
  trainingType : string;
  certs : list CertificateRecord
}.

Definition newBatch (cert : CertificateRecord) : Batch :=
  {| displayDate := display (orDefault (training_date cert) "NO DATE");
     trainingType := display (orDefault (training_type cert) "UNSPECIFIED");
     certs := [] |}.

Definition pushCert (cert : CertificateRecord) (b : Batch) : Batch :=
  {| displayDate := displayDate b;
     trainingType := trainingType b;
     certs := certs b ++ [cert] |}.

(** The [groups] object: its entries in insertion order. A batch id holds
    an underscore and no lower-case letter, so it is neither an array
    index nor the name of an inherited member. *)
Definition groups : Type := list (string * Batch).

Fixpoint hasKey (g : groups) (k : string) : bool :=
  match g with
  | [] => false
  | (k', _) :: r => String.eqb k' k || hasKey r k
  end.

(** groups[k].certs.push(cert) *)
Fixpoint pushTo (g : groups) (k : string) (cert : CertificateRecord) : groups :=
  match g with
  | [] => []
  | (k', b) :: r =>
      if String.eqb k' k then (k', pushCert cert b) :: r
      else (k', b) :: pushTo r k cert
  end.

(** One turn of the forEach over the filtered records. *)
Definition addCert (g : groups) (cert : CertificateRecord) : groups :=
  let k := batchId cert in
  let g' := if hasKey g k then g else g ++ [(k, newBatch cert)] in
  pushTo g' k cert.

Definition groupCerts (filtered : list CertificateRecord) : groups :=
  fold_left addCert filtered [].

(** The memoized value: Object.entries(groups). *)
Definition filteredAndGroupedCerts
    (list : list CertificateRecord) (searchTerm : string) : groups :=
  let search := toLowerCase searchTerm in
  groupCerts (List.filter (matchesSearch search) list).

(** *** Listing order *)

(** dateStr.split(sep)[0] : the text before the first separator. *)
Fixpoint beforeFirst (sep : ascii) (s : string) : string :=
  match s with
  | EmptyString => EmptyString
  | String c r => if Ascii.eqb c sep then EmptyString else String c (beforeFirst sep r)
  end.

(** The text after the first separator, when there is one. *)
Fixpoint afterFirst (sep : ascii) (s : string) : option string :=
  match s with
  | EmptyString => None
  | String c r => if Ascii.eqb c sep then Some r else afterFirst sep r
  end.

(** dateStr.split(sep)[1] : undefined when there is no separator. *)
Definition secondPart (sep : ascii) (s : string) : option string :=
  match afterFirst sep s with
  | Some r => Some (beforeFirst sep r)
  | None => None
  end.

Section Listing.

(** The runtime's Date constructor on a string: the time value in
    milliseconds, or [None] for an Invalid Date. Which texts it reads is
    up to the runtime. *)
Variable Date_parse : string -> option Z.

(** A Date: its time value, [None] when the date is invalid (NaN). Nothing
    in the body throws on a string, so the catch branch is never taken. *)
Definition getSortableDate (dateStr : string) : option Z :=
  if String.eqb dateStr "" then Some 0%Z
  else
    match afterFirst "-" dateStr with
    | Some _ =>
        let monthDay := trim (beforeFirst "-" dateStr) in
        let yearPart := orDefault (secondPart "," dateStr) " 2026" in
        Date_parse (monthDay ++ "," ++ yearPart)
    | None => Date_parse dateStr
    end.

(** x - y on two dates: NaN when either is invalid. *)
Definition dateDiff (x y : option Z) : option Z :=
  match x, y with
  | Some a, Some b => Some (a - b)%Z
  | _, _ => None
  end.

(** The comparator handed to sort: its first parameter is named [b], its
    second [a]. *)
Definition compareBatches (b a : string * Batch) : option Z :=
  dateDiff (getSortableDate (displayDate (snd a)))
           (getSortableDate (displayDate (snd b))).

(** SortCompare: the comparator's number, NaN counting as +0. *)
Definition sortCompare {A} (comparefn : A -> A -> option Z) (x y : A) : Z :=
  match comparefn x y with
  | Some v => v
  | None => 0%Z
  end.

(** Array.prototype.sort is stable; it is modelled by stable insertion.
    When the comparator is a consistent ordering (here: when every date is
    valid) every conforming implementation returns this list. *)
Fixpoint insertSorted {A} (comparefn : A -> A -> option Z) (x : A) (l : list A)
  : list A :=
  match l with
  | [] => [x]
  | y :: r =>
      if (sortCompare comparefn x y <=? 0)%Z then x :: y :: r
      else y :: insertSorted comparefn x r
  end.

Fixpoint sort {A} (comparefn : A -> A -> option Z) (l : list A) : list A :=
  match l with
  | [] => []
  | x :: r => insertSorted comparefn x (sort comparefn r)
  end.

Definition sortedBatches (g : groups) : groups := sort compareBatches g.

(** sorted.slice(start, end) with start = (currentPage - 1) * itemsPerPage;
    the page number is at least 1. *)
Definition itemsPerPage : nat := 10.

Definition paginatedBatches (g : groups) (currentPage : nat) : groups :=
  firstn itemsPerPage (skipn ((currentPage - 1) * itemsPerPage) (sortedBatches g)).

End Listing.

(** *** Words for the properties of the grouping *)

(** Two texts that differ only in letter case and in white space. *)
Inductive variant : string -> string -> Prop :=
  | variant_nil : variant "" ""
  | variant_letter (c d : ascii) (a b : string) :
      upperChar c = upperChar d -> variant a b -> variant (String c a) (String d b)
  | variant_space_left (c : ascii) (a b : string) :
      isWhiteSpace c = true -> variant a b -> variant (String c a) b
  | variant_space_right (c : ascii) (a b : string) :
      isWhiteSpace c = true -> variant a b -> variant a (String c b).



(** groups[k] *)
Fixpoint lookupBatch (g : groups) (k : string) : option Batch :=
  match g with
  | [] => None
  | (k', b) :: r => if String.eqb k' k then Some b else lookupBatch r k
  end.

(** The records of a list that belong under the key [k], in the order of
    the list. *)
Definition membersOf (k : string) (l : list CertificateRecord) : list CertificateRecord :=
  List.filter (fun c => String.eqb (batchId c) k) l.

Definition record (i : Z) (name date type : option string) : CertificateRecord :=
  {| id := i; _id := None; participant_name := name; training_type := type;
     training_date := date; training_date_range := None; venue := None;
     facility := None; participant_type := None; age := None; position := None |}.

(** What the groups object holds after the records of [l]: under each key
    the records of that key, in the order of [l], and no key twice. *)
Definition grouped (g : groups) (l : list CertificateRecord) : Prop :=
  NoDup (map fst g)
  /\ forall k,
       option_map certs (lookupBatch g k)
       = match membersOf k l with
         | [] => None
         | m => Some m
         end.


(** The time value the listing sorts a batch by. *)
Definition timeOf (Date_parse : string -> option Z) (e : string * Batch) : option Z :=
  getSortableDate Date_parse (displayDate (snd e)).

(** Two records trained on consecutive days. *)
Definition jan5 : CertificateRecord :=
  record 1 (Some "Ana Cruz") (Some "January 5, 2026")
    (Some "Basic Life Support Training").

Definition jan6 : CertificateRecord :=
  record 2 (Some "Ben Reyes") (Some "January 6, 2026")
    (Some "Basic Life Support Training").

(** A reading of the two display dates: midnight UTC of the day, in
    milliseconds. *)
Definition readsTwoDates (s : string) : option Z :=
  if String.eqb s "JANUARY 5, 2026" then Some 1767571200000%Z
  else if String.eqb s "JANUARY 6, 2026" then Some 1767657600000%Z
  else None.

(** Two records of one batch, written in different letter case and
    spacing. *)
Definition written1 : CertificateRecord :=
  record 1 (Some "Ana Cruz") (Some "January 21-23, 2026")
    (Some "Basic Life Support Training").

Definition written2 : CertificateRecord :=
  record 2 (Some "Ben Reyes") (Some " JANUARY 21-23,  2026")
    (Some "basic life support TRAINING ").

(** The comparator of the listing over any key: the key of its first
    parameter is subtracted from the key of its second. *)
Definition secondMinusFirst {A} (key : A -> option Z) (x y : A) : option Z :=
  dateDiff (key y) (key x).

(** [x] may stand before [y] in a list that is descending by key. *)
Definition notBefore {A} (key : A -> option Z) (x y : A) : Prop :=
  exists a b, key x = Some a /\ key y = Some b /\ (b <= a)%Z.




End Registry.

(** ** The certificate page (CertificatePage) *)

Module Certificate.
Import Js Records.

(** *** toTitleCase *)

(** [A-Za-z0-9À-ÿ] *)
Definition isWordStart (c : ascii) : bool :=
  isUpper c || isLower c || isDigit c || (192 <=? code c)%N.

(** The complement of [^\s-] *)
Definition isBreak (c : ascii) : bool := isWhiteSpace c || Ascii.eqb c "-".

Definition SMALL_WORDS : list string :=
  [ "a"; "an"; "and"; "as"; "at"; "but"; "by"; "en"; "for"; "if"; "in";
    "of"; "on"; "or"; "the"; "to"; "v"; "v."; "via" ].

(** match.search(smallWords) > -1 : the whole match is a small word, in
    any letter case. *)
Definition isSmallWord (w : string) : bool :=
  existsb (String.eqb (toLowerCase w)) SMALL_WORDS.

(** match.charAt(0).toUpperCase() + match.substr(1).toLowerCase() *)
Definition capitalize (w : string) : string :=
  match w with
  | EmptyString => EmptyString
  | String c r => String (upperChar c) (toLowerCase r)
  end.

(** The replacement callback, for the match [w] found at [index] in a
    title of [total] code units. *)
Definition replaceWord (total index : nat) (w : string) : string :=
  if (0 <? index)%nat && negb (index + String.length w =? total)%nat && isSmallWord w
  then toLowerCase w
  else capitalize w.

(** The global replace: a match starts at a word-start code unit and runs
    to the next white space or hyphen; [word] is the match being read,
    with the index it started at. *)
Fixpoint scanTitle (total index : nat) (word : option (nat * string)) (s : string)
  : string :=
  match s with
  | EmptyString =>
      match word with
      | Some (start, w) => replaceWord total start w
      | None => EmptyString
      end
  | String c r =>
      match word with
      | Some (start, w) =>
          if isBreak c
          then (replaceWord total start w
                ++ String c (scanTitle total (S index) None r))%string
          else scanTitle total (S index) (Some (start, (w ++ String c EmptyString)%string)) r
      | None =>
          if isWordStart c
          then scanTitle total (S index) (Some (index, String c EmptyString)) r
          else String c (scanTitle total (S index) None r)
      end
  end.

Definition toTitleCase (str : string) : string :=
  scanTitle (String.length str) 0 None str.

(** *** Acronyms *)

Definition TRAINING_MAPPING : list (string * string) :=
  [ ("Basic Life Support Training", "BLS");
    ("Basic Life Support and Standard First Aid Training", "BLS-SFA");
    ("Basic Life Support Training of trainers", "BLS-TOT");
    ("Standard First Aid Training of trainers", "SFA-TOT") ].

Definition PARTICIPANT_MAPPING : list (string * string) :=
  [ ("Lay Rescuer", "LR"); ("Healthcare Provider", "HCP") ].

Fixpoint ownProperty (mapping : list (string * string)) (k : string) : option string :=
  match mapping with
  | [] => None
  | (k', v) :: r => if String.eqb k' k then Some v else ownProperty r k
  end.

(** The members an object literal inherits, by the name of the function
    they hold. *)
Definition INHERITED_FUNCTIONS : list (string * string) :=
  [ ("constructor", "Object");
    ("__defineGetter__", "__defineGetter__");
    ("__defineSetter__", "__defineSetter__");
    ("hasOwnProperty", "hasOwnProperty");
    ("__lookupGetter__", "__lookupGetter__");
    ("__lookupSetter__", "__lookupSetter__");
    ("isPrototypeOf", "isPrototypeOf");
    ("propertyIsEnumerable", "propertyIsEnumerable");
    ("toString", "toString");
    ("valueOf", "valueOf");
    ("toLocaleString", "toLocaleString") ].

Definition inheritedProperty (k : string) : option value :=
  match ownProperty INHERITED_FUNCTIONS k with
  | Some name => Some (VObj ("function " ++ name ++ "() { [native code] }"))
  | None => if String.eqb k "__proto__" then Some (VObj "[object Object]") else None
  end.

Definition inherited (k : string) : bool :=
  match inheritedProperty k with
  | Some _ => true
  | None => false
  end.

(** mapping[text] : the own property, else the inherited member, else
    undefined. *)
Definition lookup (mapping : list (string * string)) (text : string) : value :=
  match ownProperty mapping text with
  | Some v => VStr v
  | None =>
      match inheritedProperty text with
      | Some v => v
      | None => VUndefined
      end
  end.

Definition getTrainingAcronym (text : string) : value :=
  orElse (lookup TRAINING_MAPPING text) (VStr "TRNG").

Definition getParticipantAcronym (text : string) : value :=
  orElse (lookup PARTICIPANT_MAPPING text) (VStr "PART").

(** *** parseFinalDateComponents *)

Fixpoint allDigits (s : string) : bool :=
  match s with
  | EmptyString => true
  | String c r => isDigit c && allDigits r
  end.

Definition fourDigitsAt (s : string) : bool :=
  match s with
  | String a (String b (String c (String d _))) =>
      isDigit a && isDigit b && isDigit c && isDigit d
  | _ => false
  end.

(** dateString.match(/\d{4}/) : the leftmost four digits in a row. *)
Fixpoint matchYear (s : string) : option string :=
  match s with
  | EmptyString => None
  | String _ r => if fourDigitsAt s then Some (substring 0 4 s) else matchYear r
  end.

Definition MONTHS : list string :=
  [ "January"; "February"; "March"; "April"; "May"; "June"; "July";
    "August"; "September"; "October"; "November"; "December" ].

(** [p] is a prefix of [s], letter case set aside. *)
Fixpoint startsWithCI (p s : string) : bool :=
  match p, s with
  | EmptyString, _ => true
  | String a p', String b s' =>
      Ascii.eqb (lowerChar a) (lowerChar b) && startsWithCI p' s'
  | String _ _, EmptyString => false
  end.

(** The alternative of the month pattern that matches at the start of
    [s], the alternatives being tried in order. *)
Definition monthAt (s : string) : option string :=
  find (fun m => startsWithCI m s) MONTHS.

(** dateString.match(/(January|...|December)/gi) : the matched texts, from
    left to right; after a match the scan resumes behind it ([skip] code
    units are still to be passed over). *)
Fixpoint matchMonths (skip : nat) (s : string) : list string :=
  match s with
  | EmptyString => []
  | String _ r =>
      match skip with
      | S k => matchMonths k r
      | O =>
          match monthAt s with
          | Some m =>
              substring 0 (String.length m) s :: matchMonths (String.length m - 1) r
          | None => matchMonths 0 r
          end
      end
  end.

(** Number(run) for a run of digits *)
Fixpoint digitsValue (acc : Z) (s : string) : Z :=
  match s with
  | EmptyString => acc
  | String c r => digitsValue (acc * 10 + (Z.of_N (code c) - 48))%Z r
  end.

(** dateString.match(/\d+/g) : the maximal runs of digits, from left to
    right; [run] is the run being read. *)
Fixpoint digitRuns (run : string) (s : string) : list string :=
  match s with
  | EmptyString => if String.eqb run "" then [] else [run]
  | String c r =>
      if isDigit c then digitRuns (run ++ String c EmptyString) r
      else if String.eqb run "" then digitRuns "" r
      else run :: digitRuns "" r
  end.

Definition allNums (s : string) : list Z := map (digitsValue 0) (digitRuns "" s).

(** n > 0 && n <= 31 && n !== parseInt(year) *)
Definition isDay (year : string) (n : Z) : bool :=
  (0 <? n)%Z && (n <=? 31)%Z
  && negb (match parseIntString year with
           | Some y => (n =? y)%Z
           | None => false
           end).

Record DateComponents : Type := { year : string; month : string; day : Z }.

Definition parseFinalDateComponents (dateString : string) : DateComponents :=
  if String.eqb dateString "" then {| year := "2026"; month := ""; day := 1 |}
  else
    let year := match matchYear dateString with Some y => y | None => "2026" end in
    let monthMatch := matchMonths 0 dateString in
    let month :=
      match monthMatch with
      | [] => ""
      | _ => toTitleCase (List.last monthMatch "")
      end in
    let days := List.filter (isDay year) (allNums dateString) in
    let day := List.last days 1%Z in
    {| year := year; month := month; day := day |}.

(** *** The certificate code *)

Definition dateStringOf (cert : CertificateRecord) : string :=
  orDefault (training_date_range cert) (orDefault (training_date cert) "").

(** cert?._id || cert?.id || "000000", as the template prints it *)
Definition certificateId (cert : CertificateRecord) : string :=
  match _id cert with
  | Some s => if String.eqb s "" then
                (if (id cert =? 0)%Z then "000000" else Z_to_string (id cert))
              else s
  | None => if (id cert =? 0)%Z then "000000" else Z_to_string (id cert)
  end.

Definition certificateCode (cert : CertificateRecord) : string :=
  let trainingType := orDefault (training_type cert) "Training Program" in
  let participantType := orDefault (participant_type cert) "Lay Rescuer" in
  let year := year (parseFinalDateComponents (dateStringOf cert)) in
  "DOHCHD-1-" ++ toString (getTrainingAcronym trainingType)
  ++ "-" ++ toString (getParticipantAcronym participantType)
  ++ "-" ++ year
  ++ "-" ++ certificateId cert.

(** *** The code as the specification words it *)

(** The acronym of the table, the fallback for a type that is unknown or
    missing. *)
Definition acronymOr (mapping : list (string * string)) (fallback : string)
    (t : option string) : string :=
  match ownProperty mapping (orDefault t "") with
  | Some a => a
  | None => fallback
  end.

(** The first four digits in a row of the training date, "2026" when the
    date has none or is missing. *)
Definition yearOr2026 (d : option string) : string :=
  match matchYear (orDefault d "") with
  | Some y => y
  | None => "2026"
  end.

Definition specifiedCode (cert : CertificateRecord) : string :=
  "DOHCHD-1" ++ "-" ++ acronymOr TRAINING_MAPPING "TRNG" (training_type cert)
  ++ "-" ++ acronymOr PARTICIPANT_MAPPING "PART" (participant_type cert)
  ++ "-" ++ yearOr2026 (training_date cert)
  ++ "-" ++ Z_to_string (id cert).

(** The same, a missing participant type counting as "Lay Rescuer". *)
Definition amendedCode (cert : CertificateRecord) : string :=
  "DOHCHD-1" ++ "-" ++ acronymOr TRAINING_MAPPING "TRNG" (training_type cert)
  ++ "-" ++ acronymOr PARTICIPANT_MAPPING "PART"
              (Some (orDefault (participant_type cert) "Lay Rescuer"))
  ++ "-" ++ yearOr2026 (training_date cert)
  ++ "-" ++ Z_to_string (id cert).

(** *** The texts of a page *)

Record page : Type := {
  recipient : string;
  course : string;
  issued : DateComponents;
  footerCode : string;
  signatory : string;
  signatoryTitle : string
}.

(** The component, as the texts it prints that depend on its props. *)
Definition CertificatePage (cert : CertificateRecord)
    (signerName signerPosition : option string) : page :=
  {| recipient := orDefault (participant_name cert) "PARTICIPANT NAME";
     course := orDefault (training_type cert) "Training Program";
     issued := parseFinalDateComponents (dateStringOf cert);
     footerCode := certificateCode cert;
     signatory :=
       match signerName with
       | Some n => if String.eqb n "" then "REGIONAL OVERSIGHT" else toUpperCase n
       | None => "REGIONAL OVERSIGHT"
       end;
     signatoryTitle := orDefault signerPosition "Director IV" |}.

(** *** Words for the date components *)

Fixpoint drop (n : nat) (s : string) : string :=
  match n, s with
  | O, _ => s
  | S k, String _ r => drop k r
  | S _, EmptyString => EmptyString
  end.

(** The year: the four digits at the least index where four digits stand
    in a row, "2026" when there is no such index. *)
Definition yearFound (s y : string) : Prop :=
  (exists i, fourDigitsAt (drop i s) = true
             /\ y = substring 0 4 (drop i s)
             /\ forall j, j < i -> fourDigitsAt (drop j s) = false)
  \/ (y = "2026" /\ forall i, fourDigitsAt (drop i s) = false).

(** The month name stands at index [i] of the text, in any letter case. *)
Definition monthOccurs (name s : string) (i : nat) : Prop :=
  In name MONTHS /\ startsWithCI name (drop i s) = true.

(** The month: the name that stands last in the text, empty when no name
    stands anywhere. *)
Definition monthFound (s m : string) : Prop :=
  (exists i, monthOccurs m s i /\ forall j name, monthOccurs name s j -> j <= i)
  \/ (m = "" /\ forall i name, ~ monthOccurs name s i).

(** A number that can be the day: within 1 and 31 and other than the
    year. *)
Definition dayLike (y : string) (n : Z) : Prop :=
  (1 <= n <= 31)%Z /\ parseIntString y <> Some n.

(** The day: the last number of the text that can be the day, 1 when
    there is none. *)
Definition dayFound (s y : string) (d : Z) : Prop :=
  (exists before after,
     allNums s = before ++ d :: after /\ dayLike y d
     /\ forall n, In n after -> ~ dayLike y n)
  \/ (d = 1%Z /\ forall n, In n (allNums s) -> ~ dayLike y n).

(** Every match of the month pattern, taken index by index. *)
Fixpoint monthsAtAll (s : string) : list string :=
  match s with
  | EmptyString => []
  | String _ r =>
      match monthAt s with
      | Some m => substring 0 (String.length m) s :: monthsAtAll r
      | None => monthsAtAll r
      end
  end.

(** The pattern [name] differs from the lower-case text [p] at an index
    both have. *)
Fixpoint clash (p name : string) : bool :=
  match p, name with
  | String a p', String b name' =>
      negb (Ascii.eqb a (lowerChar b)) || clash p' name'
  | _, _ => false
  end.

(** No month name can start inside a month name. *)
Definition noOverlap : bool :=
  forallb
    (fun m =>
       forallb
         (fun j => forallb (clash (toLowerCase (drop j m))) MONTHS)
         (seq 1 (String.length m - 1)))
    MONTHS.

(** A record whose participant type is missing. *)
Definition missingType : CertificateRecord :=
  {| id := 7; _id := None; participant_name := Some "Ana Cruz";
     training_type := Some "Basic Life Support Training";
     training_date := Some "January 14-18, 2026";
     training_date_range := None; venue := Some "Vigan City";
     facility := Some "Provincial Hospital"; participant_type := None;
     age := Some 34%Z; position := None |}.

(** The type, when there is one, is not the name of an inherited
    member. *)
Definition plainName (x : option string) : Prop :=
  forall t, x = Some t -> inherited t = false.

(** A row as the store serves it: a positive id, no [_id] and no
    [training_date_range], and types that are plain names. *)
Definition storedRow (cert : CertificateRecord) : Prop :=
  missing (_id cert) /\ missing (training_date_range cert)
  /\ (0 < id cert)%Z
  /\ plainName (training_type cert) /\ plainName (participant_type cert).

Fixpoint noBreak (s : string) : bool :=
  match s with
  | EmptyString => true
  | String c r => negb (isBreak c) && noBreak r
  end.

(** One word from end to end, as the title pattern sees it. *)
Definition wordLike (s : string) : bool :=
  match s with
  | EmptyString => false
  | String c r => isWordStart c && noBreak (String c r)
  end.

(** [capitalize], on a text already in lower case. *)
Definition capitalizeLower (s : string) : string :=
  match s with
  | EmptyString => EmptyString
  | String c r => String (upperChar c) r
  end.

(** Each month name is one word, written with a capital. *)
Definition monthsAreWords : bool :=
  forallb
    (fun m => wordLike (toLowerCase m)
              && String.eqb (capitalizeLower (toLowerCase m)) m)
    MONTHS.

End Certificate.

(** ** The store behind the connection pool *)

Module Store.
Import Js.

(** The database server reached through the pool of config/db.js, as far
    as the statements of the router go: two tables, and per connection a
    session that is inside a transaction or not. *)

(** A certificate row: its id and the eight columns the router writes.
    The two timestamps, created_at and updated_at, are left out: a row
    here stands for the id and the eight data columns of a row of the
    table, and two rows that are equal here may differ in the table by
    their timestamps (every UPDATE sets updated_at anew). *)
Record certRow : Type := { row_id : Z; row_fields : object }.

(** The committed data: the certificates table and the key-value settings
    table, whose key is unique. *)
Record tables : Type := {
  certificates : list certRow;
  system_settings : gmap string value
}.

Inductive write : Type :=
  | InsertRow (r : certRow)
  | UpdateRow (id : Z) (fields : object)
  | DeleteRow (id : Z)
  | Upsert (key : string) (v : value).

Definition applyWrite (t : tables) (w : write) : tables :=
  match w with
  | InsertRow r =>
      {| certificates := certificates t ++ [r];
         system_settings := system_settings t |}
  | UpdateRow id fields =>
      {| certificates :=
           map (fun r => if (row_id r =? id)%Z
                         then {| row_id := id; row_fields := fields |} else r)
               (certificates t);
         system_settings := system_settings t |}
  | DeleteRow id =>
      {| certificates := List.filter (fun r => negb (row_id r =? id)%Z) (certificates t);
         system_settings := system_settings t |}
  | Upsert key v =>
      {| certificates := certificates t;
         system_settings := <[key := v]> (system_settings t) |}
  end.

Definition applyWrites (t : tables) (ws : list write) : tables :=
  fold_left applyWrite ws t.

(** One connection of the pool. Outside a transaction every statement
    commits on its own; inside one the writes wait for COMMIT, and after a
    failed statement the transaction takes nothing more until it ends. *)
Record session : Type := {
  inTransaction : bool;
  aborted : bool;
  pending : list write
}.

Definition idle : session :=
  {| inTransaction := false; aborted := false; pending := [] |}.

(** The server: the committed tables, the sequence behind the certificate
    ids (not transactional) and the sessions of the pooled connections.
    Row locks are not modelled. *)
Record database : Type := {
  committed : tables;
  nextId : Z;
  sessions : gmap nat session
}.

Definition sessionOf (db : database) (i : nat) : session :=
  default idle (sessions db !! i).

Definition setSession (db : database) (i : nat) (s : session) : database :=
  {| committed := committed db; nextId := nextId db;
     sessions := <[i := s]> (sessions db) |}.

(** The statements the router sends. *)
Inductive statement : Type :=
  | BEGIN
  | COMMIT
  | ROLLBACK
  | SelectCertificates
  | SelectCertificateId (id : Z)
  | InsertCertificate (fields : object)
  | UpdateCertificate (id : Z) (fields : object)
  | DeleteCertificate (id : Z)
  | SelectSettings
  | UpsertSetting (key : string) (v : value).

Inductive result : Type :=
  | CertRows (rows : list certRow)
  | SettingRows (rows : list (string * value))
  | Failure (message : string).

(** What the session sees: the committed tables under its own pending
    writes. *)
Definition view (db : database) (s : session) : tables :=
  applyWrites (committed db) (pending s).

(** A write, in the session [i]: held back inside a transaction,
    committed at once outside. *)
Definition doWrite (db : database) (i : nat) (w : write) : database :=
  let s := sessionOf db i in
  if inTransaction s
  then setSession db i
         {| inTransaction := true; aborted := aborted s; pending := pending s ++ [w] |}
  else {| committed := applyWrite (committed db) w; nextId := nextId db;
          sessions := sessions db |}.

Fixpoint insertDesc (r : certRow) (l : list certRow) : list certRow :=
  match l with
  | [] => [r]
  | x :: l' => if (row_id x <=? row_id r)%Z then r :: x :: l' else x :: insertDesc r l'
  end.

(** ORDER BY id DESC *)
Definition orderByIdDesc (l : list certRow) : list certRow :=
  fold_right insertDesc [] l.

Section Exec.

(** The statements the server refuses: a constraint, a text it cannot
    encode, a lost connection. *)
Variable rejects : statement -> bool.

(** A statement that is not transaction control, run in session [i]. *)
Definition execData (db : database) (i : nat) (stmt : statement) : database * result :=
  let s := sessionOf db i in
  let t := view db s in
  match stmt with
  | SelectCertificates => (db, CertRows (orderByIdDesc (certificates t)))
  | SelectCertificateId id =>
      (db, CertRows (List.filter (fun r => (row_id r =? id)%Z) (certificates t)))
  | InsertCertificate fields =>
      let r := {| row_id := nextId db; row_fields := fields |} in
      let db1 := {| committed := committed db; nextId := (nextId db + 1)%Z;
                    sessions := sessions db |} in
      (doWrite db1 i (InsertRow r), CertRows [r])
  | UpdateCertificate id fields =>
      (doWrite db i (UpdateRow id fields),
       CertRows (map (fun _ => {| row_id := id; row_fields := fields |})
                     (List.filter (fun r => (row_id r =? id)%Z) (certificates t))))
  | DeleteCertificate id => (doWrite db i (DeleteRow id), CertRows [])
  | SelectSettings =>
      (db, SettingRows
             (List.filter (fun kv => Records.startsWith "off" (fst kv))
                          (map_to_list (system_settings t))))
  | UpsertSetting key v => (doWrite db i (Upsert key v), CertRows [])
  | BEGIN | COMMIT | ROLLBACK => (db, CertRows [])
  end.

(** A statement run in session [i]. *)
Definition exec (db : database) (i : nat) (stmt : statement) : database * result :=
  let s := sessionOf db i in
  if rejects stmt then
    ((if inTransaction s
      then setSession db i
             {| inTransaction := true; aborted := true; pending := pending s |}
      else db),
     Failure "the statement failed")
  else
    match stmt with
    | BEGIN =>
        ((if inTransaction s then db
          else setSession db i
                 {| inTransaction := true; aborted := false; pending := [] |}),
         CertRows [])
    | COMMIT =>
        ((if inTransaction s && negb (aborted s)
          then {| committed := view db s; nextId := nextId db;
                  sessions := <[i := idle]> (sessions db) |}
          else setSession db i idle),
         CertRows [])
    | ROLLBACK => (setSession db i idle, CertRows [])
    | _ =>
        if inTransaction s && aborted s
        then (db, Failure "current transaction is aborted")
        else execData db i stmt
    end.

End Exec.

End Store.

(** ** The router (backend/server.js) *)

Module Server.
Import Js Validation Store.

Inductive method : Type := GET | POST | PUT | DELETE.

(** A request below /api/auth: the path segments, the token cookie and
    the parsed body. *)
Record request : Type := {
  req_method : method;
  req_path : list string;
  req_token : option string;
  req_body : object
}.

Inductive reply : Type :=
  | Message (message : string)
  | ValidationFailed (errors : list string)
  | Certificate (row : option certRow)
  | Certificates (rows : list certRow)
  | SettingsObject (settings : list (string * value))
  | User (id : Z).

Record response : Type := { status : Z; body : reply }.

(** The pool and the count of the queries sent through it so far. *)
Record pool : Type := { db : database; sent : nat }.

(** A handler step: it may throw, and it may send queries. *)
Definition handler (A : Type) : Type := pool -> completion A * pool.

Definition ret {A} (a : A) : handler A := fun p => (Normal a, p).

Definition throw {A} (message : string) : handler A := fun p => (Throw message, p).

Definition andThen {A B} (c : handler A) (k : A -> handler B) : handler B :=
  fun p =>
    match c p with
    | (Normal a, p') => k a p'
    | (Throw m, p') => (Throw m, p')
    end.

(** try { c } catch (err) { h err } *)
Definition tryCatch {A} (c : handler A) (h : string -> handler A) : handler A :=
  fun p =>
    match c p with
    | (Normal a, p') => (Normal a, p')
    | (Throw m, p') => h m p'
    end.

Definition lift {A} (c : completion A) : handler A := fun p => (c, p).

Declare Scope handler_scope.
Delimit Scope handler_scope with handler.
Notation "x <- c ;; k" := (andThen c (fun x => k))
  (at level 100, c at next level, k at level 200, right associativity)
  : handler_scope.
Notation "c ;;; k" := (andThen c (fun _ => k))
  (at level 100, k at level 200, right associativity) : handler_scope.
Local Open Scope handler_scope.

Definition VALID_KEYS : list string :=
  [ "off1_name"; "off1_pos"; "off1_sig"; "off2_name"; "off2_pos";
    "off3_name"; "off3_pos" ].

Inductive endpoint : Type :=
  | Me
  | ListCertificates
  | CreateCertificate
  | UpdateCertificateById
  | DeleteCertificateById
  | GetSettings
  | UpdateSettings.

Inductive segment : Type := Lit (s : string) | Param.

Record route : Type := {
  route_method : method;
  route_path : list segment;
  route_protect : bool;
  route_endpoint : endpoint
}.

(** The routes over certificates and settings, and /me, in the order the
    router registers them, each with whether [protect] stands before its
    handler. The other routes (register, login, logout and
    certificates/date/:date) are outside this model. *)
Definition ROUTES : list route :=
  [ {| route_method := GET; route_path := [Lit "me"];
       route_protect := true; route_endpoint := Me |};
    {| route_method := GET; route_path := [Lit "certificates"];
       route_protect := false; route_endpoint := ListCertificates |};
    {| route_method := POST; route_path := [Lit "certificates"];
       route_protect := false; route_endpoint := CreateCertificate |};
    {| route_method := PUT; route_path := [Lit "certificates"; Param];
       route_protect := false; route_endpoint := UpdateCertificateById |};
    {| route_method := DELETE; route_path := [Lit "certificates"; Param];
       route_protect := true; route_endpoint := DeleteCertificateById |};
    {| route_method := GET; route_path := [Lit "settings"];
       route_protect := false; route_endpoint := GetSettings |};
    {| route_method := POST; route_path := [Lit "settings"];
       route_protect := true; route_endpoint := UpdateSettings |} ].

Definition method_eqb (a b : method) : bool :=
  match a, b with
  | GET, GET | POST, POST | PUT, PUT | DELETE, DELETE => true
  | _, _ => false
  end.

(** The path matches the pattern; the value of the parameter, if any. *)
Fixpoint matchPath (pat : list segment) (path : list string) : option (option string) :=
  match pat, path with
  | [], [] => Some None
  | Lit s :: pat', x :: path' =>
      if String.eqb s x then matchPath pat' path' else None
  | Param :: pat', x :: path' =>
      if String.eqb x "" then None
      else match matchPath pat' path' with
           | Some _ => Some (Some x)
           | None => None
           end
  | _, _ => None
  end.

Fixpoint findRoute (routes : list route) (req : request) : option (route * option string) :=
  match routes with
  | [] => None
  | r :: rest =>
      if method_eqb (route_method r) (req_method req)
      then match matchPath (route_path r) (req_path req) with
           | Some param => Some (r, param)
           | None => findRoute rest req
           end
      else findRoute rest req
  end.

Section Router.

Variable rejects : statement -> bool.

(** The connection that serves the n-th query: pool.query checks a client
    out for one statement and hands it back, so which client serves a
    statement is up to the pool and to the other requests in flight. *)
Variable schedule : nat -> nat.

(** Token verification: the user id a valid token was signed for. *)
Variable verify : string -> option Z.

(** await pool.query(...) *)
Definition query (stmt : statement) : handler result :=
  fun p =>
    let '(db', r) := exec rejects (db p) (schedule (sent p)) stmt in
    let p' := {| db := db'; sent := S (sent p) |} in
    match r with
    | Failure m => (Throw m, p')
    | _ => (Normal r, p')
    end.

Definition certRowsOf (r : result) : list certRow :=
  match r with
  | CertRows rows => rows
  | _ => []
  end.

Definition settingRowsOf (r : result) : list (string * value) :=
  match r with
  | SettingRows rows => rows
  | _ => []
  end.

(** Modelled from the spec: the middleware [protect] of
    middleware/auth.js. It validates the token of the cookie and resolves
    the identity, or rejects with the unauthorized status. *)
Definition protect (req : request) : option Z :=
  match req_token req with
  | Some token => verify token
  | None => None
  end.

Definition unauthorized : response :=
  {| status := 401; body := Message "Not authorized" |}.

Definition getMe (user : Z) : handler response :=
  ret {| status := 200; body := User user |}.

Definition getCertificates : handler response :=
  tryCatch
    (allCerts <- query SelectCertificates ;;
     ret {| status := 200; body := Certificates (certRowsOf allCerts) |})
    (fun _ => ret {| status := 500; body := Message "Failed to fetch certificates" |}).

Definition postCertificates (req : request) : handler response :=
  tryCatch
    (validation <- lift (validateCertificateData (req_body req)) ;;
     if negb (valid validation)
     then ret {| status := 400; body := ValidationFailed (errors validation) |}
     else
       sanitized <- lift (sanitizeCertificateData (req_body req)) ;;
       newCert <- query (InsertCertificate sanitized) ;;
       ret {| status := 201; body := Certificate (head (certRowsOf newCert)) |})
    (fun _ => ret {| status := 500; body := Message "Failed to create certificate" |}).

Definition putCertificate (req : request) (id : string) : handler response :=
  tryCatch
    (match parseIntString id with
     | None => ret {| status := 400; body := Message "Invalid certificate ID" |}
     | Some certId =>
         existing <- query (SelectCertificateId certId) ;;
         match certRowsOf existing with
         | [] => ret {| status := 404; body := Message "Certificate not found" |}
         | _ :: _ =>
             validation <- lift (validateCertificateData (req_body req)) ;;
             if negb (valid validation)
             then ret {| status := 400; body := ValidationFailed (errors validation) |}
             else
               sanitized <- lift (sanitizeCertificateData (req_body req)) ;;
               updated <- query (UpdateCertificate certId sanitized) ;;
               ret {| status := 200; body := Certificate (head (certRowsOf updated)) |}
         end
     end)
    (fun message => ret {| status := 500; body := Message message |}).

Definition deleteCertificate (id : string) : handler response :=
  tryCatch
    (match parseIntString id with
     | None => ret {| status := 400; body := Message "Invalid certificate ID" |}
     | Some certId =>
         existing <- query (SelectCertificateId certId) ;;
         match certRowsOf existing with
         | [] => ret {| status := 404; body := Message "Certificate not found" |}
         | _ :: _ =>
             query (DeleteCertificate certId) ;;;
             ret {| status := 200; body := Message "Certificate deleted successfully" |}
         end
     end)
    (fun _ => ret {| status := 500; body := Message "Failed to delete certificate" |}).

Definition getSettings : handler response :=
  tryCatch
    (rows <- query SelectSettings ;;
     ret {| status := 200; body := SettingsObject (settingRowsOf rows) |})
    (fun _ => ret {| status := 500; body := Message "Failed to fetch system settings" |}).

(** for (const key of keys) { await pool.query(upsert, [key, value || ""]) } *)
Fixpoint upsertAll (settings : object) (keys : list string) : handler unit :=
  match keys with
  | [] => ret tt
  | key :: rest =>
      let value := get settings key in
      query (UpsertSetting key (orElse value (VStr ""))) ;;;
      upsertAll settings rest
  end.

(** The body is an object here, so the first check of the handler (not an
    object) never fires. *)
Definition postSettings (req : request) : handler response :=
  tryCatch
    (let settings := req_body req in
     let keys := Js.keys settings in
     match keys with
     | [] => ret {| status := 400; body := Message "No settings provided" |}
     | _ :: _ =>
         let invalidKeys :=
           List.filter (fun key => negb (existsb (String.eqb key) VALID_KEYS)) keys in
         match invalidKeys with
         | _ :: _ =>
             ret {| status := 400;
                    body := Message ("Invalid setting keys: " ++ join ", " invalidKeys) |}
         | [] =>
             query BEGIN ;;;
             tryCatch
               (upsertAll settings keys ;;;
                query COMMIT ;;;
                ret {| status := 200;
                       body := Message "System settings updated successfully" |})
               (fun err => query ROLLBACK ;;; throw err)
         end
     end)
    (fun _ => ret {| status := 500; body := Message "Failed to update system settings" |}).

Definition handle (e : endpoint) (req : request) (param : option string)
    (user : option Z) : handler response :=
  match e with
  | Me => getMe (default 0%Z user)
  | ListCertificates => getCertificates
  | CreateCertificate => postCertificates req
  | UpdateCertificateById => putCertificate req (default "" param)
  | DeleteCertificateById => deleteCertificate (default "" param)
  | GetSettings => getSettings
  | UpdateSettings => postSettings req
  end.

(** The endpoint whose handler the request reaches: none when no route of
    the model matches or when [protect] turns the request away. *)
Definition reaches (req : request) : option endpoint :=
  match findRoute ROUTES req with
  | None => None
  | Some (r, _) =>
      if route_protect r
      then match protect req with
           | Some _ => Some (route_endpoint r)
           | None => None
           end
      else Some (route_endpoint r)
  end.

(** The router on one request: [None] when no route of the model
    matches. *)
Definition serve (req : request) : handler (option response) :=
  match findRoute ROUTES req with
  | None => ret None
  | Some (r, param) =>
      if route_protect r
      then match protect req with
           | None => ret (Some unauthorized)
           | Some user =>
               resp <- handle (route_endpoint r) req param (Some user) ;;
               ret (Some resp)
           end
      else
        resp <- handle (route_endpoint r) req param None ;;
        ret (Some resp)
  end.

End Router.

(** The endpoints that change stored records. *)
Definition mutating (e : endpoint) : bool :=
  match e with
  | CreateCertificate | UpdateCertificateById | DeleteCertificateById
  | UpdateSettings => true
  | _ => false
  end.

(** Every endpoint that changes stored records is out of reach without a
    valid token. *)
Definition everyMutationGated : Prop :=
  forall (verify : string -> option Z) (req : request) (e : endpoint),
    protect verify req = None -> reaches verify req = Some e -> mutating e = false.

(** An empty store with no connection in use. *)
Definition emptyDatabase : database :=
  {| committed := {| certificates := []; system_settings := ∅ |};
     nextId := 1;
     sessions := ∅ |}.

(** A text with a NUL code unit is one the server cannot store. *)
Fixpoint hasNul (s : string) : bool :=
  match s with
  | EmptyString => false
  | String c r => (code c =? 0)%N || hasNul r
  end.

Definition rejectsNul (stmt : statement) : bool :=
  match stmt with
  | UpsertSetting _ (VStr s) => hasNul s
  | _ => false
  end.

(** *** Requests and pools for the properties *)

Definition start : pool := {| db := emptyDatabase; sent := 0 |}.

(** The server refuses nothing. *)
Definition acceptsAll (_ : statement) : bool := false.

(** A request to create a certificate that carries no token. *)
Definition anonymousCreate : request :=
  {| req_method := POST; req_path := ["certificates"]; req_token := None;
     req_body := [("participant_name", VStr "Ana Cruz")] |}.

Definition createdRow : certRow :=
  {| row_id := 1;
     row_fields :=
       [ ("participant_name", VStr "Ana Cruz"); ("training_type", VNull);
         ("training_date", VNull); ("venue", VNull); ("facility", VNull);
         ("participant_type", VNull); ("age", VNull); ("position", VNull) ] |}.

(** A store that holds that row. *)
Definition oneRow : pool :=
  {| db := {| committed := {| certificates := [createdRow]; system_settings := ∅ |};
              nextId := 2; sessions := ∅ |};
     sent := 0 |}.

(** A request to rename the participant of row 1 that carries no token. *)
Definition anonymousUpdate : request :=
  {| req_method := PUT; req_path := ["certificates"; "1"]; req_token := None;
     req_body := [("participant_name", VStr "Someone Else")] |}.

Definition renamedRow : certRow :=
  {| row_id := 1;
     row_fields :=
       [ ("participant_name", VStr "Someone Else"); ("training_type", VNull);
         ("training_date", VNull); ("venue", VNull); ("facility", VNull);
         ("participant_type", VNull); ("age", VNull); ("position", VNull) ] |}.

(** A settings update of two keys, the second with a text the server
    cannot store. *)
Definition twoSettings : request :=
  {| req_method := POST; req_path := ["settings"]; req_token := Some "token";
     req_body :=
       [ ("off1_name", VStr "Dr. Paula Sanchez");
         ("off1_pos", VStr (String Ascii.zero "Director")) ] |}.

(** The pool serves BEGIN on one connection and what follows on
    another. *)
Definition beginElsewhere (n : nat) : nat :=
  match n with
  | O => 0
  | S _ => 1
  end.

(** The upserts of a settings update, in the order of its keys. *)
Definition upsertsOf (settings : object) : list write :=
  map (fun key => Upsert key (orElse (get settings key) (VStr ""))) (keys settings).

End Server.

(** ** Accounts: registration, login and logout (backend/server.js) *)

Module Accounts.
Import Js.

Definition PASSWORD_MIN_LENGTH : nat := 8.
Definition USERNAME_MIN_LENGTH : nat := 3.
Definition USERNAME_MAX_LENGTH : nat := 50.

(** The result of a validator: valid, with the value it hands on if any,
    or not valid, with the message. *)
Inductive verdict : Type :=
  | Valid (value : option string)
  | Invalid (message : string).

Definition isValid (v : verdict) : bool :=
  match v with
  | Valid _ => true
  | Invalid _ => false
  end.

Fixpoint allChars (p : ascii -> bool) (s : string) : bool :=
  match s with
  | EmptyString => true
  | String c r => p c && allChars p r
  end.

Fixpoint someChar (p : ascii -> bool) (s : string) : bool :=
  match s with
  | EmptyString => false
  | String c r => p c || someChar p r
  end.

(** [a-zA-Z0-9_] *)
Definition isNameChar (c : ascii) : bool :=
  isLower c || isUpper c || isDigit c || Ascii.eqb c "_".

Definition count (n : nat) : string := Z_to_string (Z.of_nat n).

Definition validateUsername (username : value) : verdict :=
  match username with
  | VStr s =>
      if String.eqb s "" then Invalid "Username is required"
      else
        let trimmed := trim s in
        if (String.length trimmed <? USERNAME_MIN_LENGTH)%nat
        then Invalid ("Username must be at least " ++ count USERNAME_MIN_LENGTH
                      ++ " characters")
        else if (USERNAME_MAX_LENGTH <? String.length trimmed)%nat
        then Invalid ("Username must be less than " ++ count USERNAME_MAX_LENGTH
                      ++ " characters")
        else if negb (negb (String.eqb trimmed "") && allChars isNameChar trimmed)
        then Invalid "Username can only contain letters, numbers, and underscores"
        else Valid (Some trimmed)
  | _ => Invalid "Username is required"
  end.

Definition validatePassword (password : value) : verdict :=
  match password with
  | VStr s =>
      if String.eqb s "" then Invalid "Password is required"
      else if (String.length s <? PASSWORD_MIN_LENGTH)%nat
      then Invalid ("Password must be at least " ++ count PASSWORD_MIN_LENGTH
                    ++ " characters")
      else if negb (someChar isUpper s)
      then Invalid "Password must contain at least one uppercase letter"
      else if negb (someChar isLower s)
      then Invalid "Password must contain at least one lowercase letter"
      else if negb (someChar isDigit s)
      then Invalid "Password must contain at least one number"
      else Valid None
  | _ => Invalid "Password is required"
  end.

(** A row of the users table (the creation time is left out). *)
Record user : Type := { user_id : Z; user_name : string; user_password : string }.

(** The users table and the sequence behind its ids. *)
Record accounts : Type := { users : list user; nextUserId : Z }.

Inductive statement : Type :=
  | SelectUserId (name : string)
  | InsertUser (name hashed : string)
  | SelectUser (name : string).

Inductive reply : Type :=
  | Message (message : string)
  | UserInfo (id : Z) (name : string).

(** What the response does to the token cookie. *)
Inductive cookie : Type :=
  | Untouched
  | SetToken (token : string)
  | ClearToken.

Record response : Type := { status : Z; body : reply; setCookie : cookie }.

(** A step of a handler: it may throw, and it may change the table. *)
Definition step (A : Type) : Type := accounts -> completion A * accounts.

Definition ret {A} (a : A) : step A := fun t => (Normal a, t).

Definition throw {A} (message : string) : step A := fun t => (Throw message, t).

Definition andThen {A B} (c : step A) (k : A -> step B) : step B :=
  fun t =>
    match c t with
    | (Normal a, t') => k a t'
    | (Throw m, t') => (Throw m, t')
    end.

(** try { c } catch (err) { return answer } *)
Definition orAnswer (c : step response) (answer : response) : accounts -> response * accounts :=
  fun t =>
    match c t with
    | (Normal r, t') => (r, t')
    | (Throw _, t') => (answer, t')
    end.

Definition lift {A} (c : completion A) : step A := fun t => (c, t).

Declare Scope step_scope.
Delimit Scope step_scope with step.
Notation "x <- c ;; k" := (andThen c (fun x => k))
  (at level 100, c at next level, k at level 200, right associativity)
  : step_scope.
Local Open Scope step_scope.

Definition withName (name : string) (u : user) : bool := String.eqb (user_name u) name.

Section Handlers.

(** The statements the server refuses. *)
Variable rejects : statement -> bool.

(** bcrypt: the hash of a password under a salt, and the comparison of a
    password with a stored hash. *)
Variable hash : string -> string -> string.
Variable compare : string -> string -> bool.

(** The signing secret of the environment, if it is set, and jwt.sign:
    the token signed under a key for a user id at a time of the clock,
    which the library stamps into it (issued at, and the expiry thirty
    days on). *)
Variable secret : option string.
Variable sign : string -> Z -> Z -> string.

(** await pool.query(...) on the users table *)
Definition query (stmt : statement) : step (list user) :=
  fun t =>
    if rejects stmt then (Throw "the statement failed", t)
    else
      match stmt with
      | SelectUserId name | SelectUser name =>
          (Normal (List.filter (withName name) (users t)), t)
      | InsertUser name hashed =>
          let u := {| user_id := nextUserId t; user_name := name; user_password := hashed |} in
          (Normal [u],
           {| users := users t ++ [u]; nextUserId := (nextUserId t + 1)%Z |})
      end.

(** [now] is the time of the call. A secret that is not set, or is the
    empty text, is falsy. *)
Definition generateToken (now : Z) (id : Z) : completion string :=
  match secret with
  | Some key =>
      if String.eqb key ""
      then Throw "JWT_SECRET is not defined in environment variables"
      else Normal (sign key id now)
  | None => Throw "JWT_SECRET is not defined in environment variables"
  end.

Definition answer (status : Z) (message : string) : response :=
  {| status := status; body := Message message; setCookie := Untouched |}.

(** router.post("/register"); [salt] is the salt bcrypt draws for this
    call and [now] the time at which the token is signed. *)
Definition register (salt : string) (now : Z) (body : object)
  : accounts -> response * accounts :=
  orAnswer
    (let username := get body "username" in
     let password := get body "password" in
     match validateUsername username with
     | Invalid message => ret (answer 400 message)
     | Valid name =>
         match validatePassword password with
         | Invalid message => ret (answer 400 message)
         | Valid _ =>
             let name := default "" name in
             userExists <- query (SelectUserId name) ;;
             match userExists with
             | _ :: _ => ret (answer 400 "Username already exists")
             | [] =>
                 let hashedPassword := hash salt (toString password) in
                 newUser <- query (InsertUser name hashedPassword) ;;
                 match newUser with
                 | [] => throw "TypeError: Cannot read properties of undefined (reading 'id')"
                 | u :: _ =>
                     token <- lift (generateToken now (user_id u)) ;;
                     ret {| status := 201;
                            body := UserInfo (user_id u) (user_name u);
                            setCookie := SetToken token |}
                 end
             end
         end
     end)
    (answer 500 "Server error during registration").

(** bcrypt.compare(password, hashed): it throws unless the password is a
    string. *)
Definition comparePassword (password : value) (hashed : string) : completion bool :=
  match password with
  | VStr p => Normal (compare p hashed)
  | _ => Throw "Illegal arguments"
  end.

(** router.post("/login"); [now] is the time at which the token is
    signed. *)
Definition login (now : Z) (body : object) : accounts -> response * accounts :=
  orAnswer
    (let username := get body "username" in
     let password := get body "password" in
     if negb (truthy username) || negb (truthy password)
     then ret (answer 400 "All fields are required")
     else
       trimmed <- lift (callTrim username) ;;
       found <- query (SelectUser (toString trimmed)) ;;
       match found with
       | [] => ret (answer 401 "Invalid credentials")
       | userData :: _ =>
           isMatch <- lift (comparePassword password (user_password userData)) ;;
           if negb isMatch then ret (answer 401 "Invalid credentials")
           else
             token <- lift (generateToken now (user_id userData)) ;;
             ret {| status := 200;
                    body := UserInfo (user_id userData) (user_name userData);
                    setCookie := SetToken token |}
       end)
    (answer 500 "Server error during login").

(** router.post("/logout") *)
Definition logout : response :=
  {| status := 200; body := Message "Identity De-authorized"; setCookie := ClearToken |}.

End Handlers.

(** The user names of the table. *)
Definition names (t : accounts) : list string := map user_name (users t).

(** A body with a user name and a password. *)
Definition credentials (name pass : string) : object :=
  [ ("username", VStr name); ("password", VStr pass) ].

Definition noAccounts : accounts := {| users := []; nextUserId := 1 |}.

(** Stand-ins for the libraries in the examples: a hash that keeps salt
    and password apart, its comparison, and a token that names the id and
    the time it was signed at. *)
Definition sampleHash (salt pass : string) : string := salt ++ "$" ++ pass.

Definition sampleCompare (pass hashed : string) : bool :=
  match Registry.afterFirst "$" hashed with
  | Some p => String.eqb p pass
  | None => false
  end.

Definition sampleSign (key : string) (id now : Z) : string :=
  key ++ "." ++ Z_to_string id ++ "." ++ Z_to_string now.

Definition acceptsAll (_ : statement) : bool := false.

(** A user name as the registration lets it in: 3 to 50 letters, digits
    and underscores. *)
Definition wellFormedName (s : string) : Prop :=
  (USERNAME_MIN_LENGTH <= String.length s <= USERNAME_MAX_LENGTH)%nat
  /\ allChars isNameChar s = true.

(** A password as the registration lets it in. *)
Definition strongPassword (s : string) : Prop :=
  (PASSWORD_MIN_LENGTH <= String.length s)%nat
  /\ someChar isUpper s = true /\ someChar isLower s = true
  /\ someChar isDigit s = true.

(** The users table is in order: no name twice, every name well
    formed. *)
Definition inOrder (t : accounts) : Prop :=
  NoDup (names t) /\ Forall wellFormedName (names t).

(** The account a registration adds. *)
Definition added (t : accounts) (name hashed : string) : accounts :=
  {| users := users t ++ [{| user_id := nextUserId t; user_name := name;
                             user_password := hashed |}];
     nextUserId := (nextUserId t + 1)%Z |}.

End Accounts.

(** ** The issue line of the certificate page *)

Module Printing.
Import Js.

(** s[i] for the array of the four suffixes: an index that is no array
    index, or one past the end, reads as undefined. The index -0 reads
    the first element, as 0 does. *)
Definition suffixAt (i : Z) : option string :=
  if (i <? 0)%Z then None
  else nth_error ["th"; "st"; "nd"; "rd"] (Z.to_nat i).

(** The suffix of getOrdinal: s[(v - 20) % 10] || s[v] || s[0]. The
    remainder has the sign of the dividend. *)
Definition ordinalSuffix (n : Z) : string :=
  let v := Z.rem n 100 in
  match suffixAt (Z.rem (v - 20) 10) with
  | Some x => x
  | None =>
      match suffixAt v with
      | Some x => x
      | None => "th"
      end
  end.

Definition getOrdinal (n : Z) : string := (Z_to_string n ++ ordinalSuffix n)%string.

(** The suffix English gives the ordinal of [n]. *)
Definition englishOrdinal (n : Z) (suffix : string) : Prop :=
  let teen := (11 <= n mod 100 <= 13)%Z in
  (suffix = "st" /\ (n mod 10 = 1)%Z /\ ~ teen)
  \/ (suffix = "nd" /\ (n mod 10 = 2)%Z /\ ~ teen)
  \/ (suffix = "rd" /\ (n mod 10 = 3)%Z /\ ~ teen)
  \/ (suffix = "th" /\ (teen \/ (n mod 10 = 0)%Z \/ (4 <= n mod 10)%Z)).

End Printing.

(** ** The batch documents (CertPDF.jsx, BatchCertPDF.jsx and the ID cards
    of ManualCropperModal.jsx) *)

Module Cards.
Import Js Records.

(** An element of the [certs] prop: a record, or null or undefined. *)
Definition element : Type := option CertificateRecord.

(** Boolean(cert._id || cert.id) *)
Definition hasId (cert : CertificateRecord) : bool :=
  match _id cert with
  | Some s => if String.eqb s "" then negb (id cert =? 0)%Z else true
  | None => negb (id cert =? 0)%Z
  end.

(** Boolean(cert.participant_name?.trim()) *)
Definition hasName (cert : CertificateRecord) : bool :=
  match participant_name cert with
  | Some s => negb (String.eqb (trim s) "")
  | None => false
  end.

(** BatchCertPDF.jsx *)
Definition isValidCertificate (cert : element) : bool :=
  match cert with
  | None => false
  | Some c => hasId c && hasName c
  end.

(** certs.forEach: the valid certificates in their order, and the count
    of the others. *)
Definition validAndInvalid (certs : list element) : list element * nat :=
  fold_left
    (fun acc cert =>
       if isValidCertificate cert then (fst acc ++ [cert], snd acc)
       else (fst acc, S (snd acc)))
    certs ([], 0).

Record participantCheck : Type := { isValid : bool; errors : list string }.

(** ManualCropperModal.jsx *)
Definition validateParticipant (person : element) : participantCheck :=
  match person with
  | None => {| isValid := false; errors := ["Participant data is null or undefined"] |}
  | Some p =>
      let errors := [] in
      let errors := if negb (hasId p) then errors ++ ["Missing ID"] else errors in
      let errors :=
        if negb (hasName p) then errors ++ ["Missing participant name"] else errors in
      {| isValid := Nat.eqb (length errors) 0; errors := errors |}
  end.

Inductive code : Type := NO_DATA | MISSING_ID | MISSING_NAME | VALID.

(** x is falsy, for a text column *)
Definition absent (x : option string) : bool :=
  match x with
  | Some s => String.eqb s ""
  | None => true
  end.

(** CertPDF.jsx: the code of the result and the optional fields it warns
    about. The data is a record here, so the check of its type never
    fires. *)
Definition validateCertificateData (data : element) : code * list string :=
  match data with
  | None => (NO_DATA, [])
  | Some d =>
      if negb (hasId d) then (MISSING_ID, [])
      else if negb (hasName d) then (MISSING_NAME, [])
      else
        let warnings := [] in
        let warnings :=
          if absent (training_type d) then warnings ++ ["training_type"] else warnings in
        let warnings :=
          if absent (training_date d) then warnings ++ ["training_date"] else warnings in
        let warnings := if absent (venue d) then warnings ++ ["venue"] else warnings in
        (VALID, warnings)
  end.

(** array.slice(i, i + size) for an index within the array *)
Definition slice {A} (array : list A) (i j : nat) : list A :=
  firstn (j - i) (skipn i array).

(** The loop of chunkArray: for (let i = 0; i < array.length; i += size).
    It runs on while [i] is below the length, so it never ends for the
    size 0; [fuel] bounds the rounds. *)
Fixpoint chunkLoop {A} (fuel : nat) (array : list A) (size i : nat)
    (chunks : list (list A)) : option (list (list A)) :=
  match fuel with
  | O => None
  | S fuel' =>
      if (i <? length array)%nat
      then chunkLoop fuel' array size (i + size) (chunks ++ [slice array i (i + size)])
      else Some chunks
  end.

Definition chunkArray {A} (fuel : nat) (array : list A) (size : nat)
  : option (list (list A)) :=
  chunkLoop fuel array size 0 [].

(** The pages of the ID card document: the valid participants in chunks
    of 8, a front page for each chunk, then a back page for each. *)
Inductive side : Type := Front | Back.

(** What the component returns: null, or a document of pages. *)
Inductive rendering : Type :=
  | Nothing
  | Document (pages : list (side * list element)).

Definition BatchIDPDF (fuel : nat) (certs : list element) : option rendering :=
  let validCerts := List.filter (fun cert => isValid (validateParticipant cert)) certs in
  match validCerts with
  | [] => Some Nothing
  | _ =>
      match chunkArray fuel validCerts 8 with
      | Some participantChunks =>
          Some (Document (map (fun chunk => (Front, chunk)) participantChunks
                          ++ map (fun chunk => (Back, chunk)) participantChunks))
      | None => None
      end
  end.

(** String(person._id || person.id || "000") *)
Definition participantId (person : CertificateRecord) : string :=
  match _id person with
  | Some s => if String.eqb s "" then
                (if (id person =? 0)%Z then "000" else Z_to_string (id person))
              else s
  | None => if (id person =? 0)%Z then "000" else Z_to_string (id person)
  end.

(** person.participant_type?.toLowerCase().includes("healthcare") *)
Definition isHCP (person : CertificateRecord) : bool :=
  match participant_type person with
  | Some s => includes (toLowerCase s) "healthcare"
  | None => false
  end.

Definition generateRegNo (person : CertificateRecord) (shortYear : string) : string :=
  let prefix := if isHCP person then "BLSHCP" else "BLSLR" in
  (prefix ++ "-" ++ shortYear ++ "-DOHROI-" ++ participantId person)%string.

(** A row of the store under its id, with nothing but a name. *)
Definition named (n : Z) (name : string) : CertificateRecord :=
  {| id := n; _id := None; participant_name := Some name; training_type := None;
     training_date := None; training_date_range := None; venue := None;
     facility := None; participant_type := None; age := None; position := None |}.

End Cards.

(** ** The entry form and the pages of the listing (admin page) *)

Module Admin.
Import Js Records Registry.

(** \w *)
Definition isWordChar (c : ascii) : bool :=
  isLower c || isUpper c || isDigit c || Ascii.eqb c "_".

(** replace(/\b\w/g, (c) => c.toUpperCase()) : a word character that
    follows no word character is set in upper case; [inWord] tells
    whether the code unit before is a word character. *)
Fixpoint capitalizeWords (inWord : bool) (s : string) : string :=
  match s with
  | EmptyString => EmptyString
  | String c r =>
      String (if isWordChar c && negb inWord then upperChar c else c)
             (capitalizeWords (isWordChar c) r)
  end.

(** The value of a form control is a string. *)
Definition formatValue (field value : string) : string :=
  if String.eqb value "" then ""
  else if String.eqb field "training_date" then Certificate.capitalize value
  else if String.eqb field "training_type" then toUpperCase value
  else if existsb (String.eqb field) ["participant_name"]
       then capitalizeWords false (toLowerCase value)
  else value.

(** Math.ceil(a / b) for a divisor above 0 *)
Definition ceilDiv (a b : nat) : nat := (a + (b - 1)) / b.

Section Pages.

Variable Date_parse : string -> option Z.

(** Math.ceil(total / itemsPerPage) || 1 *)
Definition totalPages (g : groups) : nat :=
  let pages := ceilDiv (length (sortedBatches Date_parse g)) itemsPerPage in
  if Nat.eqb pages 0 then 1 else pages.

End Pages.

(** The records of all batches, batch after batch. *)
Definition allCerts (g : groups) : list CertificateRecord :=
  concat (map (fun e => certs (snd e)) g).

End Admin.

(** * Properties *)

(** ** Strings *)

Module JsFacts.
Import Js.

Lemma trimStart_no_leading_space (s : string) :
  startsWithSpace (trimStart s) = false.
Proof.
  induction s as [|c r IH]; simpl; [reflexivity|].
  destruct (isWhiteSpace c) eqn:E; [exact IH|]. simpl. exact E.
Qed.

Lemma trimEnd_no_trailing_space (s : string) :
  endsWithSpace (trimEnd s) = false.
Proof.
  induction s as [|c r IH]; simpl; [reflexivity|].
  destruct (trimEnd r) as [|c' r'] eqn:E.
  - destruct (isWhiteSpace c) eqn:W; simpl; [reflexivity|exact W].
  - exact IH.
Qed.

Lemma trimEnd_keeps_head (s : string) :
  startsWithSpace s = false -> startsWithSpace (trimEnd s) = false.
Proof.
  destruct s as [|c r]; simpl; [reflexivity|]. intros W.
  destruct (trimEnd r); rewrite ?W; simpl; exact W.
Qed.

Lemma trim_trimmed (s : string) : trimmed (trim s).
Proof.
  split.
  - apply trimEnd_keeps_head, trimStart_no_leading_space.
  - apply trimEnd_no_trailing_space.
Qed.

Lemma truthy_VStr (s : string) : truthy (VStr s) = true <-> s <> "".
Proof.
  simpl. destruct (String.eqb_spec s ""); simpl; split; congruence.
Qed.

End JsFacts.

(** ** Validation and sanitization *)

Module ValidationFacts.
Import Js Validation JsFacts.
Local Open Scope completion_scope.

Lemma pushIf_empty (c : bool) (msg : string) (errors : list string) :
  length (pushIf c msg errors) = 0 -> c = false /\ length errors = 0.
Proof.
  unfold pushIf. destruct c; [|tauto].
  rewrite length_app. simpl. lia.
Qed.

(** What passing validation means, check by check. *)
Lemma passes_inv (data : object) :
  passes data ->
  nameMissing data = Normal false /\ badTrainingType data = false
  /\ badParticipantType data = false /\ badAge data = false.
Proof.
  intros (v & Hv & Hvalid). unfold validateCertificateData in Hv.
  destruct (nameMissing data) as [m|e]; simpl in Hv; [|discriminate].
  injection Hv as <-. simpl in Hvalid.
  apply Nat.eqb_eq in Hvalid.
  apply pushIf_empty in Hvalid as [-> Hvalid].
  apply pushIf_empty in Hvalid as [-> Hvalid].
  apply pushIf_empty in Hvalid as [-> Hvalid].
  apply pushIf_empty in Hvalid as [-> _].
  repeat split; reflexivity.
Qed.

Lemma passes_intro (data : object) :
  nameMissing data = Normal false -> badTrainingType data = false ->
  badParticipantType data = false -> badAge data = false -> passes data.
Proof.
  intros H1 H2 H3 H4. unfold passes, validateCertificateData.
  rewrite H1, H2, H3, H4. simpl. eexists; split; reflexivity.
Qed.

Lemma nameMissing_false (data : object) :
  nameMissing data = Normal false ->
  exists s, get data "participant_name" = VStr s /\ trim s <> "".
Proof.
  unfold nameMissing.
  destruct (get data "participant_name") as [| |b|n| |s|r]; simpl;
    try discriminate.
  - destruct b; simpl; discriminate.
  - destruct (n =? 0)%Z; simpl; discriminate.
  - destruct (String.eqb s ""); simpl; [discriminate|].
    intros H. exists s. split; [reflexivity|].
    injection H as H. apply negb_false_iff in H.
    apply truthy_VStr. exact H.
Qed.

(** The outcomes of [x?.trim() || null]. *)
Lemma trimOrNull_inv (v r : value) :
  trimOrNull v = Normal r ->
  (r = VNull /\ blank v)
  \/ (exists s, v = VStr s /\ r = VStr (trim s) /\ trim s <> "").
Proof.
  unfold trimOrNull, blank.
  destruct v as [| |b|n| |s|o]; simpl; try discriminate.
  - intros [= <-]. left. auto.
  - intros [= <-]. left. auto.
  - unfold orElse. destruct (truthy (VStr (trim s))) eqn:T; intros [= <-].
    + right. exists s. repeat split. apply truthy_VStr. exact T.
    + left. split; [reflexivity|]. right; right. exists s. split; [reflexivity|].
      simpl in T. apply negb_false_iff in T. apply String.eqb_eq in T. exact T.
Qed.

Lemma trimOrNull_blank (v r : value) :
  trimOrNull v = Normal r -> blank v -> r = VNull.
Proof.
  intros H B. apply trimOrNull_inv in H as [[-> _]|(s & -> & -> & Hne)];
    [reflexivity|].
  destruct B as [B|[B|(s' & [= <-] & B)]]; try discriminate. contradiction.
Qed.

(** The shape of every sanitized record. *)
Lemma sanitize_inv (data r : object) :
  sanitizeCertificateData data = Normal r ->
  exists name ttype tdate venue facility ptype position,
    trimOrNull (get data "participant_name") = Normal name
    /\ trimOrNull (get data "training_type") = Normal ttype
    /\ trimOrNull (get data "training_date") = Normal tdate
    /\ trimOrNull (get data "venue") = Normal venue
    /\ trimOrNull (get data "facility") = Normal facility
    /\ trimOrNull (get data "participant_type") = Normal ptype
    /\ trimOrNull (get data "position") = Normal position
    /\ r = [ ("participant_name", name); ("training_type", ttype);
             ("training_date", tdate); ("venue", venue);
             ("facility", facility); ("participant_type", ptype);
             ("age", ageOrNull (get data "age")); ("position", position) ].
Proof.
  unfold sanitizeCertificateData. intros H.
  destruct (trimOrNull (get data "participant_name")) as [name|]; [|discriminate].
  destruct (trimOrNull (get data "training_type")) as [ttype|]; [|discriminate].
  destruct (trimOrNull (get data "training_date")) as [tdate|]; [|discriminate].
  destruct (trimOrNull (get data "venue")) as [venue|]; [|discriminate].
  destruct (trimOrNull (get data "facility")) as [facility|]; [|discriminate].
  destruct (trimOrNull (get data "participant_type")) as [ptype|]; [|discriminate].
  destruct (trimOrNull (get data "position")) as [position|]; [|discriminate].
  simpl in H. injection H as <-.
  exists name, ttype, tdate, venue, facility, ptype, position.
  repeat split; reflexivity.
Qed.

Lemma valid_type_included (l : list string) (v : value) :
  includes l v = true -> exists s, v = VStr s /\ In s l.
Proof.
  destruct v as [| |b|n| |s|o]; simpl; try discriminate.
  intros H. exists s. split; [reflexivity|].
  apply existsb_exists in H as (x & Hin & Heq).
  apply String.eqb_eq in Heq. subst. exact Hin.
Qed.

Lemma valid_types_trimmed (s : string) :
  In s VALID_TRAINING_TYPES \/ In s VALID_PARTICIPANT_TYPES ->
  trim s = s /\ s <> "".
Proof.
  simpl. intros H.
  repeat (destruct H as [H|H]; try contradiction);
    subst; split; (reflexivity || discriminate).
Qed.

(** An enumerated field that passed its check comes out as a listed value
    or as null. *)
Lemma enumerated_sanitized (l : list string) (v r : value) :
  (forall s, In s l -> trim s = s /\ s <> "") ->
  truthy v && negb (includes l v) = false ->
  trimOrNull v = Normal r ->
  r = VNull \/ exists s, In s l /\ r = VStr s.
Proof.
  intros Hl Hcheck Hr.
  apply trimOrNull_inv in Hr as [[-> _]|(s & -> & -> & Hne)]; [left; reflexivity|].
  right. apply andb_false_iff in Hcheck as [T|I].
  - simpl in T. apply negb_false_iff, String.eqb_eq in T. subst s.
    exfalso. apply Hne. reflexivity.
  - apply negb_false_iff in I. apply valid_type_included in I as (s' & [= <-] & Hin).
    exists s. destruct (Hl s Hin) as [-> _]. auto.
Qed.

(** C4: for every raw input that passes validation, the sanitized record
    has a non-empty string as participant_name, and its training_type and
    participant_type are each one of the allowed values of the field or
    null. *)
Theorem sanitized_record_invariant (data r : object) :
  passes data ->
  sanitizeCertificateData data = Normal r ->
  recordInvariant r.
Proof.
  intros Hp Hs. unfold recordInvariant.
  apply passes_inv in Hp as (Hname & Htt & Hpt & _).
  apply sanitize_inv in Hs
    as (name & ttype & tdate & venue & facility & ptype & position
        & E1 & E2 & _ & _ & _ & E6 & _ & ->).
  apply nameMissing_false in Hname as (s & Hget & Hne).
  rewrite Hget in E1.
  apply trimOrNull_inv in E1 as [[_ B]|(s' & [= <-] & -> & _)].
  { destruct B as [B|[B|(s' & [= <-] & B)]]; try discriminate. contradiction. }
  split; [|split].
  - exists (trim s). split; [reflexivity|exact Hne].
  - change (get _ "training_type") with ttype.
    apply (enumerated_sanitized VALID_TRAINING_TYPES (get data "training_type"));
      [|exact Htt|exact E2].
    intros x Hx. apply valid_types_trimmed. left. exact Hx.
  - change (get _ "participant_type") with ptype.
    apply (enumerated_sanitized VALID_PARTICIPANT_TYPES (get data "participant_type"));
      [|exact Hpt|exact E6].
    intros x Hx. apply valid_types_trimmed. right. exact Hx.
Qed.

Lemma sampleInput_passes : passes sampleInput.
Proof. eexists. split; reflexivity. Qed.

Lemma sanitized_record_invariant_witness : recordInvariant sampleRecord.
Proof.
  apply (sanitized_record_invariant sampleInput).
  - eexists. split; reflexivity.
  - reflexivity.
Defined.

Local Arguments String.eqb : simpl never.

Lemma trimOrNull_text (v : value) (s : string) :
  trimOrNull v = Normal (VStr s) -> s <> "" /\ trimmed s.
Proof.
  intros H. apply trimOrNull_inv in H as [[H _]|(s' & _ & [= ->] & Hne)];
    [discriminate|].
  split; [exact Hne|apply trim_trimmed].
Qed.

Lemma trimOrNull_nullOrTrimmedText (v r : value) :
  trimOrNull v = Normal r -> nullOrTrimmedText r.
Proof.
  intros H. destruct (trimOrNull_inv _ _ H) as [[-> _]|(s & _ & -> & Hne)].
  - left. reflexivity.
  - right. exists (trim s). repeat split; try assumption; apply trim_trimmed.
Qed.

Lemma ageOrNull_not_text (age : value) (s : string) : ageOrNull age <> VStr s.
Proof.
  unfold ageOrNull. destruct (truthy age); [|discriminate].
  destruct (parseInt age); discriminate.
Qed.

(** Every sanitized record is made of the allow-list, with trimmed
    strings. *)
Lemma sanitize_allowListedAndTrimmed (data r : object) :
  sanitizeCertificateData data = Normal r -> allowListedAndTrimmed r.
Proof.
  intros Hs.
  apply sanitize_inv in Hs
    as (name & ttype & tdate & venue & facility & ptype & position
        & E1 & E2 & E3 & E4 & E5 & E6 & E7 & ->).
  split; [reflexivity|]. split; [intros k Hk; exact Hk|]. split.
  - intros k Hk. simpl in Hk. simpl.
    repeat match goal with
    | |- context [String.eqb ?a k] =>
        destruct (String.eqb_spec a k); [exfalso; apply Hk; subst; tauto|]
    end.
    reflexivity.
  - intros k s. simpl.
    repeat match goal with
    | |- context [String.eqb ?a k] => destruct (String.eqb a k)
    end; intros Hv;
    try discriminate;
    try (subst; eapply trimOrNull_text; eassumption).
    exfalso. eapply ageOrNull_not_text. eassumption.
Qed.

(** C6: for every raw field mapping that passes validation, the sanitized
    output has no field outside the allow-list of eight fields (unknown
    fields are dropped) and every string in it has no leading or trailing
    white space. *)
Theorem sanitized_output_allow_listed (data r : object) :
  passes data ->
  sanitizeCertificateData data = Normal r ->
  allowListedAndTrimmed r.
Proof.
  intros _ Hs. exact (sanitize_allowListedAndTrimmed data r Hs).
Qed.

Lemma sanitized_output_allow_listed_witness : allowListedAndTrimmed sampleRecord.
Proof.
  apply (sanitized_output_allow_listed sampleInput).
  - eexists. split; reflexivity.
  - reflexivity.
Defined.

(** C10: every string field the sanitizer produces is null or a non-empty
    trimmed string; an absent, empty or white-space-only input of any of
    the seven string fields becomes null, also for participant_name and
    whether or not the input is valid; a falsy age becomes null. *)
Theorem sanitized_blanks_become_null (data r : object) :
  sanitizeCertificateData data = Normal r ->
  blanksBecomeNull data r.
Proof.
  intros Hs.
  apply sanitize_inv in Hs
    as (name & ttype & tdate & venue & facility & ptype & position
        & E1 & E2 & E3 & E4 & E5 & E6 & E7 & ->).
  split.
  - intros f Hf. simpl in Hf.
    repeat (destruct Hf as [<-|Hf]; [
      split; [eapply trimOrNull_nullOrTrimmedText; eassumption
             |intros B; eapply trimOrNull_blank; eassumption] |]).
    contradiction.
  - intros T. simpl. unfold ageOrNull. rewrite T. reflexivity.
Qed.

Lemma sanitized_blanks_become_null_witness : blanksBecomeNull sampleInput sampleRecord.
Proof.
  apply (sanitized_blanks_become_null sampleInput). reflexivity.
Defined.

(** The sanitizer returns a record whenever each of the seven text fields
    is a string, null or absent. *)
Lemma sanitize_returns (data : object) :
  (forall f, In f STRING_FIELDS ->
     get data f = VUndefined \/ get data f = VNull \/ exists s, get data f = VStr s) ->
  exists r, sanitizeCertificateData data = Normal r.
Proof.
  intros H.
  assert (T : forall f, In f STRING_FIELDS -> exists v, trimOrNull (get data f) = Normal v).
  { intros f Hf. destruct (H f Hf) as [->|[->|(s & ->)]]; eexists; reflexivity. }
  unfold sanitizeCertificateData.
  destruct (T "participant_name") as (v1 & ->); [simpl; tauto|].
  destruct (T "training_type") as (v2 & ->); [simpl; tauto|].
  destruct (T "training_date") as (v3 & ->); [simpl; tauto|].
  destruct (T "venue") as (v4 & ->); [simpl; tauto|].
  destruct (T "facility") as (v5 & ->); [simpl; tauto|].
  destruct (T "participant_type") as (v6 & ->); [simpl; tauto|].
  destruct (T "position") as (v7 & ->); [simpl; tauto|].
  simpl. eexists. reflexivity.
Qed.

(** *** The age *)

(** The age check lets through exactly the present ages from which
    parseInt reads a number from 0 to 120. *)
Lemma badAge_false (data : object) :
  badAge data = false <->
  agePresent (get data "age") = false
  \/ exists n, parseInt (get data "age") = Some n /\ (0 <= n <= 120)%Z.
Proof.
  unfold badAge, ageOutOfRange. split.
  - intros H. apply andb_false_iff in H as [H|H]; [left; exact H|].
    right. destruct (parseInt (get data "age")) as [n|]; [|discriminate].
    exists n. split; [reflexivity|].
    apply orb_false_iff in H as [H1 H2]. lia.
  - intros [->|(n & -> & Hn)]; [reflexivity|].
    apply andb_false_iff. right. apply orb_false_iff. split; lia.
Qed.

Lemma truthy_present (age : value) : truthy age = true -> agePresent age = true.
Proof. destruct age; simpl; try discriminate; auto. Qed.

(** X27: A truthy age of a valid input is stored as the number parseInt reads,
    within 0 and 120. *)
Lemma truthy_age_sanitized (data r : object) :
  passes data ->
  sanitizeCertificateData data = Normal r ->
  truthy (get data "age") = true ->
  exists n, get r "age" = VNum n /\ parseInt (get data "age") = Some n
            /\ (0 <= n <= 120)%Z.
Proof.
  intros Hp Hs T.
  apply passes_inv in Hp as (_ & _ & _ & Hage).
  apply badAge_false in Hage as [Hage|(n & Hn & Hr)].
  { rewrite (truthy_present _ T) in Hage. discriminate. }
  apply sanitize_inv in Hs as (? & ? & ? & ? & ? & ? & ? & _ & _ & _ & _ & _ & _ & _ & ->).
  exists n. simpl. unfold ageOrNull. rewrite T, Hn. auto.
Qed.

(** An absent, null or empty age is stored as null. *)
Lemma absent_age_sanitized (data r : object) :
  sanitizeCertificateData data = Normal r ->
  agePresent (get data "age") = false ->
  get r "age" = VNull.
Proof.
  intros Hs A.
  apply sanitize_inv in Hs as (? & ? & ? & ? & ? & ? & ? & _ & _ & _ & _ & _ & _ & _ & ->).
  simpl. unfold ageOrNull.
  destruct (get data "age") as [| |b|n| |s|o]; simpl in *; try discriminate;
    try reflexivity.
  apply negb_false_iff in A. rewrite A. reflexivity.
Qed.

(** C3: the age 0, sent as a number, passes validation (0 lies in the
    accepted range), and the sanitizer stores null for it, not 0. *)
Theorem age_zero_is_stored_as_null :
  passes ageZeroInput
  /\ agePresent (get ageZeroInput "age") = true
  /\ parseInt (get ageZeroInput "age") = Some 0%Z
  /\ exists r, sanitizeCertificateData ageZeroInput = Normal r
               /\ get r "age" = VNull.
Proof.
  split; [eexists; split; reflexivity|].
  split; [reflexivity|]. split; [reflexivity|].
  eexists. split; reflexivity.
Qed.

(** As a string, the age "0" is stored as 0. *)
Example age_zero_text_is_kept :
  exists r, sanitizeCertificateData [("participant_name", VStr "Ana Cruz"); ("age", VStr "0")]
            = Normal r
            /\ get r "age" = VNum 0.
Proof. eexists. split; reflexivity. Qed.

(** parseInt reads the digits a text starts with: "12abc" passes as 12. *)
Example age_with_trailing_text_passes :
  passes [("participant_name", VStr "Ana Cruz"); ("age", VStr "12abc")]
  /\ parseInt (VStr "12abc") = Some 12%Z.
Proof. split; [eexists; split; reflexivity|reflexivity]. Qed.

End ValidationFacts.

(** ** Batch grouping *)

Module RegistryFacts.
Import Js Records Registry.
Local Arguments String.eqb : simpl never.

Lemma upperChar_space (c : ascii) : isWhiteSpace (upperChar c) = isWhiteSpace c.
Proof.
  destruct c as [[] [] [] [] [] [] [] []]; reflexivity.
Qed.

Lemma normalize_cons (c : ascii) (s : string) :
  normalize (String c s)
  = if isWhiteSpace c then normalize s else String (upperChar c) (normalize s).
Proof.
  unfold normalize. simpl. rewrite upperChar_space. reflexivity.
Qed.


Lemma upperChar_idem (c : ascii) : upperChar (upperChar c) = upperChar c.
Proof.
  destruct c as [[] [] [] [] [] [] [] []]; reflexivity.
Qed.

Lemma variant_normalize (s : string) : variant s (normalize s).
Proof.
  induction s as [|c s IH]; [constructor|].
  rewrite normalize_cons. destruct (isWhiteSpace c) eqn:W.
  - apply variant_space_left; assumption.
  - apply variant_letter; [symmetry; apply upperChar_idem|exact IH].
Qed.

Lemma variant_sym (a b : string) : variant a b -> variant b a.
Proof.
  induction 1; [constructor| | |].
  - apply variant_letter; [symmetry; assumption|assumption].
  - apply variant_space_right; assumption.
  - apply variant_space_left; assumption.
Qed.


Lemma orDefault_missing (x : option string) (d : string) :
  missing x -> orDefault x d = d.
Proof. intros [->| ->]; reflexivity. Qed.




(** *** The batches of a list *)

Lemma hasKey_lookup (g : groups) (k : string) :
  hasKey g k = match lookupBatch g k with Some _ => true | None => false end.
Proof.
  induction g as [|[k' b] g IH]; simpl; [reflexivity|].
  destruct (String.eqb k' k); simpl; [reflexivity|exact IH].
Qed.

Lemma lookup_pushTo (g : groups) (k k' : string) (c : CertificateRecord) :
  lookupBatch (pushTo g k c) k'
  = if String.eqb k k' then option_map (pushCert c) (lookupBatch g k')
    else lookupBatch g k'.
Proof.
  induction g as [|[k0 b] g IH]; simpl.
  - destruct (String.eqb k k'); reflexivity.
  - destruct (String.eqb_spec k0 k) as [->|Hne]; simpl.
    + destruct (String.eqb k k'); reflexivity.
    + destruct (String.eqb_spec k0 k') as [->|Hne']; simpl.
      * destruct (String.eqb_spec k k'); [congruence|reflexivity].
      * exact IH.
Qed.

Lemma lookup_append (g : groups) (k k' : string) (b : Batch) :
  lookupBatch (g ++ [(k, b)]) k'
  = match lookupBatch g k' with
    | Some x => Some x
    | None => if String.eqb k k' then Some b else None
    end.
Proof.
  induction g as [|[k0 b0] g IH]; simpl; [reflexivity|].
  destruct (String.eqb k0 k'); [reflexivity|exact IH].
Qed.

Lemma keys_pushTo (g : groups) (k : string) (c : CertificateRecord) :
  map fst (pushTo g k c) = map fst g.
Proof.
  induction g as [|[k0 b] g IH]; simpl; [reflexivity|].
  destruct (String.eqb k0 k); simpl; [reflexivity|]. rewrite IH. reflexivity.
Qed.

Lemma lookup_None_not_key (g : groups) (k : string) :
  lookupBatch g k = None -> ~ In k (map fst g).
Proof.
  induction g as [|[k0 b] g IH]; simpl; [tauto|].
  destruct (String.eqb_spec k0 k); [discriminate|].
  intros H [E|Hin]; [contradiction|]. exact (IH H Hin).
Qed.

Lemma In_lookup (g : groups) (k : string) (b : Batch) :
  NoDup (map fst g) -> In (k, b) g -> lookupBatch g k = Some b.
Proof.
  induction g as [|[k0 b0] g IH]; simpl; [tauto|].
  intros Hnd [E|Hin].
  - injection E as -> ->. rewrite String.eqb_refl. reflexivity.
  - inversion Hnd as [|? ? Hnot Hnd']; subst.
    destruct (String.eqb_spec k0 k) as [->|Hne].
    + exfalso. apply Hnot. apply list_elem_of_In.
      apply (in_map fst) in Hin. exact Hin.
    + exact (IH Hnd' Hin).
Qed.

Lemma membersOf_app (k : string) (l : list CertificateRecord) (c : CertificateRecord) :
  membersOf k (l ++ [c])
  = membersOf k l ++ (if String.eqb (batchId c) k then [c] else []).
Proof.
  unfold membersOf. rewrite List.filter_app. simpl.
  destruct (String.eqb (batchId c) k); reflexivity.
Qed.

Lemma grouped_addCert (g : groups) (l : list CertificateRecord) (c : CertificateRecord) :
  grouped g l -> grouped (addCert g c) (l ++ [c]).
Proof.
  intros [Hnd Hl]. unfold addCert. split.
  - rewrite keys_pushTo, hasKey_lookup.
    destruct (lookupBatch g (batchId c)) eqn:E; [exact Hnd|].
    rewrite map_app. simpl. apply NoDup_app. split; [exact Hnd|]. split.
    + intros x Hx Hx'. apply list_elem_of_In in Hx. 
      apply list_elem_of_In in Hx'. simpl in Hx'. destruct Hx' as [<-|[]].
      exact (lookup_None_not_key _ _ E Hx).
    + apply NoDup_singleton.
  - intros k. rewrite lookup_pushTo, membersOf_app. specialize (Hl k).
    rewrite hasKey_lookup.
    destruct (String.eqb_spec (batchId c) k) as [<-|Hne].
    + destruct (lookupBatch g (batchId c)) as [b|] eqn:E.
      * rewrite E. simpl in *.
        destruct (membersOf (batchId c) l) eqn:M; [discriminate|].
        injection Hl as ->. reflexivity.
      * rewrite lookup_append, E, String.eqb_refl. simpl in *.
        destruct (membersOf (batchId c) l); [reflexivity|discriminate].
    + rewrite app_nil_r.
      destruct (lookupBatch g (batchId c)) as [b|] eqn:E; [exact Hl|].
      rewrite lookup_append.
      destruct (lookupBatch g k); [exact Hl|].
      destruct (String.eqb_spec (batchId c) k); [contradiction|exact Hl].
Qed.

Lemma groupCerts_snoc (l : list CertificateRecord) (c : CertificateRecord) :
  groupCerts (l ++ [c]) = addCert (groupCerts l) c.
Proof. unfold groupCerts. rewrite fold_left_app. reflexivity. Qed.

Lemma groupCerts_grouped (l : list CertificateRecord) : grouped (groupCerts l) l.
Proof.
  induction l as [|c l IH] using rev_ind.
  - split; [constructor|]. intros k. reflexivity.
  - rewrite groupCerts_snoc. apply grouped_addCert. exact IH.
Qed.

(** Each batch holds the records of its key, in insertion order. *)
Lemma batch_members (l : list CertificateRecord) (k : string) (b : Batch) :
  In (k, b) (groupCerts l) -> certs b = membersOf k l /\ certs b <> [].
Proof.
  intros Hin. destruct (groupCerts_grouped l) as [Hnd Hl].
  specialize (Hl k). rewrite (In_lookup _ _ _ Hnd Hin) in Hl. simpl in Hl.
  destruct (membersOf k l); [discriminate|]. injection Hl as ->.
  split; [reflexivity|discriminate].
Qed.







(** The two records land in one batch, in the order they came. *)
Example written_in_one_batch :
  map (fun e => (fst e, map id (certs (snd e))))
      (filteredAndGroupedCerts [written1; written2] "")
  = [("JANUARY21-23,2026_BASICLIFESUPPORTTRAINING", [1%Z; 2%Z])].
Proof. reflexivity. Qed.

(** ** The order of the listing *)

Section SortFacts.

Context {A : Type} (key : A -> option Z).


Lemma insertSorted_perm (x : A) (l : list A) :
  Permutation (insertSorted (secondMinusFirst key) x l) (x :: l).
Proof.
  induction l as [|y r IH]; simpl; [reflexivity|].
  destruct (sortCompare (secondMinusFirst key) x y <=? 0)%Z; [reflexivity|].
  rewrite IH. apply perm_swap.
Qed.

Lemma sort_perm (l : list A) : Permutation (sort (secondMinusFirst key) l) l.
Proof.
  induction l as [|x r IH]; simpl; [reflexivity|].
  rewrite insertSorted_perm, IH. reflexivity.
Qed.

Lemma insertSorted_descending (x : A) (l : list A) :
  (exists a, key x = Some a) ->
  (forall y, In y l -> exists b, key y = Some b) ->
  Sorted (notBefore key) l ->
  Sorted (notBefore key) (insertSorted (secondMinusFirst key) x l).
Proof.
  intros [a Ha] Hl Hs. induction l as [|y r IH]; simpl.
  - repeat constructor.
  - destruct (Hl y (or_introl eq_refl)) as [b Hb].
    unfold sortCompare, secondMinusFirst at 1. rewrite Ha, Hb. simpl.
    destruct (Z.leb_spec (b - a) 0).
    + constructor; [exact Hs|]. constructor. exists a, b. repeat split; auto. lia.
    + inversion Hs as [|? ? Hs' Hhd]; subst.
      constructor.
      * apply IH; [|exact Hs']. intros z Hz. apply Hl. right. exact Hz.
      * destruct r as [|z r]; simpl.
        -- constructor. exists b, a. repeat split; auto. lia.
        -- destruct (sortCompare (secondMinusFirst key) x z <=? 0)%Z.
           ++ constructor. exists b, a. repeat split; auto. lia.
           ++ inversion Hhd; subst. constructor. assumption.
Qed.

(** When every key is a valid date the sorted list is descending: latest
    first. *)
Lemma sort_descending (l : list A) :
  (forall y, In y l -> exists b, key y = Some b) ->
  Sorted (notBefore key) (sort (secondMinusFirst key) l).
Proof.
  induction l as [|x r IH]; intros Hl; simpl; [constructor|].
  apply insertSorted_descending.
  - apply Hl. left. reflexivity.
  - intros y Hy. apply Hl. right.
    apply (Permutation_in _ (sort_perm r)). exact Hy.
  - apply IH. intros y Hy. apply Hl. right. exact Hy.
Qed.

End SortFacts.

(** X26: the listing holds the batches of the grouping, latest date first,
    whenever every display date is read as a valid date. *)
Lemma sortedBatches_descending (Date_parse : string -> option Z) (g : groups) :
  (forall e, In e g -> exists t, timeOf Date_parse e = Some t) ->
  Sorted (notBefore (timeOf Date_parse)) (sortedBatches Date_parse g)
  /\ Permutation (sortedBatches Date_parse g) g.
Proof.
  intros H. split.
  - exact (sort_descending (timeOf Date_parse) g H).
  - exact (sort_perm (timeOf Date_parse) g).
Qed.

Example two_days_grouped :
  filteredAndGroupedCerts [jan5; jan6] ""
  = [ ("JANUARY5,2026_BASICLIFESUPPORTTRAINING",
       {| displayDate := "JANUARY 5, 2026";
          trainingType := "BASIC LIFE SUPPORT TRAINING";
          certs := [jan5] |});
      ("JANUARY6,2026_BASICLIFESUPPORTTRAINING",
       {| displayDate := "JANUARY 6, 2026";
          trainingType := "BASIC LIFE SUPPORT TRAINING";
          certs := [jan6] |}) ].
Proof. reflexivity. Qed.

(** C1: the listing of two batches dated January 5 and January 6, 2026:
    whenever the runtime reads the two display dates as dates in that
    order, the batch of January 6 is listed first, so the listing is
    descending by date, not ascending. *)
Theorem listing_is_latest_first (Date_parse : string -> option Z) (t5 t6 : Z) :
  Date_parse "JANUARY 5, 2026" = Some t5 ->
  Date_parse "JANUARY 6, 2026" = Some t6 ->
  (t5 < t6)%Z ->
  map (fun e => displayDate (snd e))
      (paginatedBatches Date_parse (filteredAndGroupedCerts [jan5; jan6] "") 1)
  = ["JANUARY 6, 2026"; "JANUARY 5, 2026"].
Proof.
  intros H5 H6 Hlt. rewrite two_days_grouped.
  unfold paginatedBatches, sortedBatches. simpl sort.
  unfold sortCompare, compareBatches, getSortableDate. simpl.
  rewrite H5, H6. simpl.
  destruct (Z.leb_spec (t6 - t5) 0); [lia|]. reflexivity.
Qed.

Lemma listing_is_latest_first_witness :
  map (fun e => displayDate (snd e))
      (paginatedBatches readsTwoDates (filteredAndGroupedCerts [jan5; jan6] "") 1)
  = ["JANUARY 6, 2026"; "JANUARY 5, 2026"].
Proof.
  apply (listing_is_latest_first readsTwoDates 1767571200000 1767657600000).
  - reflexivity.
  - reflexivity.
  - reflexivity.
Defined.

(** A display date the runtime cannot read gives an invalid date, not the
    epoch: the catch branch is for exceptions, and none is thrown. *)
Lemma unreadable_date_is_invalid (Date_parse : string -> option Z) :
  Date_parse "NO DATE" = None ->
  getSortableDate Date_parse "NO DATE" = None.
Proof. intros H. unfold getSortableDate. simpl. exact H. Qed.

(** Only the empty display date is given the epoch. *)
Lemma empty_date_is_epoch (Date_parse : string -> option Z) :
  getSortableDate Date_parse "" = Some 0%Z.
Proof. reflexivity. Qed.

End RegistryFacts.

(** ** The certificate page *)

Module CertificateFacts.
Import Js Records Certificate.
Local Arguments String.eqb : simpl never.

Lemma orDefault_cases (x : option string) (d : string) :
  (missing x /\ orDefault x d = d)
  \/ (exists s, x = Some s /\ s <> "" /\ orDefault x d = s).
Proof.
  destruct x as [s|]; [|left; split; [left|]; reflexivity].
  unfold orDefault. destruct (String.eqb_spec s "") as [->|Hne].
  - left. split; [right|]; reflexivity.
  - right. exists s. auto.
Qed.

Lemma ownProperty_In (mapping : list (string * string)) (t a : string) :
  ownProperty mapping t = Some a -> In (t, a) mapping.
Proof.
  induction mapping as [|[k v] m IH]; cbn [ownProperty]; [discriminate|].
  destruct (String.eqb_spec k t) as [->|Hne].
  - intros [= ->]. left. reflexivity.
  - intros H. right. exact (IH H).
Qed.

Lemma ownProperty_training_text (t a : string) :
  ownProperty TRAINING_MAPPING t = Some a -> truthy (VStr a) = true.
Proof.
  intros H. apply ownProperty_In in H. unfold TRAINING_MAPPING in H.
  cbn [In] in H.
  repeat (destruct H as [[= _ <-]|H]; [vm_compute; reflexivity|]).
  contradiction.
Qed.

Lemma ownProperty_participant_text (t a : string) :
  ownProperty PARTICIPANT_MAPPING t = Some a -> truthy (VStr a) = true.
Proof.
  intros H. apply ownProperty_In in H. unfold PARTICIPANT_MAPPING in H.
  cbn [In] in H.
  repeat (destruct H as [[= _ <-]|H]; [vm_compute; reflexivity|]).
  contradiction.
Qed.

(** mapping[text] || fallback, for a text that is a plain name. *)
Lemma lookup_plain (mapping : list (string * string)) (fallback text : string) :
  (forall a, ownProperty mapping text = Some a -> truthy (VStr a) = true) ->
  inherited text = false ->
  toString (orElse (lookup mapping text) (VStr fallback))
  = match ownProperty mapping text with
    | Some a => a
    | None => fallback
    end.
Proof.
  intros Hown Hplain. unfold lookup, orElse.
  destruct (ownProperty mapping text) as [a|] eqn:E.
  - rewrite (Hown a eq_refl). reflexivity.
  - unfold inherited in Hplain.
    destruct (inheritedProperty text); [discriminate|]. reflexivity.
Qed.

Lemma training_acronym (x : option string) :
  plainName x ->
  toString (getTrainingAcronym (orDefault x "Training Program"))
  = acronymOr TRAINING_MAPPING "TRNG" x.
Proof.
  intros Hplain. unfold getTrainingAcronym, acronymOr.
  destruct (orDefault_cases x "Training Program") as [[Hm ->]|(s & -> & Hne & ->)].
  - rewrite (RegistryFacts.orDefault_missing _ _ Hm). reflexivity.
  - rewrite lookup_plain.
    + unfold orDefault. destruct (String.eqb_spec s ""); [contradiction|reflexivity].
    + apply ownProperty_training_text.
    + apply Hplain. reflexivity.
Qed.

Lemma participant_acronym (x : option string) :
  plainName x ->
  toString (getParticipantAcronym (orDefault x "Lay Rescuer"))
  = acronymOr PARTICIPANT_MAPPING "PART" (Some (orDefault x "Lay Rescuer")).
Proof.
  intros Hplain. unfold getParticipantAcronym, acronymOr.
  destruct (orDefault_cases x "Lay Rescuer") as [[Hm ->]|(s & -> & Hne & ->)].
  - reflexivity.
  - rewrite lookup_plain.
    + unfold orDefault. destruct (String.eqb_spec s ""); [contradiction|reflexivity].
    + apply ownProperty_participant_text.
    + apply Hplain. reflexivity.
Qed.

Lemma year_of_date (d : string) :
  year (parseFinalDateComponents d)
  = match matchYear d with Some y => y | None => "2026" end.
Proof.
  unfold parseFinalDateComponents.
  destruct (String.eqb_spec d "") as [->|Hne]; reflexivity.
Qed.

(** C7, as the page computes it: the code of a stored row is the
    concatenation of "DOHCHD-1", the training acronym of the table
    (fallback "TRNG" for an unknown or missing type), the participant
    acronym, a missing participant type counting as "Lay Rescuer" (so
    "LR"; fallback "PART" for an unknown type), the first four digits in a
    row of the training date (fallback "2026") and the record id, joined
    by hyphens; it is a function of the record alone, whatever the
    settings. *)
Theorem certificate_code (cert : CertificateRecord)
    (signerName signerPosition : option string) :
  storedRow cert ->
  footerCode (CertificatePage cert signerName signerPosition) = amendedCode cert.
Proof.
  intros (Hid & Hrange & Hpos & Htt & Hpt).
  cbn [footerCode CertificatePage]. unfold certificateCode, amendedCode.
  rewrite (training_acronym _ Htt), (participant_acronym _ Hpt), year_of_date.
  unfold dateStringOf. rewrite (RegistryFacts.orDefault_missing _ _ Hrange).
  unfold yearOr2026, certificateId.
  destruct (Z.eqb_spec (id cert) 0) as [E|_]; [lia|].
  destruct Hid as [-> | ->]; reflexivity.
Qed.

Lemma certificate_code_witness :
  footerCode (CertificatePage missingType (Some "Dr. Paula Sanchez") None)
  = amendedCode missingType.
Proof.
  apply (certificate_code missingType).
  repeat split; try (left; reflexivity); try reflexivity;
    intros t [= <-]; reflexivity.
Defined.

(** C7, as the claim words it, fails on a record with no participant
    type: the page prints "LR" where the claim has "PART". *)
Lemma certificate_code_counterexample :
  footerCode (CertificatePage missingType None None) <> specifiedCode missingType.
Proof. vm_compute. discriminate. Qed.

Example certificate_code_printed :
  footerCode (CertificatePage missingType None None) = "DOHCHD-1-BLS-LR-2026-7"
  /\ specifiedCode missingType = "DOHCHD-1-BLS-PART-2026-7"
  /\ amendedCode missingType = "DOHCHD-1-BLS-LR-2026-7".
Proof. vm_compute. auto. Qed.

(** *** The year *)

Lemma drop_empty (n : nat) : drop n "" = "".
Proof. destruct n; reflexivity. Qed.

Lemma matchYear_found (s : string) :
  yearFound s (match matchYear s with Some y => y | None => "2026" end).
Proof.
  induction s as [|c r IH].
  - right. split; [reflexivity|]. intros i. rewrite drop_empty. reflexivity.
  - cbn [matchYear]. destruct (fourDigitsAt (String c r)) eqn:E.
    + left. exists 0. split; [exact E|]. split; [reflexivity|]. intros j Hj. lia.
    + destruct IH as [(i & Hi & Hy & Hmin)|[Hy Hnone]].
      * left. exists (S i). split; [exact Hi|]. split; [exact Hy|].
        intros [|j] Hj; [exact E|]. apply Hmin. lia.
      * right. split; [exact Hy|]. intros [|i]; [exact E|]. apply Hnone.
Qed.

(** *** The day *)

Lemma last_filter (p : Z -> bool) (l : list Z) (d0 : Z) :
  (exists before after,
     l = before ++ List.last (List.filter p l) d0 :: after
     /\ p (List.last (List.filter p l) d0) = true
     /\ forall n, In n after -> p n = false)
  \/ (List.last (List.filter p l) d0 = d0 /\ forall n, In n l -> p n = false).
Proof.
  induction l as [|a l IH] using rev_ind.
  - right. split; [reflexivity|]. intros n [].
  - rewrite List.filter_app. cbn [List.filter]. destruct (p a) eqn:Pa.
    + left. exists l, []. rewrite List.last_last. repeat split; auto.
      intros n [].
    + rewrite app_nil_r.
      destruct IH as [(before & after & Hl & Hp & Hafter)|[Hd Hnone]].
      * left. exists before, (after ++ [a]). split; [|split; [exact Hp|]].
        -- rewrite Hl at 1. rewrite <- app_assoc. reflexivity.
        -- intros n Hn. apply in_app_or in Hn as [Hn|[<-|[]]]; auto.
      * right. split; [exact Hd|]. intros n Hn.
        apply in_app_or in Hn as [Hn|[<-|[]]]; auto.
Qed.

Lemma isDay_dayLike (y : string) (n : Z) : isDay y n = true <-> dayLike y n.
Proof.
  unfold isDay, dayLike. rewrite !andb_true_iff, negb_true_iff.
  rewrite Z.ltb_lt, Z.leb_le.
  destruct (parseIntString y) as [v|].
  - rewrite Z.eqb_neq. split.
    + intros [[H1 H2] H3]. split; [lia|]. intros [= ->]. contradiction.
    + intros [H1 H2]. repeat split; try lia. intros ->. contradiction.
  - split.
    + intros [[H1 H2] _]. split; [lia|discriminate].
    + intros [H1 _]. repeat split; try lia.
Qed.

Lemma isDay_not_dayLike (y : string) (n : Z) : isDay y n = false -> ~ dayLike y n.
Proof.
  intros H D. apply isDay_dayLike in D. rewrite D in H. discriminate.
Qed.

Lemma day_found (s y : string) :
  dayFound s y (List.last (List.filter (isDay y) (allNums s)) 1%Z).
Proof.
  destruct (last_filter (isDay y) (allNums s) 1%Z)
    as [(before & after & Hl & Hp & Hafter)|[Hd Hnone]].
  - left. exists before, after. split; [exact Hl|]. split.
    + apply isDay_dayLike. exact Hp.
    + intros n Hn. apply isDay_not_dayLike. auto.
  - right. split; [exact Hd|]. intros n Hn. apply isDay_not_dayLike. auto.
Qed.

(** *** The month *)

Lemma lowerChar_isBreak (c : ascii) : isBreak (lowerChar c) = isBreak c.
Proof. destruct c as [[] [] [] [] [] [] [] []]; reflexivity. Qed.

Lemma lowerChar_isWordStart (c : ascii) : isWordStart (lowerChar c) = isWordStart c.
Proof. destruct c as [[] [] [] [] [] [] [] []]; reflexivity. Qed.

Lemma upperChar_lowerChar (c : ascii) : upperChar (lowerChar c) = upperChar c.
Proof. destruct c as [[] [] [] [] [] [] [] []]; reflexivity. Qed.

Lemma noBreak_lower (t : string) : noBreak (toLowerCase t) = noBreak t.
Proof.
  induction t as [|c r IH]; [reflexivity|].
  cbn [toLowerCase noBreak]. rewrite lowerChar_isBreak, IH. reflexivity.
Qed.

Lemma append_assoc_char (w : string) (c : ascii) (r : string) :
  ((w ++ String c "") ++ r)%string = (w ++ String c r)%string.
Proof.
  induction w as [|a w IH]; [reflexivity|].
  change (String a ((w ++ String c "") ++ r) = String a (w ++ String c r))%string.
  rewrite IH. reflexivity.
Qed.

Lemma append_empty (w : string) : (w ++ "")%string = w.
Proof.
  induction w as [|a w IH]; [reflexivity|].
  change (String a (w ++ "") = String a w)%string. rewrite IH. reflexivity.
Qed.

(** A match that began at index 0 and meets no break runs to the end and
    is capitalized. *)
Lemma scanTitle_word (r : string) (total index : nat) (w : string) :
  noBreak r = true ->
  scanTitle total index (Some (0, w)) r = capitalize (w ++ r)%string.
Proof.
  revert index w. induction r as [|c r IH]; intros index w Hr.
  - cbn [scanTitle]. rewrite append_empty. reflexivity.
  - cbn [noBreak] in Hr. apply andb_true_iff in Hr as [Hc Hr].
    apply negb_true_iff in Hc. cbn [scanTitle]. rewrite Hc.
    rewrite (IH _ _ Hr), append_assoc_char. reflexivity.
Qed.

Lemma titleCase_word (t : string) :
  wordLike (toLowerCase t) = true ->
  toTitleCase t = capitalizeLower (toLowerCase t).
Proof.
  destruct t as [|c r]; [discriminate|].
  cbn [toLowerCase wordLike noBreak]. rewrite lowerChar_isWordStart, lowerChar_isBreak.
  rewrite noBreak_lower. intros H.
  apply andb_true_iff in H as [Hw H]. apply andb_true_iff in H as [_ Hr].
  unfold toTitleCase. cbn [scanTitle]. rewrite Hw.
  rewrite (scanTitle_word _ _ _ _ Hr).
  change (String (upperChar c) (toLowerCase r)
          = String (upperChar (lowerChar c)) (toLowerCase r)).
  rewrite upperChar_lowerChar. reflexivity.
Qed.

Lemma startsWithCI_prefix (m s : string) :
  startsWithCI m s = true ->
  toLowerCase (substring 0 (String.length m) s) = toLowerCase m.
Proof.
  revert s. induction m as [|a m IH]; intros s.
  - destruct s; reflexivity.
  - destruct s as [|b s]; [discriminate|]. cbn [startsWithCI].
    intros H. apply andb_true_iff in H as [Hab H]. apply Ascii.eqb_eq in Hab.
    cbn [String.length substring toLowerCase]. rewrite (IH _ H), Hab. reflexivity.
Qed.

Lemma monthsAreWords_true : monthsAreWords = true.
Proof. vm_compute. reflexivity. Qed.

Lemma noOverlap_true : noOverlap = true.
Proof. vm_compute. reflexivity. Qed.

(** The text of a match, in title case, is the month name. *)
Lemma title_of_match (m s : string) :
  In m MONTHS -> startsWithCI m s = true ->
  toTitleCase (substring 0 (String.length m) s) = m.
Proof.
  intros Hm Hs.
  pose proof monthsAreWords_true as W. unfold monthsAreWords in W.
  rewrite forallb_forall in W. specialize (W m Hm).
  apply andb_true_iff in W as [W1 W2]. apply String.eqb_eq in W2.
  rewrite titleCase_word; rewrite (startsWithCI_prefix _ _ Hs); assumption.
Qed.

Lemma monthAt_Some (s m : string) :
  monthAt s = Some m -> In m MONTHS /\ startsWithCI m s = true.
Proof. unfold monthAt. intros H. apply find_some in H. exact H. Qed.

Lemma monthAt_None (s : string) :
  monthAt s = None <-> forall name, In name MONTHS -> startsWithCI name s = false.
Proof.
  unfold monthAt. split; [intros H name; exact (find_none _ _ H name)|].
  induction MONTHS as [|x l IH]; intros H; [reflexivity|].
  cbn [find]. rewrite (H x (or_introl eq_refl)). apply IH.
  intros name Hn. apply H. right. exact Hn.
Qed.

Lemma startsWithCI_drop (j : nat) (m s : string) :
  startsWithCI m s = true -> startsWithCI (drop j m) (drop j s) = true.
Proof.
  revert m s. induction j as [|j IH]; intros m s H; [exact H|].
  destruct m as [|a m]; [reflexivity|].
  destruct s as [|b s]; [discriminate|].
  cbn [startsWithCI] in H. apply andb_true_iff in H as [_ H].
  cbn [drop]. apply IH. exact H.
Qed.

Lemma clash_no_match (p s name : string) :
  startsWithCI p s = true -> clash (toLowerCase p) name = true ->
  startsWithCI name s = false.
Proof.
  revert s name. induction p as [|a p IH]; intros s name Hp Hc; [discriminate|].
  destruct s as [|b s]; [discriminate|].
  destruct name as [|n name]; [discriminate|].
  cbn [startsWithCI] in *. cbn [toLowerCase clash] in Hc.
  apply andb_true_iff in Hp as [Hab Hp]. apply Ascii.eqb_eq in Hab.
  apply andb_false_iff. apply orb_true_iff in Hc as [Hc|Hc].
  - left. apply negb_true_iff in Hc. rewrite <- Hab.
    rewrite Ascii.eqb_sym. 
    replace (lowerChar (lowerChar a)) with (lowerChar a) in Hc; [exact Hc|].
    clear. destruct a as [[] [] [] [] [] [] [] []]; reflexivity.
  - right. exact (IH _ _ Hp Hc).
Qed.

(** No match of the month pattern starts inside another match. *)
Lemma no_overlap (s m : string) (j : nat) :
  monthAt s = Some m -> 1 <= j < String.length m -> monthAt (drop j s) = None.
Proof.
  intros Hm Hj. apply monthAt_Some in Hm as [Hin Hs].
  apply monthAt_None. intros name Hname.
  apply (clash_no_match (drop j m)); [apply startsWithCI_drop; exact Hs|].
  pose proof noOverlap_true as W. unfold noOverlap in W.
  rewrite forallb_forall in W. specialize (W m Hin).
  rewrite forallb_forall in W. specialize (W j).
  rewrite forallb_forall in W. apply W; [|exact Hname].
  apply in_seq. lia.
Qed.

Lemma matchMonths_skip (k : nat) (s : string) :
  matchMonths k s = matchMonths 0 (drop k s).
Proof.
  revert k. induction s as [|c r IH]; intros k.
  - rewrite drop_empty. destruct k; reflexivity.
  - destruct k as [|k]; [reflexivity|]. cbn [matchMonths drop]. apply IH.
Qed.

Lemma monthsAtAll_skip (k : nat) (s : string) :
  (forall j, j < k -> monthAt (drop j s) = None) ->
  monthsAtAll s = monthsAtAll (drop k s).
Proof.
  revert s. induction k as [|k IH]; intros s H; [reflexivity|].
  destruct s as [|c r]; [reflexivity|].
  assert (H0 : monthAt (String c r) = None) by (apply (H 0); lia).
  cbn [monthsAtAll drop]. rewrite H0. apply IH.
  intros j Hj. apply (H (S j)). lia.
Qed.

Lemma length_drop (k : nat) (s : string) : String.length (drop k s) <= String.length s.
Proof.
  revert s. induction k as [|k IH]; intros s; [reflexivity|].
  destruct s as [|c r]; [reflexivity|]. cbn [drop String.length].
  specialize (IH r). lia.
Qed.

(** The global match finds every place where a month name stands. *)
Lemma matchMonths_all (s : string) : matchMonths 0 s = monthsAtAll s.
Proof.
  remember (String.length s) as n eqn:Hn.
  assert (Hle : String.length s <= n) by lia. clear Hn.
  revert s Hle. induction n as [|n IH]; intros s Hle.
  - destruct s; [reflexivity|]. cbn [String.length] in Hle. lia.
  - destruct s as [|c r]; [reflexivity|]. cbn [String.length] in Hle.
    cbn [matchMonths monthsAtAll].
    destruct (monthAt (String c r)) as [m|] eqn:E.
    + f_equal. rewrite matchMonths_skip, IH.
      * symmetry. apply monthsAtAll_skip. intros j Hj.
        apply (no_overlap (String c r) m (S j) E). lia.
      * pose proof (length_drop (String.length m - 1) r). lia.
    + apply IH. lia.
Qed.

Lemma monthAt_empty : monthAt "" = None.
Proof. reflexivity. Qed.

(** The last match is the match at the last place where a month name
    stands. *)
Lemma monthsAtAll_last (s : string) :
  (monthsAtAll s = [] /\ forall i, monthAt (drop i s) = None)
  \/ (exists i m,
        monthsAtAll s <> []
        /\ monthAt (drop i s) = Some m
        /\ List.last (monthsAtAll s) "" = substring 0 (String.length m) (drop i s)
        /\ forall j, i < j -> monthAt (drop j s) = None).
Proof.
  induction s as [|c r IH].
  - left. split; [reflexivity|]. intros i. rewrite drop_empty. reflexivity.
  - cbn [monthsAtAll]. destruct (monthAt (String c r)) as [m|] eqn:E.
    + right. destruct IH as [[Hnil Hnone]|(i & m' & Hne & Hm' & Hlast & Hafter)].
      * exists 0, m. rewrite Hnil. split; [discriminate|]. split; [exact E|].
        split; [reflexivity|]. intros [|j] Hj; [lia|]. apply Hnone.
      * exists (S i), m'. split; [discriminate|]. split; [exact Hm'|]. split.
        -- destruct (monthsAtAll r); [contradiction|exact Hlast].
        -- intros [|j] Hj; [lia|]. apply Hafter. lia.
    + destruct IH as [[Hnil Hnone]|(i & m' & Hne & Hm' & Hlast & Hafter)].
      * left. split; [exact Hnil|]. intros [|i]; [exact E|]. apply Hnone.
      * right. exists (S i), m'. split; [exact Hne|]. split; [exact Hm'|].
        split; [exact Hlast|]. intros [|j] Hj; [lia|]. apply Hafter. lia.
Qed.

Lemma month_found (s : string) : monthFound s (month (parseFinalDateComponents s)).
Proof.
  assert (Hnone : forall t, (forall i, monthAt (drop i t) = None) ->
                            forall i name, ~ monthOccurs name t i).
  { intros t H i name [Hin Hs]. specialize (H i).
    rewrite monthAt_None in H. rewrite (H name Hin) in Hs. discriminate. }
  unfold parseFinalDateComponents.
  destruct (String.eqb_spec s "") as [->|Hs].
  - right. split; [reflexivity|]. apply Hnone. intros i.
    rewrite drop_empty. reflexivity.
  - cbn [month]. rewrite matchMonths_all.
    destruct (monthsAtAll_last s) as [[Hnil H]|(i & m & Hne & Hm & Hlast & Hafter)].
    + rewrite Hnil. right. split; [reflexivity|]. apply Hnone. exact H.
    + left. exists i. destruct (monthAt_Some _ _ Hm) as [Hin Hstart].
      destruct (monthsAtAll s) as [|x l] eqn:El; [contradiction|].
      rewrite Hlast, (title_of_match _ _ Hin Hstart).
      split; [split; assumption|].
      intros j name [Hname Hj]. destruct (le_gt_dec j i) as [Hle|Hgt]; [exact Hle|].
      specialize (Hafter j Hgt). rewrite monthAt_None in Hafter.
      rewrite (Hafter name Hname) in Hj. discriminate.
Qed.

(** C8: for every raw training date, the parser returns as the year the
    first four digits in a row ("2026" when there are none or the text is
    empty), as the month the month name that stands last in the text
    (empty when there is none), and as the day the last number of the text
    that lies within 1 and 31 and is not the parsed year (1 when there is
    none); in the range "14-18" the day is 18. *)
Theorem date_components (dateString : string) :
  let parsed := parseFinalDateComponents dateString in
  yearFound dateString (year parsed)
  /\ monthFound dateString (month parsed)
  /\ dayFound dateString (year parsed) (day parsed)
  /\ day (parseFinalDateComponents "14-18") = 18%Z.
Proof.
  cbn zeta. split; [|split; [apply month_found|split; [|reflexivity]]].
  - rewrite year_of_date. apply matchYear_found.
  - unfold parseFinalDateComponents.
    destruct (String.eqb_spec dateString "") as [->|Hs].
    + right. split; [reflexivity|]. intros n [].
    + cbn [year day]. apply day_found.
Qed.

Example date_components_of_range :
  parseFinalDateComponents "JANUARY 14-18, 2026"
  = {| year := "2026"; month := "January"; day := 18 |}.
Proof. vm_compute. reflexivity. Qed.

Example date_components_of_two_months :
  parseFinalDateComponents "march 30 - April 2, 1999"
  = {| year := "1999"; month := "April"; day := 2 |}.
Proof. vm_compute. reflexivity. Qed.

End CertificateFacts.

(** ** The router *)

Module ServerFacts.
Import Js Validation Store Server.
Local Arguments String.eqb : simpl never.

(** Where [protect] stands before the handler, a request without a valid
    token is answered 401 and nothing is sent to the store. *)
Lemma protected_route_rejects
    (rejects : statement -> bool) (schedule : nat -> nat)
    (verify : string -> option Z) (req : request) (r : route)
    (param : option string) (p : pool) :
  findRoute ROUTES req = Some (r, param) ->
  route_protect r = true ->
  protect verify req = None ->
  serve rejects schedule verify req p = (Normal (Some unauthorized), p)
  /\ reaches verify req = None.
Proof.
  intros Hr Hp Hv. unfold serve, reaches. rewrite Hr, Hp, Hv. split; reflexivity.
Qed.

Lemma findRoute_In (routes : list route) (req : request) (r : route)
    (param : option string) :
  findRoute routes req = Some (r, param) -> In r routes.
Proof.
  induction routes as [|x l IH]; cbn [findRoute]; [discriminate|].
  destruct (method_eqb (route_method x) (req_method req)).
  - destruct (matchPath (route_path x) (req_path req)).
    + intros [= -> _]. left. reflexivity.
    + intros H. right. exact (IH H).
  - intros H. right. exact (IH H).
Qed.

(** The routes that [protect] guards: /me, the deletion of a certificate
    and the update of the settings. The creation and the update of a
    certificate are not among them. *)
Lemma protected_endpoints (req : request) (r : route) (param : option string) :
  findRoute ROUTES req = Some (r, param) ->
  route_protect r = true <->
  route_endpoint r = Me \/ route_endpoint r = DeleteCertificateById
  \/ route_endpoint r = UpdateSettings.
Proof.
  intros H. apply findRoute_In in H. unfold ROUTES in H. cbn [In] in H.
  repeat (destruct H as [<-|H]; [cbn; split; intros; intuition discriminate|]).
  contradiction.
Qed.

(** C2, on the creation of a certificate: a POST to /certificates with
    no token at all reaches the handler, is answered 201, and the row is
    in the store. *)
Theorem create_certificate_is_not_gated
    (schedule : nat -> nat) (verify : string -> option Z) :
  protect verify anonymousCreate = None
  /\ reaches verify anonymousCreate = Some CreateCertificate
  /\ mutating CreateCertificate = true
  /\ serve acceptsAll schedule verify anonymousCreate start
     = (Normal (Some {| status := 201; body := Certificate (Some createdRow) |}),
        {| db := {| committed := {| certificates := [createdRow];
                                    system_settings := ∅ |};
                    nextId := 2; sessions := ∅ |};
           sent := 1 |}).
Proof.
  repeat split.
Qed.

(** So the gate does not cover every mutation. *)
Lemma not_every_mutation_gated : ~ everyMutationGated.
Proof.
  intros H.
  specialize (H (fun _ => None) anonymousCreate CreateCertificate eq_refl eq_refl).
  discriminate.
Qed.

(** The deletion of a certificate and the update of the settings are
    covered: without a valid token neither handler is reached. *)
Lemma delete_and_settings_gated
    (verify : string -> option Z) (req : request) (e : endpoint) :
  protect verify req = None -> reaches verify req = Some e ->
  e <> DeleteCertificateById /\ e <> UpdateSettings.
Proof.
  intros Hv. unfold reaches.
  destruct (findRoute ROUTES req) as [[r param]|] eqn:Hr; [|discriminate].
  pose proof (protected_endpoints req r param Hr) as Hp.
  destruct (route_protect r).
  - rewrite Hv. discriminate.
  - intros [= <-]. split; intros E; rewrite E in Hp;
      assert (false = true) by (apply Hp; auto); discriminate.
Qed.

(** The same for the update of a certificate: a PUT with no token
    rewrites the row. *)
Lemma update_certificate_is_not_gated
    (schedule : nat -> nat) (verify : string -> option Z) :
  reaches verify anonymousUpdate = Some UpdateCertificateById
  /\ serve acceptsAll schedule verify anonymousUpdate oneRow
     = (Normal (Some {| status := 200; body := Certificate (Some renamedRow) |}),
        {| db := {| committed := {| certificates := [renamedRow];
                                    system_settings := ∅ |};
                    nextId := 2; sessions := ∅ |};
           sent := 2 |}).
Proof.
  repeat split.
Qed.

(** *** The settings update *)

Lemma sessionOf_setSession (d : database) (i : nat) (s : session) :
  sessionOf (setSession d i s) i = s.
Proof. unfold sessionOf, setSession. cbn. rewrite lookup_insert_eq. reflexivity. Qed.

Lemma committed_setSession (d : database) (i : nat) (s : session) :
  committed (setSession d i s) = committed d.
Proof. reflexivity. Qed.

(** The upserts of the loop, all on the connection [i], inside an open
    transaction: they wait in the session, and the committed tables stay
    as they were, also when one of them fails. *)
Lemma upsertAll_on_one_connection
    (rejects : statement -> bool) (i : nat) (settings : object)
    (keys : list string) (p : pool) :
  inTransaction (sessionOf (db p) i) = true ->
  aborted (sessionOf (db p) i) = false ->
  match upsertAll rejects (fun _ => i) settings keys p with
  | (Normal _, p') =>
      committed (db p') = committed (db p)
      /\ inTransaction (sessionOf (db p') i) = true
      /\ aborted (sessionOf (db p') i) = false
      /\ pending (sessionOf (db p') i)
         = pending (sessionOf (db p) i)
           ++ map (fun key => Upsert key (orElse (get settings key) (VStr ""))) keys
  | (Throw _, p') => committed (db p') = committed (db p)
  end.
Proof.
  revert p. induction keys as [|key rest IH]; intros p Hin Hab.
  - cbn. rewrite app_nil_r. auto.
  - cbn [upsertAll]. unfold andThen at 1. unfold query at 1. unfold exec.
    destruct (rejects (UpsertSetting key (orElse (get settings key) (VStr "")))) eqn:R.
    + rewrite Hin. cbn. reflexivity.
    + rewrite Hin, Hab. cbn [andb execData]. unfold doWrite. rewrite Hin.
      cbn [db sent].
      set (p1 := {| db := setSession (db p) i _; sent := S (sent p) |}).
      specialize (IH p1).
      assert (H1 : sessionOf (db p1) i
                   = {| inTransaction := true; aborted := aborted (sessionOf (db p) i);
                        pending := pending (sessionOf (db p) i)
                                   ++ [Upsert key (orElse (get settings key) (VStr ""))] |}).
      { apply sessionOf_setSession. }
      rewrite H1 in IH. cbn [inTransaction aborted pending] in IH.
      specialize (IH eq_refl Hab).
      destruct (upsertAll rejects (fun _ => i) settings rest p1) as [[u|m] p'].
      * destruct IH as (Hc & Ht & Ha & Hp). repeat split; auto.
        rewrite Hp, <- app_assoc. reflexivity.
      * exact IH.
Qed.

(** On one connection the update is all or nothing: the answer is 200
    and every upsert is committed, or it is not 200 and the committed
    tables are as before. *)
Lemma settings_update_atomic_on_one_connection
    (rejects : statement -> bool) (i : nat) (req : request) (p : pool) :
  sessionOf (db p) i = idle ->
  exists resp p',
    postSettings rejects (fun _ => i) req p = (Normal resp, p')
    /\ ((status resp = 200%Z
         /\ committed (db p')
            = applyWrites (committed (db p)) (upsertsOf (req_body req)))
        \/ (status resp <> 200%Z /\ committed (db p') = committed (db p))).
Proof.
  intros Hidle. unfold postSettings, upsertsOf.
  set (settings := req_body req).
  destruct (keys settings) as [|k0 ks] eqn:K.
  { eexists _, _. split; [reflexivity|]. right. split; [discriminate|reflexivity]. }
  rewrite <- K.
  destruct (List.filter (fun key => negb (existsb (String.eqb key) VALID_KEYS)) (keys settings)).
  2:{ eexists _, _. split; [reflexivity|]. right. split; [discriminate|reflexivity]. }
  unfold tryCatch at 1. unfold andThen at 1. unfold query at 1. unfold exec.
  rewrite Hidle. change (inTransaction idle) with false.
  destruct (rejects BEGIN) eqn:RB.
  { eexists _, _. split; [reflexivity|]. right. split; [discriminate|reflexivity]. }
  cbn [db sent].
  set (p1 := {| db := setSession (db p) i _; sent := S (sent p) |}).
  assert (H1 : sessionOf (db p1) i
               = {| inTransaction := true; aborted := false; pending := [] |})
    by apply sessionOf_setSession.
  pose proof (upsertAll_on_one_connection rejects i settings (keys settings) p1) as U.
  rewrite H1 in U. specialize (U eq_refl eq_refl). cbn [pending app] in U.
  unfold tryCatch, andThen.
  destruct (upsertAll rejects (fun _ => i) settings (keys settings) p1) as [[u|m] p2].
  - destruct U as (Hc & Ht & Ha & Hp).
    unfold query at 1. unfold exec. destruct (rejects COMMIT) eqn:RC.
    + (* COMMIT fails: ROLLBACK, then the error surfaces *)
      rewrite Ht. cbn [db sent].
      unfold query, exec. cbn [db sent].
      destruct (rejects ROLLBACK); rewrite ?sessionOf_setSession; cbn;
        eexists _, _; (split; [reflexivity|]); right;
        (split; [discriminate|]); cbn; exact Hc.
    + rewrite Ht, Ha. cbn.
      eexists _, _. split; [reflexivity|]. left. split; [reflexivity|].
      cbn. unfold view. rewrite Hp, Hc. reflexivity.
  - unfold query, exec. cbn [db sent].
    destruct (rejects ROLLBACK);
      [destruct (inTransaction (sessionOf (db p2) i))|];
      cbn; eexists _, _; (split; [reflexivity|]); right;
      (split; [discriminate|]); cbn; exact U.
Qed.

(** C9: a settings update of two keys whose second upsert fails, with
    BEGIN served by one pooled connection and the statements after it by
    another: the answer is 500 and the first key is in the committed
    settings, the second is not; a part of the update stays. *)
Theorem settings_update_leaves_a_part :
  exists p',
    postSettings rejectsNul beginElsewhere twoSettings start
    = (Normal {| status := 500; body := Message "Failed to update system settings" |}, p')
    /\ system_settings (committed (db p')) !! "off1_name"
       = Some (VStr "Dr. Paula Sanchez")
    /\ system_settings (committed (db p')) !! "off1_pos" = None
    /\ system_settings (committed (db start)) !! "off1_name" = None.
Proof.
  eexists. split; [vm_compute; reflexivity|].
  split; [|split]; vm_compute; reflexivity.
Qed.

Lemma settings_update_atomic_on_one_connection_witness :
  exists resp p',
    postSettings rejectsNul (fun _ => 0) twoSettings start = (Normal resp, p')
    /\ ((status resp = 200%Z
         /\ committed (db p')
            = applyWrites (committed (db start)) (upsertsOf (req_body twoSettings)))
        \/ (status resp <> 200%Z /\ committed (db p') = committed (db start))).
Proof.
  apply (settings_update_atomic_on_one_connection rejectsNul 0 twoSettings start).
  reflexivity.
Defined.

End ServerFacts.

(** ** Accounts *)

Module AccountsFacts.
Import Js Accounts.
Local Arguments String.eqb : simpl never.

Lemma validateUsername_Valid (v : value) (o : option string) :
  validateUsername v = Valid o <->
  exists s, v = VStr s /\ o = Some (trim s) /\ wellFormedName (trim s).
Proof.
  unfold validateUsername, wellFormedName. split.
  - destruct v as [| |b|n| |s|r]; cbv beta iota; try discriminate.
    destruct (String.eqb s ""); [discriminate|].
    destruct (Nat.ltb_spec (String.length (trim s)) USERNAME_MIN_LENGTH);
      [discriminate|].
    destruct (Nat.ltb_spec USERNAME_MAX_LENGTH (String.length (trim s)));
      [discriminate|].
    destruct (String.eqb (trim s) ""); cbn [negb andb]; [discriminate|].
    destruct (allChars isNameChar (trim s)) eqn:A; cbn [negb]; [|discriminate].
    intros [= <-]. exists s. repeat split; auto.
  - intros (s & -> & -> & [Hmin Hmax] & Hc).
    destruct (String.eqb_spec s "") as [->|_].
    { cbn in Hmin. unfold USERNAME_MIN_LENGTH in Hmin. lia. }
    destruct (Nat.ltb_spec (String.length (trim s)) USERNAME_MIN_LENGTH); [lia|].
    destruct (Nat.ltb_spec USERNAME_MAX_LENGTH (String.length (trim s))); [lia|].
    destruct (String.eqb_spec (trim s) "") as [E|_].
    { rewrite E in Hmin. cbn in Hmin. unfold USERNAME_MIN_LENGTH in Hmin. lia. }
    rewrite Hc. reflexivity.
Qed.

Lemma validatePassword_Valid (v : value) (o : option string) :
  validatePassword v = Valid o <->
  exists s, v = VStr s /\ o = None /\ strongPassword s.
Proof.
  unfold validatePassword, strongPassword. split.
  - destruct v as [| |b|n| |s|r]; cbv beta iota; try discriminate.
    destruct (String.eqb s ""); [discriminate|].
    destruct (Nat.ltb_spec (String.length s) PASSWORD_MIN_LENGTH); [discriminate|].
    destruct (someChar isUpper s) eqn:U; cbn [negb]; [|discriminate].
    destruct (someChar isLower s) eqn:L; cbn [negb]; [|discriminate].
    destruct (someChar isDigit s) eqn:D; cbn [negb]; [|discriminate].
    intros [= <-]. exists s. repeat split; auto.
  - intros (s & -> & -> & Hlen & -> & -> & ->).
    destruct (String.eqb_spec s "") as [->|_].
    { cbn in Hlen. unfold PASSWORD_MIN_LENGTH in Hlen. lia. }
    destruct (Nat.ltb_spec (String.length s) PASSWORD_MIN_LENGTH); [lia|].
    reflexivity.
Qed.

Lemma filter_withName_nil (name : string) (l : list user) :
  List.filter (withName name) l = [] <-> ~ In name (map user_name l).
Proof.
  induction l as [|u l IH]; cbn [List.filter map In]; [tauto|].
  unfold withName at 1. destruct (String.eqb_spec (user_name u) name) as [E|N].
  - split; [discriminate|]. intros H. exfalso. apply H. left. exact E.
  - rewrite IH. tauto.
Qed.

Section RegisterFacts.

Variable rejects : statement -> bool.
Variable hash : string -> string -> string.
Variable secret : option string.
Variable sign : string -> Z -> Z -> string.

(** What a registration does: it leaves the table as it is and does not
    answer 201, or it adds one account, under a well-formed name that was
    free and for a strong password, and answers 201 with the token of the
    new id signed at the time of the call, or 500 when no signing secret
    is set. *)
Lemma register_cases (salt : string) (now : Z) (body : object) (t : accounts) :
  let '(resp, t') := register rejects hash secret sign salt now body t in
  (t' = t /\ status resp <> 201%Z /\ setCookie resp = Untouched)
  \/ exists s p,
       get body "username" = VStr s /\ get body "password" = VStr p
       /\ wellFormedName (trim s) /\ strongPassword p
       /\ ~ In (trim s) (names t)
       /\ t' = added t (trim s) (hash salt p)
       /\ ((exists key, secret = Some key /\ key <> ""
                        /\ resp = {| status := 201;
                                     body := UserInfo (nextUserId t) (trim s);
                                     setCookie :=
                                       SetToken (sign key (nextUserId t) now) |})
           \/ ((secret = None \/ secret = Some "")
               /\ resp = answer 500 "Server error during registration")).
Proof.
  unfold register, orAnswer.
  destruct (validateUsername (get body "username")) as [o|m] eqn:Vu.
  2:{ cbn. left. repeat split; discriminate. }
  destruct (validatePassword (get body "password")) as [o'|m] eqn:Vp.
  2:{ cbn. left. repeat split; discriminate. }
  apply validateUsername_Valid in Vu as (s & Hs & -> & Hwf).
  apply validatePassword_Valid in Vp as (p & Hp & -> & Hstrong).
  change (default "" (Some (trim s))) with (trim s).
  unfold andThen at 1. unfold query at 1.
  destruct (rejects (SelectUserId (trim s))).
  { cbn. left. repeat split; discriminate. }
  destruct (List.filter (withName (trim s)) (users t)) as [|u0 l0] eqn:F.
  2:{ cbn. left. repeat split; discriminate. }
  apply filter_withName_nil in F.
  unfold andThen at 1. unfold query at 1.
  destruct (rejects (InsertUser (trim s) (hash salt (toString (get body "password"))))).
  { cbn. left. repeat split; discriminate. }
  rewrite Hp. cbn [toString].
  unfold andThen, lift, generateToken, ret.
  destruct secret as [key|]; [destruct (String.eqb_spec key "") as [->|Hkey]|];
    cbn; right; exists s, p;
    refine (conj Hs (conj eq_refl (conj Hwf (conj Hstrong (conj F (conj eq_refl _)))))).
  - right. split; [right; reflexivity|reflexivity].
  - left. exists key. split; [reflexivity|]. split; [exact Hkey|reflexivity].
  - right. split; [left; reflexivity|reflexivity].
Qed.

Lemma names_added (t : accounts) (name hashed : string) :
  names (added t name hashed) = names t ++ [name].
Proof. unfold names, added. cbn. rewrite map_app. reflexivity. Qed.

(** X1: registration keeps the users table in order: whatever is submitted,
    no user name comes to stand twice and every stored name is well
    formed. *)
Theorem register_keeps_order (salt : string) (now : Z) (body : object)
    (t : accounts) :
  inOrder t ->
  inOrder (snd (register rejects hash secret sign salt now body t)).
Proof.
  intros [Hnd Hwf]. pose proof (register_cases salt now body t) as H.
  destruct (register rejects hash secret sign salt now body t) as [resp t'].
  cbn [snd].
  destruct H as [(-> & _)|(s & p & _ & _ & Hname & _ & Hfree & -> & _)];
    [split; assumption|].
  unfold inOrder. rewrite names_added. split.
  - apply NoDup_app. split; [exact Hnd|]. split; [|apply NoDup_singleton].
    intros x Hx Hx'. apply list_elem_of_In in Hx, Hx'.
    destruct Hx' as [<-|[]]. exact (Hfree Hx).
  - apply Forall_app. split; [exact Hwf|]. constructor; [exact Hname|constructor].
Qed.

(** X2: A registration answered 201 was for a well-formed user name that was
    free and for a strong password; the account holds the trimmed name
    and the hash, not the password, and the cookie carries the token
    signed for the new id at the time of the call, under a secret that
    is not empty. *)
Theorem register_created (salt : string) (now : Z) (form : object)
    (t t' : accounts) (resp : response) :
  register rejects hash secret sign salt now form t = (resp, t') ->
  status resp = 201%Z ->
  exists s p key,
    get form "username" = VStr s /\ get form "password" = VStr p
    /\ wellFormedName (trim s) /\ strongPassword p
    /\ ~ In (trim s) (names t)
    /\ t' = added t (trim s) (hash salt p)
    /\ secret = Some key /\ key <> ""
    /\ body resp = UserInfo (nextUserId t) (trim s)
    /\ setCookie resp = SetToken (sign key (nextUserId t) now).
Proof.
  intros E Hs. pose proof (register_cases salt now form t) as H. rewrite E in H.
  destruct H as [(_ & Hn & _)|(s & p & H1 & H2 & H3 & H4 & H5 & H6 & H7)];
    [contradiction|].
  destruct H7 as [(key & Hk & Hne & ->)|(_ & ->)]; [|discriminate].
  exists s, p, key. cbn. auto 12.
Qed.

(** X3: with no signing secret in the environment, or an empty one, a
    registration of a free, well-formed name with a strong password is
    answered 500, and yet the account is in the table. *)
Theorem register_without_secret (salt name pass : string) (now : Z)
    (t : accounts) :
  secret = None \/ secret = Some "" ->
  (forall stmt, rejects stmt = false) ->
  wellFormedName (trim name) -> strongPassword pass ->
  ~ In (trim name) (names t) ->
  register rejects hash secret sign salt now (credentials name pass) t
  = (answer 500 "Server error during registration",
     added t (trim name) (hash salt pass)).
Proof.
  intros Hsec Hrej Hname Hpass Hfree. unfold register, orAnswer.
  assert (Vu : validateUsername (get (credentials name pass) "username")
               = Valid (Some (trim name))).
  { apply validateUsername_Valid. exists name. auto. }
  assert (Vp : validatePassword (get (credentials name pass) "password") = Valid None).
  { apply validatePassword_Valid. exists pass. auto. }
  rewrite Vu, Vp. change (default "" (Some (trim name))) with (trim name).
  unfold andThen at 1. unfold query at 1. rewrite Hrej.
  apply filter_withName_nil in Hfree. unfold names in Hfree. rewrite Hfree.
  unfold andThen at 1. unfold query at 1. rewrite Hrej.
  unfold andThen, lift, generateToken. destruct Hsec as [-> | ->]; reflexivity.
Qed.

(** *** Login *)

Variable compare : string -> string -> bool.

(** X4: login never writes to the users table, and an answer other than 200
    touches no cookie. *)
Theorem login_reads_only (now : Z) (body : object) (t : accounts) :
  snd (login rejects compare secret sign now body t) = t
  /\ (status (fst (login rejects compare secret sign now body t)) <> 200%Z ->
      setCookie (fst (login rejects compare secret sign now body t)) = Untouched).
Proof.
  assert (H : forall r, login rejects compare secret sign now body t = r ->
                snd r = t /\ (status (fst r) <> 200%Z -> setCookie (fst r) = Untouched));
    [|exact (H _ eq_refl)].
  intros r. unfold login, orAnswer.
  destruct (negb (truthy (get body "username")) || negb (truthy (get body "password"))).
  { intros <-. cbn. auto. }
  unfold andThen at 1. unfold lift at 1.
  destruct (callTrim (get body "username")) as [trimmed|m]; [|intros <-; cbn; auto].
  unfold andThen at 1. unfold query at 1.
  destruct (rejects (SelectUser (toString trimmed))); [intros <-; cbn; auto|].
  destruct (List.filter (withName (toString trimmed)) (users t)) as [|u l];
    [intros <-; cbn; auto|].
  unfold andThen at 1. unfold lift at 1.
  destruct (comparePassword compare (get body "password") (user_password u)) as [[|]|m];
    [|intros <-; cbn; auto|intros <-; cbn; auto].
  cbn [negb]. unfold andThen, lift, generateToken.
  destruct secret as [key|]; [destruct (String.eqb key "")|]; intros <-; cbn; auto.
  split; [reflexivity|]. intros H. contradiction.
Qed.


(** X6: round trip: after a registration answered 201, a login under the same
    name, with or without white space around it, and the same password is
    answered 200 with the same user id and name, and with a token signed
    for that id at the time of the login, provided the hash compares
    equal to its password. The token of the login is a new one: it is
    the token of the registration only when the two are signed at the
    same time. *)
Theorem register_then_login (salt name name' pass : string) (now now' : Z)
    (t t' : accounts) (resp : response) :
  (forall stmt, rejects stmt = false) ->
  compare pass (hash salt pass) = true ->
  register rejects hash secret sign salt now (credentials name pass) t = (resp, t') ->
  status resp = 201%Z ->
  trim name' = trim name ->
  exists key,
    secret = Some key
    /\ setCookie resp = SetToken (sign key (nextUserId t) now)
    /\ login rejects compare secret sign now' (credentials name' pass) t'
       = ({| status := 200; body := body resp;
             setCookie := SetToken (sign key (nextUserId t) now') |}, t').
Proof.
  intros Hrej Hcmp E Hs Hname.
  pose proof (register_cases salt now (credentials name pass) t) as H.
  rewrite E in H.
  destruct H as [(_ & Hn & _)|(s & p & [= <-] & [= <-] & Hwf & Hstrong & Hfree & -> & H)];
    [contradiction|].
  destruct H as [(key & Hsec & Hkey & ->)|(_ & ->)]; [|discriminate].
  exists key. split; [exact Hsec|]. split; [reflexivity|].
  assert (Hn' : name' <> "").
  { intros ->. rewrite <- Hname in Hwf. destruct Hwf as [[Hmin _] _].
    cbn in Hmin. unfold USERNAME_MIN_LENGTH in Hmin. lia. }
  assert (Hp : pass <> "").
  { intros ->. destruct Hstrong as [Hmin _].
    cbn in Hmin. unfold PASSWORD_MIN_LENGTH in Hmin. lia. }
  unfold login, orAnswer.
  change (get (credentials name' pass) "username") with (VStr name').
  change (get (credentials name' pass) "password") with (VStr pass).
  rewrite (proj2 (JsFacts.truthy_VStr name') Hn'), (proj2 (JsFacts.truthy_VStr pass) Hp).
  cbn [negb orb]. unfold andThen at 1. unfold lift at 1. cbn [callTrim].
  unfold andThen at 1. unfold query at 1. rewrite Hrej. cbn [toString].
  rewrite Hname. unfold added. cbn [users]. rewrite List.filter_app.
  apply filter_withName_nil in Hfree. unfold names in Hfree. rewrite Hfree.
  cbn [List.filter app]. unfold withName at 1. cbn [user_name].
  rewrite String.eqb_refl.
  unfold andThen at 1. unfold lift at 1. cbn [comparePassword user_password].
  rewrite Hcmp. cbn [negb]. unfold andThen, lift, generateToken. rewrite Hsec.
  apply String.eqb_neq in Hkey. rewrite Hkey.
  reflexivity.
Qed.

End RegisterFacts.

Lemma register_keeps_order_witness :
  inOrder (snd (register acceptsAll sampleHash (Some "key") sampleSign "salt" 1000
                  (credentials " anna_1 " "Abcdef12") noAccounts)).
Proof.
  apply (register_keeps_order acceptsAll sampleHash (Some "key") sampleSign).
  split; constructor.
Defined.

Lemma register_created_witness :
  exists s p key,
    get (credentials " anna_1 " "Abcdef12") "username" = VStr s
    /\ get (credentials " anna_1 " "Abcdef12") "password" = VStr p
    /\ wellFormedName (trim s) /\ strongPassword p
    /\ ~ In (trim s) (names noAccounts)
    /\ added noAccounts "anna_1" "salt$Abcdef12"
       = added noAccounts (trim s) (sampleHash "salt" p)
    /\ Some "key" = Some key /\ key <> ""
    /\ UserInfo 1 "anna_1" = UserInfo (nextUserId noAccounts) (trim s)
    /\ SetToken "key.1.1000" = SetToken (sampleSign key (nextUserId noAccounts) 1000).
Proof.
  apply (register_created acceptsAll sampleHash (Some "key") sampleSign "salt" 1000
           (credentials " anna_1 " "Abcdef12") noAccounts
           (added noAccounts "anna_1" "salt$Abcdef12")
           {| status := 201; body := UserInfo 1 "anna_1";
              setCookie := SetToken "key.1.1000" |}).
  - vm_compute. reflexivity.
  - reflexivity.
Defined.

Lemma register_without_secret_witness :
  register acceptsAll sampleHash (Some "") sampleSign "salt" 1000
    (credentials " anna_1 " "Abcdef12") noAccounts
  = (answer 500 "Server error during registration",
     added noAccounts (trim " anna_1 ") (sampleHash "salt" "Abcdef12")).
Proof.
  apply (register_without_secret acceptsAll sampleHash (Some "") sampleSign).
  - right. reflexivity.
  - reflexivity.
  - split; [vm_compute; lia|vm_compute; reflexivity].
  - split; [vm_compute; lia|repeat split; vm_compute; reflexivity].
  - intros [].
Defined.


Lemma register_then_login_witness :
  exists key,
    Some "key" = Some key
    /\ SetToken "key.1.1000" = SetToken (sampleSign key (nextUserId noAccounts) 1000)
    /\ login acceptsAll sampleCompare (Some "key") sampleSign 2000
         (credentials "anna_1  " "Abcdef12")
         (added noAccounts "anna_1" "salt$Abcdef12")
       = ({| status := 200; body := UserInfo 1 "anna_1";
             setCookie := SetToken (sampleSign key (nextUserId noAccounts) 2000) |},
          added noAccounts "anna_1" "salt$Abcdef12").
Proof.
  apply (register_then_login acceptsAll sampleHash (Some "key") sampleSign
           sampleCompare "salt" " anna_1 " "anna_1  " "Abcdef12" 1000 2000 noAccounts
           (added noAccounts "anna_1" "salt$Abcdef12")
           {| status := 201; body := UserInfo 1 "anna_1";
              setCookie := SetToken "key.1.1000" |}).
  - reflexivity.
  - vm_compute. reflexivity.
  - vm_compute. reflexivity.
  - reflexivity.
  - vm_compute. reflexivity.
Defined.

End AccountsFacts.

(** ** The certificate handlers *)

Module HandlerFacts.
Import Js Validation Store Server JsFacts.
Local Arguments String.eqb : simpl never.

Lemma nameMissing_blank (data : object) :
  blank (get data "participant_name") -> nameMissing data = Normal true.
Proof.
  unfold nameMissing, blank.
  intros [->|[->|(s & -> & Hs)]]; [reflexivity|reflexivity|].
  cbn [truthy]. destruct (String.eqb s ""); [reflexivity|].
  cbn [negb callTrim bind truthy]. rewrite Hs. reflexivity.
Qed.

Lemma pushIf_head (c : bool) (msg first : string) (rest : list string) :
  exists rest', pushIf c msg (first :: rest) = first :: rest'.
Proof. unfold pushIf. destruct c; cbn; eauto. Qed.

Lemma newest_row_first (r : certRow) (l : list certRow) :
  Forall (fun x => (row_id x < row_id r)%Z) l ->
  orderByIdDesc (l ++ [r]) = r :: orderByIdDesc l.
Proof.
  unfold orderByIdDesc. induction 1 as [|x l Hx _ IH]; [reflexivity|].
  cbn [app fold_right]. rewrite IH. cbn [insertDesc].
  destruct (Z.leb_spec (row_id r) (row_id x)); [lia|reflexivity].
Qed.

Lemma filter_updated (n : Z) (fields : object) (l : list certRow) :
  List.filter (fun r => (row_id r =? n)%Z)
    (map (fun r => if (row_id r =? n)%Z
                   then {| row_id := n; row_fields := fields |} else r) l)
  = map (fun _ => {| row_id := n; row_fields := fields |})
      (List.filter (fun r => (row_id r =? n)%Z) l).
Proof.
  induction l as [|x l IH]; [reflexivity|]. cbn [map List.filter].
  destruct (row_id x =? n)%Z eqn:E.
  - cbn [row_id]. rewrite Z.eqb_refl. cbn [map]. rewrite IH. reflexivity.
  - rewrite E. exact IH.
Qed.

Lemma update_updated (n : Z) (fields : object) (l : list certRow) :
  map (fun r => if (row_id r =? n)%Z
                then {| row_id := n; row_fields := fields |} else r)
    (map (fun r => if (row_id r =? n)%Z
                   then {| row_id := n; row_fields := fields |} else r) l)
  = map (fun r => if (row_id r =? n)%Z
                  then {| row_id := n; row_fields := fields |} else r) l.
Proof.
  induction l as [|x l IH]; [reflexivity|]. cbn [map]. rewrite IH. f_equal.
  destruct (row_id x =? n)%Z eqn:E.
  - cbn [row_id]. rewrite Z.eqb_refl. reflexivity.
  - rewrite E. reflexivity.
Qed.

Section Certificates.

Variable rejects : statement -> bool.
Variable schedule : nat -> nat.

(** X7: A body with no participant name, or with a blank one, is answered
    400 on creation, the first error names the field, and no statement
    is sent to the store. *)
Theorem create_refuses_blank_name (req : request) (p : pool) :
  blank (get (req_body req) "participant_name") ->
  exists rest,
    postCertificates rejects schedule req p
    = (Normal {| status := 400;
                 body := ValidationFailed ("participant_name is required" :: rest) |},
       p).
Proof.
  intros B. unfold postCertificates, tryCatch, andThen, lift, validateCertificateData.
  rewrite (nameMissing_blank _ B). cbn [bind].
  change (pushIf true "participant_name is required" [])
    with ["participant_name is required"].
  destruct (pushIf_head (badTrainingType (req_body req))
              ("training_type must be one of: " ++ join ", " VALID_TRAINING_TYPES)
              "participant_name is required" []) as [r1 ->].
  destruct (pushIf_head (badParticipantType (req_body req))
              ("participant_type must be one of: " ++ join ", " VALID_PARTICIPANT_TYPES)
              "participant_name is required" r1) as [r2 ->].
  destruct (pushIf_head (badAge (req_body req))
              "age must be a valid number between 0 and 120"
              "participant_name is required" r2) as [r3 ->].
  exists r3. reflexivity.
Qed.

(** A statement on data, sent while no connection is inside a
    transaction: refused, it changes nothing; taken, it runs on the
    committed tables. *)
Lemma query_outside_transaction (stmt : statement) (p : pool) :
  (forall i, sessionOf (db p) i = idle) ->
  match stmt with BEGIN | COMMIT | ROLLBACK => False | _ => True end ->
  query rejects schedule stmt p
  = if rejects stmt
    then (Throw "the statement failed", {| db := db p; sent := S (sent p) |})
    else (match snd (execData (db p) (schedule (sent p)) stmt) with
          | Failure m => Throw m
          | r => Normal r
          end,
          {| db := fst (execData (db p) (schedule (sent p)) stmt);
             sent := S (sent p) |}).
Proof.
  intros Q C. unfold query, exec. rewrite (Q (schedule (sent p))).
  change (inTransaction idle) with false. cbn [andb].
  destruct (rejects stmt); [reflexivity|].
  destruct stmt; try contradiction;
    destruct (execData (db p) (schedule (sent p)) _) as [d [rows|rows|m]]; reflexivity.
Qed.

Lemma execData_select_id (d : database) (i : nat) (n : Z) :
  sessionOf d i = idle ->
  execData d i (SelectCertificateId n)
  = (d, CertRows (List.filter (fun r => (row_id r =? n)%Z) (certificates (committed d)))).
Proof. intros Q. unfold execData. rewrite Q. reflexivity. Qed.

Lemma execData_insert (d : database) (i : nat) (fields : object) :
  sessionOf d i = idle ->
  execData d i (InsertCertificate fields)
  = ({| committed :=
          applyWrite (committed d)
            (InsertRow {| row_id := nextId d; row_fields := fields |});
        nextId := (nextId d + 1)%Z; sessions := sessions d |},
     CertRows [{| row_id := nextId d; row_fields := fields |}]).
Proof.
  intros Q. unfold execData, doWrite.
  change (sessionOf {| committed := committed d; nextId := (nextId d + 1)%Z;
                       sessions := sessions d |} i) with (sessionOf d i).
  rewrite Q. reflexivity.
Qed.

Lemma execData_update (d : database) (i : nat) (n : Z) (fields : object) :
  sessionOf d i = idle ->
  execData d i (UpdateCertificate n fields)
  = ({| committed := applyWrite (committed d) (UpdateRow n fields);
        nextId := nextId d; sessions := sessions d |},
     CertRows (map (fun _ => {| row_id := n; row_fields := fields |})
                 (List.filter (fun r => (row_id r =? n)%Z)
                    (certificates (committed d))))).
Proof. intros Q. unfold execData, doWrite. rewrite Q. reflexivity. Qed.

Lemma execData_delete (d : database) (i : nat) (n : Z) :
  sessionOf d i = idle ->
  execData d i (DeleteCertificate n)
  = ({| committed := applyWrite (committed d) (DeleteRow n);
        nextId := nextId d; sessions := sessions d |},
     CertRows []).
Proof. intros Q. unfold execData, doWrite. rewrite Q. reflexivity. Qed.

(** X8: A certificate request that is not answered 200 or 201 leaves the
    committed tables as they were, when no connection is inside a
    transaction: whichever statement the server refuses, nothing of the
    request stays. *)
Theorem failed_certificate_request_changes_nothing
    (req : request) (id : string) (p : pool) :
  (forall i, sessionOf (db p) i = idle) ->
  forall h, In h [ postCertificates rejects schedule req;
                   putCertificate rejects schedule req id;
                   deleteCertificate rejects schedule id ] ->
  exists resp p',
    h p = (Normal resp, p')
    /\ (status resp = 200%Z \/ status resp = 201%Z
        \/ committed (db p') = committed (db p)).
Proof.
  intros Q h [<-|[<-|[<-|[]]]].
  - unfold postCertificates, tryCatch. unfold andThen at 1. unfold lift at 1.
    destruct (validateCertificateData (req_body req)) as [v|m];
      [|eexists _, _; split; [reflexivity|auto]].
    destruct (valid v); cbn [negb]; [|eexists _, _; split; [reflexivity|auto]].
    unfold andThen at 1. unfold lift at 1.
    destruct (sanitizeCertificateData (req_body req)) as [r|m];
      [|eexists _, _; split; [reflexivity|auto]].
    unfold andThen. rewrite (query_outside_transaction (InsertCertificate r) _ Q I).
    destruct (rejects (InsertCertificate r));
      [eexists _, _; split; [reflexivity|auto]|].
    rewrite (execData_insert _ _ _ (Q _)). cbn [snd fst].
    eexists _, _. split; [reflexivity|]. cbn. auto.
  - unfold putCertificate, tryCatch.
    destruct (parseIntString id) as [n|]; [|eexists _, _; split; [reflexivity|auto]].
    unfold andThen at 1. rewrite (query_outside_transaction (SelectCertificateId n) _ Q I).
    destruct (rejects (SelectCertificateId n));
      [eexists _, _; split; [reflexivity|auto]|].
    rewrite (execData_select_id _ _ _ (Q _)). cbn [snd fst certRowsOf].
    destruct (List.filter _ _) as [|x l];
      [eexists _, _; split; [reflexivity|auto]|].
    unfold andThen at 1. unfold lift at 1.
    destruct (validateCertificateData (req_body req)) as [v|m];
      [|eexists _, _; split; [reflexivity|auto]].
    destruct (valid v); cbn [negb]; [|eexists _, _; split; [reflexivity|auto]].
    unfold andThen at 1. unfold lift at 1.
    destruct (sanitizeCertificateData (req_body req)) as [r|m];
      [|eexists _, _; split; [reflexivity|auto]].
    unfold andThen.
    rewrite (query_outside_transaction (UpdateCertificate n r)
               {| db := db p; sent := S (sent p) |} Q I).
    destruct (rejects (UpdateCertificate n r));
      [eexists _, _; split; [reflexivity|auto]|].
    cbn [db sent]. rewrite (execData_update _ _ _ _ (Q _)). cbn [snd fst].
    eexists _, _. split; [reflexivity|]. cbn. auto.
  - unfold deleteCertificate, tryCatch.
    destruct (parseIntString id) as [n|]; [|eexists _, _; split; [reflexivity|auto]].
    unfold andThen at 1. rewrite (query_outside_transaction (SelectCertificateId n) _ Q I).
    destruct (rejects (SelectCertificateId n));
      [eexists _, _; split; [reflexivity|auto]|].
    rewrite (execData_select_id _ _ _ (Q _)). cbn [snd fst certRowsOf].
    destruct (List.filter _ _) as [|x l];
      [eexists _, _; split; [reflexivity|auto]|].
    unfold andThen.
    rewrite (query_outside_transaction (DeleteCertificate n)
               {| db := db p; sent := S (sent p) |} Q I).
    destruct (rejects (DeleteCertificate n));
      [eexists _, _; split; [reflexivity|auto]|].
    cbn [db sent]. rewrite (execData_delete _ _ _ (Q _)). cbn [snd fst].
    eexists _, _. split; [reflexivity|]. cbn. auto.
Qed.

(** X9: A created certificate heads the listing, when no pooled connection
    is inside a transaction and the server refuses no statement: with
    ids below the sequence, the row stored for a body that passes
    validation is the sanitized body under the next id, and the listing
    read after it starts with that row. (On a connection left inside a
    transaction the insert would wait in it and not be committed.) *)
Theorem created_certificate_heads_listing
    (req : request) (fields : object) (p : pool) :
  (forall i, sessionOf (db p) i = idle) ->
  (forall stmt, rejects stmt = false) ->
  passes (req_body req) ->
  sanitizeCertificateData (req_body req) = Normal fields ->
  Forall (fun r => (row_id r < nextId (db p))%Z) (certificates (committed (db p))) ->
  exists p1 p2,
    postCertificates rejects schedule req p
       = (Normal {| status := 201;
                    body := Certificate
                              (Some {| row_id := nextId (db p); row_fields := fields |}) |},
          p1)
    /\ getCertificates rejects schedule p1
       = (Normal {| status := 200;
                    body := Certificates
                              ({| row_id := nextId (db p); row_fields := fields |}
                               :: orderByIdDesc (certificates (committed (db p)))) |},
          p2).
Proof.
  intros Q R (v & Hv & Hvalid) Hs F.
  unfold postCertificates, getCertificates, tryCatch.
  unfold andThen at 1. unfold lift at 1. rewrite Hv, Hvalid. cbn [negb].
  unfold andThen at 1. unfold lift at 1. rewrite Hs.
  unfold andThen at 1. rewrite (query_outside_transaction (InsertCertificate fields) _ Q I).
  rewrite R, (execData_insert _ _ _ (Q _)). cbn [snd fst ret certRowsOf head].
  set (p1 := {| db := _; sent := S (sent p) |}).
  assert (Q1 : forall i, sessionOf (db p1) i = idle) by (intros i; exact (Q i)).
  eexists _, _. split; [reflexivity|].
  unfold andThen. rewrite (query_outside_transaction SelectCertificates p1 Q1 I).
  rewrite R. unfold execData, view. rewrite (Q1 _).
  cbn [pending applyWrites fold_left fst snd certRowsOf ret].
  subst p1. cbn [db committed applyWrite certificates].
  change (pending idle) with (@nil write).
  cbn [applyWrites fold_left certificates].
  rewrite newest_row_first by exact F. reflexivity.
Qed.

(** X10: when no pooled connection is inside a transaction, a deletion
    answered 200 removed the rows of the id in the path, of which there
    was one, and nothing else: the other rows and the settings are as
    before. (On a connection left inside a transaction the deletion
    would wait in it and not be committed.) *)
Theorem delete_removes_that_row_only
    (id : string) (p p' : pool) (resp : response) :
  (forall i, sessionOf (db p) i = idle) ->
  deleteCertificate rejects schedule id p = (Normal resp, p') ->
  status resp = 200%Z ->
  exists n,
    parseIntString id = Some n
    /\ (exists r, In r (certificates (committed (db p))) /\ row_id r = n)
    /\ certificates (committed (db p'))
       = List.filter (fun r => negb (row_id r =? n)%Z) (certificates (committed (db p)))
    /\ system_settings (committed (db p')) = system_settings (committed (db p)).
Proof.
  intros Q. unfold deleteCertificate, tryCatch.
  destruct (parseIntString id) as [n|]; [|intros [= <- _]; discriminate].
  unfold andThen at 1. rewrite (query_outside_transaction (SelectCertificateId n) _ Q I).
  destruct (rejects (SelectCertificateId n)); [intros [= <- _]; discriminate|].
  rewrite (execData_select_id _ _ _ (Q _)). cbn [snd fst certRowsOf].
  destruct (List.filter _ _) as [|x l] eqn:F; [intros [= <- _]; discriminate|].
  unfold andThen.
  rewrite (query_outside_transaction (DeleteCertificate n)
             {| db := db p; sent := S (sent p) |} Q I).
  destruct (rejects (DeleteCertificate n)); [intros [= <- _]; discriminate|].
  cbn [db sent]. rewrite (execData_delete _ _ _ (Q _)). cbn [snd fst].
  intros [= <- <-] _. exists n. split; [reflexivity|]. split; [|split; reflexivity].
  assert (Hx : In x (List.filter (fun r => (row_id r =? n)%Z)
                       (certificates (committed (db p)))))
    by (rewrite F; left; reflexivity).
  apply List.filter_In in Hx as [Hin Hid]. exists x. split; [exact Hin|lia].
Qed.

(** X11: when no pooled connection is inside a transaction, an update is
    idempotent on the id and the eight data columns: the same request
    sent again after a 200 is answered 200 again with the same id and
    the same eight values, and leaves the id and the eight values of
    every row as the first one made them. The column updated_at, which
    every UPDATE sets to the time of the statement and which is no part
    of [certRow], is the one thing the second request changes. *)
Theorem update_twice_is_update_once
    (req : request) (id : string) (p p1 : pool) (resp : response) :
  (forall i, sessionOf (db p) i = idle) ->
  putCertificate rejects schedule req id p = (Normal resp, p1) ->
  status resp = 200%Z ->
  exists p2,
    putCertificate rejects schedule req id p1 = (Normal resp, p2)
    /\ committed (db p2) = committed (db p1).
Proof.
  intros Q. unfold putCertificate, tryCatch.
  destruct (parseIntString id) as [n|]; [|intros [= <- _]; discriminate].
  unfold andThen at 1. rewrite (query_outside_transaction (SelectCertificateId n) _ Q I).
  destruct (rejects (SelectCertificateId n)) eqn:R1; [intros [= <- _]; discriminate|].
  rewrite (execData_select_id _ _ _ (Q _)). cbn [snd fst certRowsOf].
  destruct (List.filter _ _) as [|x l] eqn:F; [intros [= <- _]; discriminate|].
  unfold andThen at 1. unfold lift at 1.
  destruct (validateCertificateData (req_body req)) as [v|m];
    [|intros [= <- _]; discriminate].
  destruct (valid v) eqn:Hvalid; cbn [negb]; [|intros [= <- _]; discriminate].
  unfold andThen at 1. unfold lift at 1.
  destruct (sanitizeCertificateData (req_body req)) as [r|m];
    [|intros [= <- _]; discriminate].
  unfold andThen at 1.
  rewrite (query_outside_transaction (UpdateCertificate n r)
             {| db := db p; sent := S (sent p) |} Q I).
  destruct (rejects (UpdateCertificate n r)) eqn:R2; [intros [= <- _]; discriminate|].
  cbn [db sent]. rewrite (execData_update _ _ _ _ (Q _)). cbn [snd fst certRowsOf].
  rewrite F. cbn [map head ret]. intros [= <- <-] _.
  set (p1 := {| db := _; sent := S (S (sent p)) |}).
  assert (Q1 : forall i, sessionOf (db p1) i = idle) by (intros i; exact (Q i)).
  unfold andThen at 1. rewrite (query_outside_transaction (SelectCertificateId n) p1 Q1 I).
  rewrite R1, (execData_select_id _ _ _ (Q1 _)). cbn [snd fst certRowsOf].
  assert (F1 : List.filter (fun r0 => (row_id r0 =? n)%Z)
                 (certificates (committed (db p1)))
               = {| row_id := n; row_fields := r |}
                 :: map (fun _ => {| row_id := n; row_fields := r |}) l).
  { subst p1. cbn [db committed applyWrite certificates].
    rewrite filter_updated, F. reflexivity. }
  rewrite F1. unfold andThen at 1. unfold lift at 1. rewrite Hvalid. cbn [negb].
  unfold andThen at 1. unfold lift at 1. unfold andThen at 1.
  set (p1' := {| db := db p1; sent := S (sent p1) |}).
  assert (Q1' : forall i, sessionOf (db p1') i = idle) by (intros i; exact (Q i)).
  rewrite (query_outside_transaction (UpdateCertificate n r) p1' Q1' I).
  rewrite R2, (execData_update _ _ _ _ (Q1' _)). cbn [snd fst certRowsOf].
  change (db p1') with (db p1). rewrite F1. cbn [map head ret].
  eexists. split; [reflexivity|]. cbn [db committed].
  subst p1. cbn [db committed applyWrite certificates system_settings].
  rewrite update_updated. reflexivity.
Qed.

(** X12: A body that passes validation and holds a number, a boolean or an
    object where the date, the venue, the facility or the position is
    read is answered 500 on creation: the sanitizer calls trim on it. No
    statement is sent. *)
Theorem create_non_text_field_is_500 (req : request) (f : string) (p : pool) :
  passes (req_body req) ->
  In f ["training_date"; "venue"; "facility"; "position"] ->
  match get (req_body req) f with
  | VBool _ | VNum _ | VNaN | VObj _ => True
  | _ => False
  end ->
  postCertificates rejects schedule req p
  = (Normal {| status := 500; body := Message "Failed to create certificate" |}, p).
Proof.
  intros (v & Hv & Hvalid) Hf Hnt.
  assert (T : trimOrNull (get (req_body req) f)
              = Throw "TypeError: trim is not a function").
  { destruct (get (req_body req) f); try contradiction; reflexivity. }
  assert (S : exists m, sanitizeCertificateData (req_body req) = Throw m).
  { unfold sanitizeCertificateData.
    destruct (trimOrNull (get (req_body req) "participant_name")); [|eauto].
    destruct (trimOrNull (get (req_body req) "training_type")); [|eauto].
    cbn [bind].
    destruct Hf as [<-|Hf]; [rewrite T; eauto|].
    destruct (trimOrNull (get (req_body req) "training_date")); [|eauto].
    cbn [bind].
    destruct Hf as [<-|Hf]; [rewrite T; eauto|].
    destruct (trimOrNull (get (req_body req) "venue")); [|eauto].
    cbn [bind].
    destruct Hf as [<-|Hf]; [rewrite T; eauto|].
    destruct (trimOrNull (get (req_body req) "facility")); [|eauto].
    cbn [bind].
    destruct (trimOrNull (get (req_body req) "participant_type")); [|eauto].
    cbn [bind].
    destruct Hf as [<-|[]]. rewrite T. eauto. }
  destruct S as [m S].
  unfold postCertificates, tryCatch, andThen, lift. rewrite Hv, Hvalid, S.
  reflexivity.
Qed.

End Certificates.

(** *** The settings *)

Lemma upserts_applied (f : string -> value) (ks : list string) (t : tables) :
  certificates (applyWrites t (map (fun key => Upsert key (f key)) ks))
  = certificates t
  /\ (forall k, In k ks ->
        system_settings (applyWrites t (map (fun key => Upsert key (f key)) ks)) !! k
        = Some (f k))
  /\ (forall k, ~ In k ks ->
        system_settings (applyWrites t (map (fun key => Upsert key (f key)) ks)) !! k
        = system_settings t !! k).
Proof.
  revert t. induction ks as [|key rest IH]; intros t.
  { cbn. split; [reflexivity|]. split; [intros k []|reflexivity]. }
  cbn [map]. unfold applyWrites. cbn [fold_left].
  destruct (IH (applyWrite t (Upsert key (f key)))) as (Hc & Hin & Hout).
  unfold applyWrites in Hc, Hin, Hout.
  split; [rewrite Hc; reflexivity|]. split.
  - intros k Hk. destruct (in_dec String.string_dec k rest) as [Hr|Hr].
    + exact (Hin k Hr).
    + rewrite (Hout k Hr). destruct Hk as [->|Hk]; [|contradiction].
      cbn. apply lookup_insert_eq.
  - intros k Hk. rewrite Hout by (intros H; apply Hk; right; exact H).
    cbn. apply lookup_insert_ne. intros ->. apply Hk. left. reflexivity.
Qed.

(** X13: A settings update answered 200 whose statements all ran on one
    connection, which was idle (in no transaction) when the update
    began: every key of the body is one of the seven recognised keys and
    is stored with its value, or with the empty string where the value
    is falsy; no other key and no certificate is touched. (A connection
    that was left inside a transaction would have its pending writes
    committed along.) *)
Theorem settings_update_stores_the_body
    (rejects : statement -> bool) (i : nat) (req : request) (p p' : pool)
    (resp : response) :
  sessionOf (db p) i = idle ->
  postSettings rejects (fun _ => i) req p = (Normal resp, p') ->
  status resp = 200%Z ->
  (forall k, In k (keys (req_body req)) ->
     In k VALID_KEYS
     /\ system_settings (committed (db p')) !! k
        = Some (orElse (get (req_body req) k) (VStr "")))
  /\ (forall k, ~ In k (keys (req_body req)) ->
       system_settings (committed (db p')) !! k
       = system_settings (committed (db p)) !! k)
  /\ certificates (committed (db p')) = certificates (committed (db p)).
Proof.
  intros Q E Hs.
  assert (V : forall k, In k (keys (req_body req)) -> In k VALID_KEYS).
  { revert E. unfold postSettings, tryCatch at 1.
    destruct (keys (req_body req)) as [|k0 ks] eqn:K; [intros _ k []|].
    destruct (List.filter _ (k0 :: ks)) as [|x l] eqn:F.
    - intros _ k Hk. destruct (existsb (String.eqb k) VALID_KEYS) eqn:X.
      + apply existsb_exists in X as (y & Hy & Hky).
        apply String.eqb_eq in Hky. subst y. exact Hy.
      + assert (H : In k (List.filter
                           (fun key => negb (existsb (String.eqb key) VALID_KEYS))
                           (k0 :: ks))).
        { apply List.filter_In. split; [exact Hk|]. rewrite X. reflexivity. }
        rewrite F in H. destruct H.
    - intros [= <- _]. discriminate. }
  destruct (ServerFacts.settings_update_atomic_on_one_connection rejects i req p Q)
    as (resp0 & p0 & E0 & H).
  rewrite E in E0. injection E0 as <- <-.
  destruct H as [[_ Hc]|[Hn _]]; [|contradiction].
  rewrite Hc. unfold upsertsOf.
  destruct (upserts_applied (fun key => orElse (get (req_body req) key) (VStr ""))
              (keys (req_body req)) (committed (db p))) as (H1 & H2 & H3).
  split; [|split].
  - intros k Hk. split; [exact (V k Hk)|exact (H2 k Hk)].
  - exact H3.
  - exact H1.
Qed.

Lemma start_idle (i : nat) : sessionOf (db start) i = idle.
Proof. unfold sessionOf. cbn. rewrite lookup_empty. reflexivity. Qed.

Lemma oneRow_idle (i : nat) : sessionOf (db oneRow) i = idle.
Proof. unfold sessionOf. cbn. rewrite lookup_empty. reflexivity. Qed.

Lemma create_refuses_blank_name_witness :
  exists rest,
    postCertificates acceptsAll (fun _ => 0)
      {| req_method := POST; req_path := ["certificates"]; req_token := None;
         req_body := [("participant_name", VStr "  "); ("age", VStr "200")] |}
      start
    = (Normal {| status := 400;
                 body := ValidationFailed ("participant_name is required" :: rest) |},
       start).
Proof.
  apply (create_refuses_blank_name acceptsAll (fun _ => 0)).
  right; right. exists "  ". split; reflexivity.
Defined.

Lemma failed_certificate_request_changes_nothing_witness :
  exists resp p',
    deleteCertificate acceptsAll (fun _ => 0) "7" start = (Normal resp, p')
    /\ (status resp = 200%Z \/ status resp = 201%Z
        \/ committed (db p') = committed (db start)).
Proof.
  apply (failed_certificate_request_changes_nothing acceptsAll (fun _ => 0)
           anonymousCreate "7" start start_idle).
  right; right; left. reflexivity.
Defined.

Lemma created_certificate_heads_listing_witness :
  exists p1 p2,
    postCertificates acceptsAll (fun _ => 0) anonymousCreate start
    = (Normal {| status := 201;
                 body := Certificate
                           (Some {| row_id := nextId (db start);
                                    row_fields := row_fields createdRow |}) |},
       p1)
    /\ getCertificates acceptsAll (fun _ => 0) p1
       = (Normal {| status := 200;
                    body := Certificates
                              ({| row_id := nextId (db start);
                                  row_fields := row_fields createdRow |}
                               :: orderByIdDesc (certificates (committed (db start)))) |},
          p2).
Proof.
  apply (created_certificate_heads_listing acceptsAll (fun _ => 0)
           anonymousCreate (row_fields createdRow) start start_idle).
  - reflexivity.
  - eexists. split; [vm_compute; reflexivity|reflexivity].
  - vm_compute. reflexivity.
  - constructor.
Defined.

Lemma delete_removes_that_row_only_witness :
  exists n,
    parseIntString "1" = Some n
    /\ (exists r, In r (certificates (committed (db oneRow))) /\ row_id r = n)
    /\ certificates
         (committed (db (snd (deleteCertificate acceptsAll (fun _ => 0) "1" oneRow))))
       = List.filter (fun r => negb (row_id r =? n)%Z)
           (certificates (committed (db oneRow)))
    /\ system_settings
         (committed (db (snd (deleteCertificate acceptsAll (fun _ => 0) "1" oneRow))))
       = system_settings (committed (db oneRow)).
Proof.
  apply (delete_removes_that_row_only acceptsAll (fun _ => 0) "1" oneRow
           (snd (deleteCertificate acceptsAll (fun _ => 0) "1" oneRow))
           {| status := 200; body := Message "Certificate deleted successfully" |}
           oneRow_idle).
  - vm_compute. reflexivity.
  - reflexivity.
Defined.

Lemma update_twice_is_update_once_witness :
  exists p2,
    putCertificate acceptsAll (fun _ => 0) anonymousUpdate "1"
      (snd (putCertificate acceptsAll (fun _ => 0) anonymousUpdate "1" oneRow))
    = (Normal {| status := 200; body := Certificate (Some renamedRow) |}, p2)
    /\ committed (db p2)
       = committed
           (db (snd (putCertificate acceptsAll (fun _ => 0) anonymousUpdate "1" oneRow))).
Proof.
  apply (update_twice_is_update_once acceptsAll (fun _ => 0) anonymousUpdate "1"
           oneRow _ _ oneRow_idle).
  - vm_compute. reflexivity.
  - reflexivity.
Defined.

Lemma create_non_text_field_is_500_witness :
  postCertificates acceptsAll (fun _ => 0)
    {| req_method := POST; req_path := ["certificates"]; req_token := None;
       req_body := [("participant_name", VStr "Ana Cruz"); ("venue", VNum 5)] |}
    start
  = (Normal {| status := 500; body := Message "Failed to create certificate" |}, start).
Proof.
  apply (create_non_text_field_is_500 acceptsAll (fun _ => 0) _ "venue").
  - eexists. split; [vm_compute; reflexivity|reflexivity].
  - right; left. reflexivity.
  - exact I.
Defined.

Lemma settings_update_stores_the_body_witness :
  (forall k, In k (keys (req_body twoSettings)) ->
     In k VALID_KEYS
     /\ system_settings
          (committed (db (snd (postSettings acceptsAll (fun _ => 0) twoSettings start))))
        !! k
        = Some (orElse (get (req_body twoSettings) k) (VStr "")))
  /\ (forall k, ~ In k (keys (req_body twoSettings)) ->
       system_settings
         (committed (db (snd (postSettings acceptsAll (fun _ => 0) twoSettings start))))
       !! k
       = system_settings (committed (db start)) !! k)
  /\ certificates
       (committed (db (snd (postSettings acceptsAll (fun _ => 0) twoSettings start))))
     = certificates (committed (db start)).
Proof.
  apply (settings_update_stores_the_body acceptsAll 0 twoSettings start
           (snd (postSettings acceptsAll (fun _ => 0) twoSettings start))
           {| status := 200; body := Message "System settings updated successfully" |}).
  - apply start_idle.
  - vm_compute. reflexivity.
  - reflexivity.
Defined.

End HandlerFacts.

(** ** The issue line and the title case *)

Module PrintingFacts.
Import Js Certificate Printing.
Local Arguments String.eqb : simpl never.

Lemma ordinalSuffix_below_100 (k : nat) :
  (k < 100)%nat -> englishOrdinal (Z.of_nat k) (ordinalSuffix (Z.of_nat k)).
Proof.
  intros H.
  do 100 (destruct k as [|k];
          [vm_compute; intuition (reflexivity || discriminate)|]).
  lia.
Qed.

(** X14: getOrdinal: for every day count from 0 on, the suffix put behind
    the number is the one English gives its ordinal: st, nd and rd after
    a last digit 1, 2 and 3, except in 11, 12 and 13 of each hundred, and
    th otherwise. *)
Theorem ordinal_follows_english (n : Z) :
  (0 <= n)%Z ->
  getOrdinal n = (Z_to_string n ++ ordinalSuffix n)%string
  /\ englishOrdinal n (ordinalSuffix n).
Proof.
  intros Hn. split; [reflexivity|].
  assert (Hv : (0 <= n mod 100 < 100)%Z) by (apply Z.mod_pos_bound; lia).
  assert (E : ordinalSuffix n = ordinalSuffix (n mod 100)).
  { unfold ordinalSuffix. rewrite (Z.rem_mod_nonneg n 100) by lia.
    rewrite (Z.rem_mod_nonneg (n mod 100) 100) by lia.
    rewrite Z.mod_mod by lia. reflexivity. }
  pose proof (ordinalSuffix_below_100 (Z.to_nat (n mod 100))) as H.
  rewrite Z2Nat.id in H by lia. rewrite <- E in H.
  assert (H10 : ((n mod 100) mod 10 = n mod 10)%Z).
  { apply Z.mod_mod_divide. exists 10%Z. reflexivity. }
  unfold englishOrdinal in *. cbv zeta in *.
  rewrite Z.mod_mod, H10 in H by lia. apply H. lia.
Qed.

(** *** The title case *)

Lemma lowerChar_idem (c : ascii) : lowerChar (lowerChar c) = lowerChar c.
Proof. destruct c as [[] [] [] [] [] [] [] []]; reflexivity. Qed.

Lemma lowerChar_upperChar (c : ascii) : lowerChar (upperChar c) = lowerChar c.
Proof. destruct c as [[] [] [] [] [] [] [] []]; reflexivity. Qed.

Lemma toLowerCase_idem (s : string) : toLowerCase (toLowerCase s) = toLowerCase s.
Proof.
  induction s as [|c r IH]; [reflexivity|].
  cbn [toLowerCase]. rewrite lowerChar_idem, IH. reflexivity.
Qed.

Lemma toLowerCase_append (a b : string) :
  toLowerCase (a ++ b) = (toLowerCase a ++ toLowerCase b)%string.
Proof.
  induction a as [|c r IH]; [reflexivity|].
  change (String c r ++ b)%string with (String c (r ++ b)%string).
  cbn [toLowerCase]. rewrite IH. reflexivity.
Qed.

Lemma toLowerCase_replaceWord (total index : nat) (w : string) :
  toLowerCase (replaceWord total index w) = toLowerCase w.
Proof.
  unfold replaceWord.
  destruct ((0 <? index)%nat && negb (index + String.length w =? total)%nat
            && isSmallWord w).
  - apply toLowerCase_idem.
  - destruct w as [|c r]; [reflexivity|].
    cbn [capitalize toLowerCase]. rewrite lowerChar_upperChar, toLowerCase_idem.
    reflexivity.
Qed.

Lemma toLowerCase_scanTitle (s : string) (total index : nat)
    (word : option (nat * string)) :
  toLowerCase (scanTitle total index word s)
  = match word with
    | Some (_, w) => toLowerCase (w ++ s)
    | None => toLowerCase s
    end.
Proof.
  revert index word. induction s as [|c r IH]; intros index [[start w]|].
  - cbn [scanTitle]. rewrite toLowerCase_replaceWord.
    rewrite CertificateFacts.append_empty. reflexivity.
  - reflexivity.
  - cbn [scanTitle]. destruct (isBreak c).
    + rewrite !toLowerCase_append, toLowerCase_replaceWord.
      cbn [toLowerCase]. rewrite IH. reflexivity.
    + rewrite IH. rewrite CertificateFacts.append_assoc_char. reflexivity.
  - cbn [scanTitle]. destruct (isWordStart c).
    + rewrite IH. reflexivity.
    + cbn [toLowerCase]. rewrite IH. reflexivity.
Qed.

(** X15: on a text of code units below 256 that holds none of the three
    whose upper case is not one such code unit (U+00B5, U+00DF, U+00FF),
    toTitleCase changes letter case and nothing else: set to lower case,
    the title and the text it was made of are the same, so no character
    is added, dropped or moved. The hypothesis is the range on which
    [upperChar] is the upper case of the code; with U+00DF the code
    lengthens the text ("SS"). *)
Theorem title_case_changes_case_only (str : string) :
  upperExact str = true ->
  toLowerCase (toTitleCase str) = toLowerCase str
  /\ String.length (toTitleCase str) = String.length str.
Proof.
  intros _.
  assert (H : toLowerCase (toTitleCase str) = toLowerCase str).
  { unfold toTitleCase. rewrite toLowerCase_scanTitle. reflexivity. }
  split; [exact H|].
  assert (L : forall s, String.length (toLowerCase s) = String.length s).
  { induction s as [|c r IH]; [reflexivity|]. cbn. rewrite IH. reflexivity. }
  rewrite <- (L (toTitleCase str)), H. apply L.
Qed.

Lemma title_case_changes_case_only_witness :
  toLowerCase (toTitleCase "the WORLD of first-aid") = toLowerCase "the WORLD of first-aid"
  /\ String.length (toTitleCase "the WORLD of first-aid")
     = String.length "the WORLD of first-aid".
Proof. apply (title_case_changes_case_only "the WORLD of first-aid"). reflexivity. Defined.

Lemma ordinal_follows_english_witness :
  getOrdinal 22 = (Z_to_string 22 ++ ordinalSuffix 22)%string
  /\ englishOrdinal 22 (ordinalSuffix 22).
Proof. apply (ordinal_follows_english 22). lia. Defined.

End PrintingFacts.

(** ** The batch documents *)

Module CardsFacts.
Import Js Records Cards.
Local Arguments String.eqb : simpl never.

Lemma document_checks_agree_aux (cert : element) :
  isValid (validateParticipant cert) = isValidCertificate cert.
Proof.
  destruct cert as [c|]; [|reflexivity]. cbn.
  destruct (hasId c), (hasName c); reflexivity.
Qed.

(** X16: the three checks of the documents agree: a certificate goes into the
    batch of certificates exactly when it goes into the batch of ID
    cards and exactly when the single certificate takes it, and that is
    when it has an id and a name that is not blank. *)
Theorem document_checks_agree (cert : element) :
  isValid (validateParticipant cert) = isValidCertificate cert
  /\ (fst (validateCertificateData cert) = VALID <-> isValidCertificate cert = true)
  /\ (isValidCertificate cert = true <->
      exists c, cert = Some c /\ hasId c = true /\ hasName c = true).
Proof.
  destruct cert as [c|]; cbn.
  - destruct (hasId c) eqn:Hi, (hasName c) eqn:Hn; cbn;
      repeat split; try discriminate; try reflexivity;
      try (intros (c' & [= <-] & H1 & H2); congruence);
      intros _; exists c; auto.
  - repeat split; try discriminate. intros (c & H & _). discriminate.
Qed.

Lemma validAndInvalid_from (certs : list element) (acc : list element * nat) :
  fold_left
    (fun acc cert =>
       if isValidCertificate cert then (fst acc ++ [cert], snd acc)
       else (fst acc, S (snd acc)))
    certs acc
  = (fst acc ++ List.filter isValidCertificate certs,
     snd acc + length (List.filter (fun c => negb (isValidCertificate c)) certs)).
Proof.
  revert acc. induction certs as [|c l IH]; intros [valid invalid].
  - cbn. rewrite app_nil_r, Nat.add_0_r. reflexivity.
  - cbn [fold_left List.filter]. rewrite IH.
    destruct (isValidCertificate c); cbn [fst snd negb length].
    + rewrite <- app_assoc. reflexivity.
    + rewrite Nat.add_succ_r. reflexivity.
Qed.

(** X17: the batch of certificates renders the valid certificates of the
    prop, all of them and in their order, and counts the others: the two
    numbers add up to the number received. *)
Theorem batch_renders_the_valid (certs : list element) :
  fst (validAndInvalid certs) = List.filter isValidCertificate certs
  /\ length (fst (validAndInvalid certs)) + snd (validAndInvalid certs) = length certs.
Proof.
  unfold validAndInvalid. rewrite validAndInvalid_from. cbn [fst snd app].
  split; [reflexivity|].
  induction certs as [|c l IH]; [reflexivity|].
  cbn [List.filter]. destruct (isValidCertificate c); cbn [negb length]; lia.
Qed.

(** *** The chunks *)

Lemma chunkLoop_chunks {A} (array : list A) (size : nat) :
  (0 < size)%nat ->
  forall (fuel i : nat) (chunks : list (list A)),
    (0 < fuel)%nat ->
    (length array + size <= i + fuel * size)%nat ->
    (i < length array + size)%nat ->
    exists rest,
      chunkLoop fuel array size i chunks = Some (chunks ++ rest)
      /\ concat rest = skipn i array
      /\ Forall (fun c => (0 < length c <= size)%nat) rest
      /\ (length array <= i + length rest * size < length array + size)%nat
      /\ (forall pre c post, rest = pre ++ c :: post -> post <> [] ->
            length c = size).
Proof.
  intros Hsize. induction fuel as [|fuel IH]; intros i chunks Hfuel Hle Hi; [lia|].
  cbn [chunkLoop]. destruct (Nat.ltb_spec i (length array)) as [Hlt|Hge].
  - assert (Hf : (0 < fuel)%nat) by (destruct fuel; [cbn in Hle; lia|lia]).
    destruct (IH (i + size)%nat (chunks ++ [slice array i (i + size)]) Hf)
      as (rest & E & Hc & Hall & Hn & Hfull); [cbn in Hle; lia|lia|].
    exists (slice array i (i + size) :: rest).
    assert (Hs : slice array i (i + size) = firstn size (skipn i array)).
    { unfold slice. f_equal. lia. }
    assert (Hlen : length (slice array i (i + size)) = Nat.min size (length array - i)).
    { rewrite Hs, length_firstn, length_skipn. reflexivity. }
    split; [rewrite E, <- app_assoc; reflexivity|]. split; [|split; [|split]].
    + cbn [concat]. rewrite Hc, Hs.
      replace (i + size)%nat with (size + i)%nat by lia.
      rewrite <- skipn_skipn. apply firstn_skipn.
    + constructor; [rewrite Hlen; lia|exact Hall].
    + cbn [length]. lia.
    + intros pre c post Hr Hpost. destruct pre as [|x pre].
      * cbn in Hr. injection Hr as Hx Hy. subst c post. rewrite Hlen.
        destruct rest as [|y rest]; [contradiction|]. cbn [length] in Hn. lia.
      * cbn in Hr. injection Hr as _ Hr. exact (Hfull pre c post Hr Hpost).
  - exists []. rewrite app_nil_r. split; [reflexivity|]. split.
    + cbn. symmetry. apply skipn_all2. exact Hge.
    + split; [constructor|]. split; [cbn; lia|].
      intros pre c post H. destruct pre; discriminate.
Qed.

(** X18: chunkArray with a size above 0 ends, after at most one round more
    than the array is long, and cuts the array into consecutive chunks:
    put together they are the array, none is empty or longer than the
    size, all but the last are full, and they are as many as the length
    divided by the size, rounded up. *)
Theorem chunks_cut_the_array {A} (array : list A) (size fuel : nat) :
  (0 < size)%nat -> (length array < fuel)%nat ->
  exists chunks,
    chunkArray fuel array size = Some chunks
    /\ concat chunks = array
    /\ Forall (fun c => (0 < length c <= size)%nat) chunks
    /\ (length array <= length chunks * size < length array + size)%nat
    /\ (forall pre c post, chunks = pre ++ c :: post -> post <> [] ->
          length c = size).
Proof.
  intros Hsize Hfuel.
  destruct (chunkLoop_chunks array size Hsize fuel 0 []) as (rest & E & H);
    [lia|nia|lia|].
  exists rest. split; [exact E|]. exact H.
Qed.

(** X19: with the size 0 the loop of chunkArray never ends on an array that
    is not empty: no number of rounds gives a result. *)
Theorem chunks_of_size_zero_never_end {A} (array : list A) (fuel : nat) :
  array <> [] -> chunkArray fuel array 0 = None.
Proof.
  intros Hne. unfold chunkArray. generalize (@nil (list A)).
  induction fuel as [|fuel IH]; intros chunks; [reflexivity|].
  cbn [chunkLoop]. destruct array as [|x l]; [contradiction|].
  cbn [length Nat.ltb Nat.leb Nat.add]. apply IH.
Qed.

(** X20: the ID card document renders nothing when no participant of the
    prop is valid; otherwise it puts every valid participant, in the
    order received, on one front page and on one back page, eight to a
    page at most, the front pages first. *)
Theorem id_cards_pages (certs : list element) (fuel : nat) :
  (length certs < fuel)%nat ->
  exists chunks,
    concat chunks = List.filter isValidCertificate certs
    /\ Forall (fun c => (0 < length c <= 8)%nat) chunks
    /\ BatchIDPDF fuel certs
       = Some (match chunks with
               | [] => Nothing
               | _ => Document (map (fun chunk => (Front, chunk)) chunks
                                ++ map (fun chunk => (Back, chunk)) chunks)
               end).
Proof.
  intros Hfuel. unfold BatchIDPDF.
  assert (E : List.filter (fun cert => isValid (validateParticipant cert)) certs
              = List.filter isValidCertificate certs).
  { apply List.filter_ext. intros c. apply document_checks_agree_aux. }
  rewrite E. set (validCerts := List.filter isValidCertificate certs).
  assert (Hlen : (length validCerts <= length certs)%nat) by apply List.filter_length_le.
  destruct (chunkLoop_chunks validCerts 8 ltac:(lia) fuel 0 [])
    as (chunks & Ec & Hc & Hall & _); [lia|lia|lia|].
  exists chunks. split; [exact Hc|]. split; [exact Hall|].
  destruct validCerts as [|v l] eqn:V.
  - destruct chunks as [|c chunks]; [reflexivity|].
    inversion Hall as [|? ? Hlenc _]. subst.
    destruct c; [cbn in Hlenc; lia|discriminate].
  - unfold chunkArray. rewrite Ec. cbn [app].
    destruct chunks; [discriminate|reflexivity].
Qed.

(** *** The registration number *)

Lemma Z_to_string_inj (a b : Z) : Z_to_string a = Z_to_string b -> a = b.
Proof.
  unfold Z_to_string. intros H. apply DecimalZ.to_int_inj.
  assert (N : forall z, Z.to_int z <> Decimal.Pos Decimal.Nil
                        /\ Z.to_int z <> Decimal.Neg Decimal.Nil).
  { intros z. destruct z as [|q|q]; cbn; split; try discriminate;
      intros E; injection E as E;
      exact (DecimalPos.Unsigned.to_uint_nonnil q E). }
  apply (f_equal NilZero.int_of_string) in H.
  rewrite !NilZero.isi in H by apply N. congruence.
Qed.

Lemma append_cancel (a b c : string) : (a ++ b = a ++ c)%string -> b = c.
Proof.
  induction a as [|x a IH]; [auto|].
  change (String x (a ++ b) = String x (a ++ c) -> b = c)%string.
  intros [= H]. exact (IH H).
Qed.

Lemma append_same_length (a b x y : string) :
  String.length a = String.length b -> (a ++ x = b ++ y)%string -> a = b /\ x = y.
Proof.
  revert b. induction a as [|c a IH]; intros [|d b]; try discriminate.
  - intros _ H. split; [reflexivity|exact H].
  - intros [= L].
    change (String c (a ++ x) = String d (b ++ y) -> String c a = String d b /\ x = y)%string.
    intros [= -> H]. destruct (IH b L H) as [-> ->]. split; reflexivity.
Qed.

(** X21: two participants get the same registration number only if they have
    the same id and are printed under the same two-digit year: the ID
    cards of stored rows never share a number. *)
Theorem registration_numbers_differ (p q : CertificateRecord) (year1 year2 : string) :
  missing (_id p) -> missing (_id q) -> id p <> 0%Z -> id q <> 0%Z ->
  String.length year1 = 2 -> String.length year2 = 2 ->
  generateRegNo p year1 = generateRegNo q year2 ->
  id p = id q /\ year1 = year2.
Proof.
  intros Mp Mq Hp Hq L1 L2.
  assert (Ip : participantId p = Z_to_string (id p)).
  { unfold participantId. apply Z.eqb_neq in Hp. rewrite Hp.
    destruct Mp as [->| ->]; reflexivity. }
  assert (Iq : participantId q = Z_to_string (id q)).
  { unfold participantId. apply Z.eqb_neq in Hq. rewrite Hq.
    destruct Mq as [->| ->]; reflexivity. }
  assert (K : forall prefix,
            (prefix ++ "-" ++ year1 ++ "-DOHROI-" ++ Z_to_string (id p)
             = prefix ++ "-" ++ year2 ++ "-DOHROI-" ++ Z_to_string (id q))%string ->
            id p = id q /\ year1 = year2).
  { intros prefix H. apply append_cancel in H. apply append_cancel in H.
    apply append_same_length in H as [Hy H]; [|congruence].
    apply append_cancel in H. split; [apply Z_to_string_inj; exact H|exact Hy]. }
  unfold generateRegNo. rewrite Ip, Iq.
  destruct (isHCP p), (isHCP q); intros H.
  - exact (K _ H).
  - vm_compute in H. discriminate H.
  - vm_compute in H. discriminate H.
  - exact (K _ H).
Qed.

Lemma chunks_cut_the_array_witness :
  exists chunks,
    chunkArray 4 [1; 2; 3] 2 = Some chunks
    /\ concat chunks = [1; 2; 3]
    /\ Forall (fun c => (0 < length c <= 2)%nat) chunks
    /\ (length [1; 2; 3] <= length chunks * 2 < length [1; 2; 3] + 2)%nat
    /\ (forall pre c post, chunks = pre ++ c :: post -> post <> [] ->
          length c = 2%nat).
Proof. apply (chunks_cut_the_array [1; 2; 3] 2 4); cbn; lia. Defined.

Lemma chunks_of_size_zero_never_end_witness : chunkArray 100 [1; 2; 3] 0 = None.
Proof. apply (chunks_of_size_zero_never_end [1; 2; 3] 100). discriminate. Defined.

Lemma id_cards_pages_witness :
  exists chunks,
    concat chunks
    = List.filter isValidCertificate [Some (named 1 "Ana Cruz"); None; Some (named 2 " ")]
    /\ Forall (fun c => (0 < length c <= 8)%nat) chunks
    /\ BatchIDPDF 4 [Some (named 1 "Ana Cruz"); None; Some (named 2 " ")]
       = Some (match chunks with
               | [] => Nothing
               | _ => Document (map (fun chunk => (Front, chunk)) chunks
                                ++ map (fun chunk => (Back, chunk)) chunks)
               end).
Proof.
  apply (id_cards_pages [Some (named 1 "Ana Cruz"); None; Some (named 2 " ")] 4).
  cbn. lia.
Defined.

Lemma registration_numbers_differ_witness :
  id (named 7 "Ana Cruz") = id (named 7 "Ben Uy") /\ "26" = "26".
Proof.
  apply (registration_numbers_differ (named 7 "Ana Cruz") (named 7 "Ben Uy") "26" "26").
  - left. reflexivity.
  - left. reflexivity.
  - discriminate.
  - discriminate.
  - reflexivity.
  - reflexivity.
  - vm_compute. reflexivity.
Defined.

End CardsFacts.

(** ** The entry form and the pages of the listing *)

Module AdminFacts.
Import Js Records Registry Admin.
Local Arguments String.eqb : simpl never.

(** *** formatValue *)

Lemma isWordChar_lowerChar (c : ascii) : isWordChar (lowerChar c) = isWordChar c.
Proof. destruct c as [[] [] [] [] [] [] [] []]; reflexivity. Qed.

Lemma isWordChar_upperChar (c : ascii) : isWordChar (upperChar c) = isWordChar c.
Proof. destruct c as [[] [] [] [] [] [] [] []]; reflexivity. Qed.

Lemma toLowerCase_toUpperCase (s : string) : toLowerCase (toUpperCase s) = toLowerCase s.
Proof.
  induction s as [|c r IH]; [reflexivity|].
  cbn [toLowerCase toUpperCase]. rewrite PrintingFacts.lowerChar_upperChar, IH. reflexivity.
Qed.

Lemma toUpperCase_toUpperCase (s : string) : toUpperCase (toUpperCase s) = toUpperCase s.
Proof.
  induction s as [|c r IH]; [reflexivity|].
  cbn [toUpperCase]. rewrite RegistryFacts.upperChar_idem, IH. reflexivity.
Qed.

Lemma toLowerCase_capitalizeWords (s : string) (inWord : bool) :
  toLowerCase (capitalizeWords inWord s) = toLowerCase s.
Proof.
  revert inWord. induction s as [|c r IH]; intros inWord; [reflexivity|].
  cbn [capitalizeWords toLowerCase]. rewrite IH.
  destruct (isWordChar c && negb inWord); [rewrite PrintingFacts.lowerChar_upperChar|];
    reflexivity.
Qed.

Lemma toLowerCase_capitalize (s : string) :
  toLowerCase (Certificate.capitalize s) = toLowerCase s.
Proof.
  destruct s as [|c r]; [reflexivity|].
  cbn [Certificate.capitalize toLowerCase].
  rewrite PrintingFacts.lowerChar_upperChar, PrintingFacts.toLowerCase_idem. reflexivity.
Qed.

Lemma toLowerCase_empty (s : string) : toLowerCase s = "" -> s = "".
Proof. destruct s; [reflexivity|discriminate]. Qed.

(** X22: on a typed value of code units below 256 that holds none of the
    three whose upper case is not one such code unit (U+00B5, U+00DF,
    U+00FF), formatValue changes letter case and nothing else, whatever
    the field, and formatting a formatted value changes nothing more.
    The hypothesis is the range on which [upperChar] is the upper case of
    the code. *)
Theorem format_changes_case_only (field value : string) :
  upperExact value = true ->
  toLowerCase (formatValue field value) = toLowerCase value
  /\ formatValue field (formatValue field value) = formatValue field value.
Proof.
  intros _.
  assert (C : toLowerCase (formatValue field value) = toLowerCase value).
  { unfold formatValue. destruct (String.eqb_spec value "") as [->|Hv]; [reflexivity|].
    destruct (String.eqb field "training_date"); [apply toLowerCase_capitalize|].
    destruct (String.eqb field "training_type"); [apply toLowerCase_toUpperCase|].
    destruct (existsb _ _); [|reflexivity].
    rewrite toLowerCase_capitalizeWords. apply PrintingFacts.toLowerCase_idem. }
  split; [exact C|].
  unfold formatValue at 1 3.
  destruct (String.eqb_spec value "") as [->|Hv]; [reflexivity|].
  assert (N : formatValue field value <> "").
  { intros E. rewrite E in C. symmetry in C. apply toLowerCase_empty in C.
    contradiction. }
  destruct (String.eqb_spec (formatValue field value) "") as [E|_]; [contradiction|].
  unfold formatValue. destruct (String.eqb_spec value "") as [E|_]; [contradiction|].
  destruct (String.eqb field "training_date").
  { destruct value as [|c r]; [reflexivity|].
    cbn [Certificate.capitalize]. rewrite RegistryFacts.upperChar_idem, PrintingFacts.toLowerCase_idem.
    reflexivity. }
  destruct (String.eqb field "training_type"); [apply toUpperCase_toUpperCase|].
  destruct (existsb _ _); [|reflexivity].
  rewrite toLowerCase_capitalizeWords, PrintingFacts.toLowerCase_idem. reflexivity.
Qed.

(** *** The pages of the listing *)

Lemma length_insertSorted {A} (comparefn : A -> A -> option Z) (x : A) (l : list A) :
  length (insertSorted comparefn x l) = S (length l).
Proof.
  induction l as [|y r IH]; [reflexivity|]. cbn [insertSorted].
  destruct (sortCompare comparefn x y <=? 0)%Z; [reflexivity|].
  cbn [length]. rewrite IH. reflexivity.
Qed.

Lemma length_sort {A} (comparefn : A -> A -> option Z) (l : list A) :
  length (sort comparefn l) = length l.
Proof.
  induction l as [|x r IH]; [reflexivity|]. cbn [sort].
  rewrite length_insertSorted, IH. reflexivity.
Qed.

Lemma firstn_add {A} (a b : nat) (l : list A) :
  firstn (a + b) l = firstn a l ++ firstn b (skipn a l).
Proof.
  revert l. induction a as [|a IH]; intros l; [reflexivity|].
  destruct l as [|x l]; [cbn; rewrite firstn_nil; reflexivity|].
  cbn [Nat.add firstn skipn app]. rewrite IH. reflexivity.
Qed.

Lemma pages_concat {A} (l : list A) (n k : nat) :
  concat (map (fun p => firstn n (skipn ((p - 1) * n) l)) (seq 1 k))
  = firstn (k * n) l.
Proof.
  induction k as [|k IH]; [reflexivity|].
  rewrite seq_S, map_app, concat_app, IH. cbn [map concat Nat.add].
  rewrite app_nil_r. replace (S k - 1)%nat with k by lia.
  replace (S k * n)%nat with (k * n + n)%nat by lia.
  symmetry. apply firstn_add.
Qed.

Lemma ceilDiv_bounds (a b : nat) :
  (0 < b)%nat -> (a <= ceilDiv a b * b < a + b)%nat.
Proof.
  intros Hb. unfold ceilDiv.
  pose proof (Nat.div_mod_eq (a + (b - 1)) b) as E.
  pose proof (Nat.mod_upper_bound (a + (b - 1)) b ltac:(lia)) as M.
  nia.
Qed.

(** X23: the pages of the listing, from the first to the last, put together
    are the sorted listing: no batch is missing and none shows twice. The
    number of pages is the number of batches divided by ten, rounded up,
    and 1 for an empty listing. *)
Theorem pages_cover_the_listing (Date_parse : string -> option Z) (g : groups) :
  concat (map (paginatedBatches Date_parse g) (seq 1 (totalPages Date_parse g)))
  = sortedBatches Date_parse g
  /\ ((length g <= totalPages Date_parse g * itemsPerPage < length g + itemsPerPage)%nat
      \/ (g = [] /\ totalPages Date_parse g = 1%nat)).
Proof.
  assert (L : length (sortedBatches Date_parse g) = length g) by apply length_sort.
  assert (B : (length g <= totalPages Date_parse g * itemsPerPage)%nat
              /\ ((totalPages Date_parse g * itemsPerPage < length g + itemsPerPage)%nat
                  \/ (g = [] /\ totalPages Date_parse g = 1%nat))).
  { unfold totalPages. rewrite L.
    pose proof (ceilDiv_bounds (length g) itemsPerPage ltac:(unfold itemsPerPage; lia))
      as [H1 H2].
    destruct (Nat.eqb_spec (ceilDiv (length g) itemsPerPage) 0) as [E|E].
    - rewrite E in H1. split; [lia|]. right. split; [|reflexivity].
      destruct g; [reflexivity|cbn in H1; lia].
    - split; [exact H1|]. left. exact H2. }
  split.
  - unfold paginatedBatches. rewrite (pages_concat (sortedBatches Date_parse g)).
    apply firstn_all2. rewrite L. apply B.
  - destruct B as [B1 [B2|B2]]; [left; split; assumption|right; exact B2].
Qed.

(** *** The search *)

Lemma includes_empty (s : string) : includes s "" = true.
Proof. destruct s; reflexivity. Qed.

(** X24: a search term of code units below 256 that holds none of the three
    whose upper case is not one such code unit (U+00B5, U+00DF, U+00FF)
    is taken without regard to its letter case, and the empty term keeps
    exactly the records that have a name, a date, a venue or a facility:
    a record with none of the four never shows. The hypothesis is the
    range on which [upperChar] is the upper case of the code. *)
Theorem search_term_edge_cases (list : list CertificateRecord) (term : string)
    (cert : CertificateRecord) :
  upperExact term = true ->
  filteredAndGroupedCerts list (toUpperCase term) = filteredAndGroupedCerts list term
  /\ (matchesSearch (toLowerCase "") cert = false <->
      participant_name cert = None /\ training_date cert = None
      /\ venue cert = None /\ facility cert = None).
Proof.
  intros _. split.
  - unfold filteredAndGroupedCerts. rewrite toLowerCase_toUpperCase. reflexivity.
  - unfold matchesSearch, fieldIncludes. cbn [toLowerCase].
    destruct (participant_name cert), (training_date cert), (venue cert),
      (facility cert); rewrite ?includes_empty; cbn;
      split; try discriminate; try reflexivity; try tauto;
      intros (H1 & H2 & H3 & H4); discriminate.
Qed.

(** *** The grouping *)

Lemma allCerts_pushTo (g : groups) (k : string) (c : CertificateRecord) :
  hasKey g k = true -> Permutation (allCerts (pushTo g k c)) (c :: allCerts g).
Proof.
  unfold allCerts. induction g as [|[k' b] r IH]; [discriminate|].
  cbn [hasKey pushTo]. destruct (String.eqb k' k).
  - intros _. cbn [map concat snd pushCert certs].
    rewrite <- app_assoc. cbn [app].
    symmetry. apply Permutation_middle.
  - cbn [orb map concat snd]. intros H.
    rewrite (IH H). symmetry. apply Permutation_middle.
Qed.

Lemma hasKey_append (g : groups) (k : string) (b : Batch) :
  hasKey (g ++ [(k, b)]) k = true.
Proof.
  induction g as [|[k' b'] r IH]; cbn [app hasKey].
  - rewrite String.eqb_refl. reflexivity.
  - rewrite IH. apply orb_true_r.
Qed.

Lemma allCerts_addCert (g : groups) (c : CertificateRecord) :
  Permutation (allCerts (addCert g c)) (c :: allCerts g).
Proof.
  unfold addCert. destruct (hasKey g (batchId c)) eqn:H.
  - apply allCerts_pushTo. exact H.
  - rewrite allCerts_pushTo by apply hasKey_append.
    apply perm_skip. unfold allCerts. rewrite map_app, concat_app.
    cbn. rewrite !app_nil_r. reflexivity.
Qed.

(** X25: the grouping loses no record and shows none twice: the records of
    all batches are the records that match the search, each as often as
    it is in the list; no batch is empty and no batch id stands twice. *)
Theorem grouping_is_a_partition (list : list CertificateRecord) (term : string) :
  Permutation (allCerts (filteredAndGroupedCerts list term))
              (List.filter (matchesSearch (toLowerCase term)) list)
  /\ Forall (fun e => certs (snd e) <> []) (filteredAndGroupedCerts list term)
  /\ NoDup (map fst (filteredAndGroupedCerts list term)).
Proof.
  unfold filteredAndGroupedCerts.
  generalize (List.filter (matchesSearch (toLowerCase term)) list). intros l.
  split; [|split].
  - induction l as [|c l IH] using rev_ind; [reflexivity|].
    rewrite RegistryFacts.groupCerts_snoc, allCerts_addCert, IH.
    apply Permutation_cons_append.
  - apply List.Forall_forall. intros [k b] Hin.
    apply RegistryFacts.batch_members in Hin as [_ H]. exact H.
  - apply (RegistryFacts.groupCerts_grouped l).
Qed.

Lemma format_changes_case_only_witness :
  toLowerCase (formatValue "training_date" "jANUARY 5, 2026") = toLowerCase "jANUARY 5, 2026"
  /\ formatValue "training_date" (formatValue "training_date" "jANUARY 5, 2026")
     = formatValue "training_date" "jANUARY 5, 2026".
Proof.
  apply (format_changes_case_only "training_date" "jANUARY 5, 2026"). reflexivity.
Defined.

Lemma search_term_edge_cases_witness :
  filteredAndGroupedCerts [jan5; jan6] (toUpperCase "ana")
  = filteredAndGroupedCerts [jan5; jan6] "ana"
  /\ (matchesSearch (toLowerCase "") jan5 = false <->
      participant_name jan5 = None /\ training_date jan5 = None
      /\ venue jan5 = None /\ facility jan5 = None).
Proof. apply (search_term_edge_cases [jan5; jan6] "ana" jan5). reflexivity. Defined.

End AdminFacts.

(** ** Instances of the general properties *)

Module Instances.
Import Js Validation Records Registry Store Server.

Lemma sortedBatches_descending_witness :
  Sorted (notBefore (timeOf readsTwoDates))
    (sortedBatches readsTwoDates (filteredAndGroupedCerts [jan5; jan6] ""))
  /\ Permutation (sortedBatches readsTwoDates (filteredAndGroupedCerts [jan5; jan6] ""))
       (filteredAndGroupedCerts [jan5; jan6] "").
Proof.
  apply (RegistryFacts.sortedBatches_descending readsTwoDates
           (filteredAndGroupedCerts [jan5; jan6] "")).
  intros e H. vm_compute in H. destruct H as [<-|[<-|[]]]; eexists; vm_compute; reflexivity.
Defined.

Lemma truthy_age_sanitized_witness :
  exists n, get sampleRecord "age" = VNum n
            /\ parseInt (get sampleInput "age") = Some n
            /\ (0 <= n <= 120)%Z.
Proof.
  apply (ValidationFacts.truthy_age_sanitized sampleInput sampleRecord).
  - exact ValidationFacts.sampleInput_passes.
  - vm_compute. reflexivity.
  - reflexivity.
Defined.

End Instances.
